(** * tds-project-2: the page-to-answer pipeline

    A shallow embedding of [handlers/advanced_handler.py], [worker.py],
    [app.py] and [handlers/sample_handle_old.py], and the properties of
    the specification checked against it, followed by further properties
    of the code.

    Conventions of the embedding.
    - A Python [str] is a [string]; a character is a code point below
      256 (the Latin-1 range), on which [str.lower], [str.strip] and the
      classes [\s] and [\d] of [re] are written out exactly.
    - A Python exception is the [Raise] case of [result].
    - Library calls (requests, pandas readers, pdfplumber, python-magic,
      json, urllib, matplotlib, Playwright) are the fields of the record
      [Env]; the code of the repository is written out over them.
    - A float64 is modelled by the rational it denotes, or [NaN].  The
      arithmetic of pandas on floats (the parsing of a numeral, a sum, a
      mean) is written as exact arithmetic on rationals: it agrees with
      the code where no rounding and no overflow occurs, and a statement
      that needs this names the bound as a hypothesis ([Cells.exact],
      [Cells.tame]). *)

From Stdlib Require Import ZArith QArith Qround Qabs Lqa Lia Ascii String List.
From Stdlib Require DecimalString DecimalNat DecimalFacts Qcanon.
From stdpp Require Import base tactics option list strings.

Set Warnings "-register-all".

Open Scope string_scope.

(** ** Python strings *)

Module Str.

Definition code (c : ascii) : N := N_of_ascii c.

Definition between (lo hi : N) (c : ascii) : bool :=
  ((lo <=? code c) && (code c <=? hi))%N.

(** [str.isspace] on one code point below 256; also the class [\s]. *)
Definition is_space (c : ascii) : bool :=
  between 9 13 c || between 28 32 c
  || (code c =? 133)%N || (code c =? 160)%N.

(** The class [\d] on code points below 256. *)
Definition is_digit (c : ascii) : bool := between 48 57 c.

(** [str.lower] on one code point below 256. *)
Definition lower_char (c : ascii) : ascii :=
  if between 65 90 c then ascii_of_N (code c + 32)
  else if between 192 222 c && negb (code c =? 215)%N
       then ascii_of_N (code c + 32)
  else c.

Fixpoint lower (s : string) : string :=
  match s with
  | EmptyString => EmptyString
  | String c r => String (lower_char c) (lower r)
  end.

Fixpoint lstrip (s : string) : string :=
  match s with
  | String c r => if is_space c then lstrip r else s
  | EmptyString => EmptyString
  end.

Fixpoint rev_onto (s acc : string) : string :=
  match s with
  | EmptyString => acc
  | String c r => rev_onto r (String c acc)
  end.

Definition rev (s : string) : string := rev_onto s EmptyString.

(** [s.strip()] *)
Definition strip (s : string) : string := rev (lstrip (rev (lstrip s))).

(** [s.startswith(p)] *)
Fixpoint startswith (s p : string) : bool :=
  match p, s with
  | EmptyString, _ => true
  | String a p', String b s' => Ascii.eqb a b && startswith s' p'
  | String _ _, EmptyString => false
  end.

(** [s.endswith(p)] *)
Definition endswith (s p : string) : bool := startswith (rev s) (rev p).

(** [p in s] *)
Fixpoint contains (s p : string) : bool :=
  startswith s p ||
  match s with
  | EmptyString => false
  | String _ r => contains r p
  end.

Fixpoint drop (n : nat) (s : string) : string :=
  match n, s with
  | O, _ => s
  | S n', String _ r => drop n' r
  | S _, EmptyString => EmptyString
  end.

Fixpoint take (n : nat) (s : string) : string :=
  match n, s with
  | O, _ => EmptyString
  | S n', String c r => String c (take n' r)
  | S _, EmptyString => EmptyString
  end.

(** [s.replace(old, new)] for a non-empty [old]: the occurrences are
    replaced from the left, without overlap.  [skip] counts the characters
    of a replaced occurrence still to be passed over. *)
Fixpoint replace_from (skip : nat) (old new s : string) : string :=
  match s with
  | EmptyString => EmptyString
  | String c r =>
      match skip with
      | S k => replace_from k old new r
      | O =>
          if startswith s old
          then new +:+ replace_from (String.length old - 1) old new r
          else String c (replace_from O old new r)
      end
  end.

Definition replace (s old new : string) : string := replace_from O old new s.

(** Truth value of a [str]. *)
Definition truthy (s : string) : bool :=
  match s with EmptyString => false | _ => true end.

(** Truth value of a value that is [None] or a [str]. *)
Definition otruthy (o : option string) : bool :=
  match o with Some s => truthy s | None => false end.

End Str.

(** ** Regular expressions

    The patterns of the source only repeat single-character classes, so
    the matcher is structural.  It is a backtracking matcher in
    continuation-passing style, exploring the alternatives in the order
    of Python's [re]: greedy repetition tries the longest run first, lazy
    repetition the shortest, [a|b] tries [a] first. *)

Module Re.

Inductive re : Type :=
| Eps
| Chr (p : ascii -> bool)
| Seq (a b : re)
| Alt (a b : re)
| Opt (a : re)
| Star (p : ascii -> bool)
| StarLazy (p : ascii -> bool)
| Plus (p : ascii -> bool)
| Grp (n : nat) (a : re).

Definition caps := list (nat * string).

Section Matcher.
Context {A : Type}.

Fixpoint star_greedy (p : ascii -> bool) (s : string)
    (k : string -> option A) : option A :=
  match s with
  | String c r =>
      if p c
      then match star_greedy p r k with
           | Some x => Some x
           | None => k s
           end
      else k s
  | EmptyString => k s
  end.

Fixpoint star_lazy (p : ascii -> bool) (s : string)
    (k : string -> option A) : option A :=
  match k s with
  | Some x => Some x
  | None =>
      match s with
      | String c r => if p c then star_lazy p r k else None
      | EmptyString => None
      end
  end.

Fixpoint run (r : re) (s : string) (cs : caps)
    (k : string -> caps -> option A) : option A :=
  match r with
  | Eps => k s cs
  | Chr p =>
      match s with
      | String c t => if p c then k t cs else None
      | EmptyString => None
      end
  | Seq a b => run a s cs (fun s' cs' => run b s' cs' k)
  | Alt a b =>
      match run a s cs k with
      | Some x => Some x
      | None => run b s cs k
      end
  | Opt a =>
      match run a s cs k with
      | Some x => Some x
      | None => k s cs
      end
  | Star p => star_greedy p s (fun s' => k s' cs)
  | StarLazy p => star_lazy p s (fun s' => k s' cs)
  | Plus p =>
      match s with
      | String c t =>
          if p c then star_greedy p t (fun s' => k s' cs) else None
      | EmptyString => None
      end
  | Grp n a =>
      run a s cs (fun s' cs' =>
        k s' ((n, Str.take (String.length s - String.length s') s) :: cs'))
  end.
End Matcher.

(** A match: the text of group 0 and the numbered groups. *)
Record mtch := { whole : string; groups : caps }.

Definition match_here (r : re) (s : string) : option mtch :=
  run r s [] (fun s' cs =>
    Some {| whole := Str.take (String.length s - String.length s') s;
            groups := cs |}).

(** [re.search]: the match at the leftmost position that has one. *)
Fixpoint search (r : re) (s : string) : option mtch :=
  match match_here r s with
  | Some m => Some m
  | None =>
      match s with
      | String _ t => search r t
      | EmptyString => None
      end
  end.

(** [m.group(n)] for a group that took part in the match. *)
Fixpoint group_in (cs : caps) (n : nat) : string :=
  match cs with
  | [] => EmptyString
  | (i, t) :: r => if Nat.eqb i n then t else group_in r n
  end.

Definition group (m : mtch) (n : nat) : string := group_in (groups m) n.

(** Classes and literals. *)
Definition ch (a : ascii) : ascii -> bool := Ascii.eqb a.
Definition anyc : ascii -> bool := fun _ => true.
(** [.] without DOTALL *)
Definition dot : ascii -> bool := fun c => negb (Str.code c =? 10)%N.
Definition one_of (l : string) : ascii -> bool :=
  fun c => existsb (Ascii.eqb c) (list_ascii_of_string l).
Definition none_of (p : ascii -> bool) : ascii -> bool := fun c => negb (p c).

Fixpoint lit (s : string) : re :=
  match s with
  | EmptyString => Eps
  | String c r => Seq (Chr (ch c)) (lit r)
  end.

(** A literal under [re.IGNORECASE]; the literal is given in lower case. *)
Fixpoint liti (s : string) : re :=
  match s with
  | EmptyString => Eps
  | String c r => Seq (Chr (fun x => Ascii.eqb (Str.lower_char x) c)) (liti r)
  end.

Fixpoint seqs (l : list re) : re :=
  match l with
  | [] => Eps
  | [a] => a
  | a :: r => Seq a (seqs r)
  end.

Fixpoint alts (l : list re) : re :=
  match l with
  | [] => Chr (fun _ => false)
  | [a] => a
  | a :: r => Alt a (alts r)
  end.

(** The language of a pattern, for the correctness of the matcher: the
    texts a pattern matches, whatever the order of the search. *)
Fixpoint all_chars (p : ascii -> bool) (s : string) : bool :=
  match s with
  | EmptyString => true
  | String c r => p c && all_chars p r
  end.

Inductive matches : re -> string -> Prop :=
| m_eps : matches Eps EmptyString
| m_chr p c : p c = true -> matches (Chr p) (String c EmptyString)
| m_seq a b s t : matches a s -> matches b t -> matches (Seq a b) (s +:+ t)
| m_alt_l a b s : matches a s -> matches (Alt a b) s
| m_alt_r a b s : matches b s -> matches (Alt a b) s
| m_opt_skip a : matches (Opt a) EmptyString
| m_opt_take a s : matches a s -> matches (Opt a) s
| m_star p s : all_chars p s = true -> matches (Star p) s
| m_star_lazy p s : all_chars p s = true -> matches (StarLazy p) s
| m_plus p c s :
    p c = true -> all_chars p s = true -> matches (Plus p) (String c s)
| m_grp n a s : matches a s -> matches (Grp n a) s.

End Re.

(** ** Python values *)

Module Py.

(** A value or an exception. *)
Inductive result (A : Type) : Type :=
| Ok (a : A)
| Raise (exc : string).
Arguments Ok {A} a.
Arguments Raise {A} exc.

(** The next statement runs when the one before it did not raise. *)
Definition bind {A B : Type} (r : result A) (f : A -> result B) : result B :=
  match r with
  | Ok a => f a
  | Raise e => Raise e
  end.

(** A float: the rational it denotes, or not a number. *)
Inductive pyfloat : Type :=
| Fin (q : Q)
| NaN.

(** The values that travel in a payload or come out of [json.loads].
    A [VDict] lists the items of the dict. *)
Inductive pyval : Type :=
| VNone
| VBool (b : bool)
| VInt (z : Z)
| VFloat (f : pyfloat)
| VStr (s : string)
| VList (l : list pyval)
| VDict (items : list (string * pyval)).

(** [d[k]] / [d.get(k)] on the items of a dict. *)
Fixpoint dict_get (items : list (string * pyval)) (k : string) : option pyval :=
  match items with
  | [] => None
  | (k', v) :: r => if String.eqb k' k then Some v else dict_get r k
  end.

(** The value of a parameter that is [None] or a [str]. *)
Definition of_ostr (o : option string) : pyval :=
  match o with Some s => VStr s | None => VNone end.

(** Truth value. *)
Definition truth (v : pyval) : bool :=
  match v with
  | VNone => false
  | VBool b => b
  | VInt z => negb (z =? 0)%Z
  | VFloat (Fin q) => negb (Qeq_bool q 0)
  | VFloat NaN => true
  | VStr s => Str.truthy s
  | VList l => match l with [] => false | _ => true end
  | VDict l => match l with [] => false | _ => true end
  end.

End Py.
Import Py.

(** ** The libraries the handler calls *)

Inductive ftype : Type := Csv | Xlsx | Pdf.

(** A column as a pandas reader delivers it: [rc_name] is [str(c)] for
    its label [c], [rc_numeric] tells whether its dtype is a number, and
    [rc_cells] holds [str(v)] for each of its values [v], which is what
    [astype(str)] makes of it. *)
Record raw_column := {
  rc_name : string;
  rc_numeric : bool;
  rc_cells : list string
}.

Definition raw_frame := list raw_column.

(** A column after [coerce_numeric]: numbers with missing cells, or, for
    a column the coercion left alone, what the reader delivered. *)
Inductive coldata : Type :=
| Numeric (vals : list (option Q))
| Original (numeric : bool) (cells : list string).

Record column := {
  col_name : string;
  col_data : coldata
}.

Definition frame := list column.

(** What [df_plot_to_base64] asks matplotlib to draw. *)
Inductive plot_spec : Type :=
| PlotXY (x y : string)
| PlotY (y : string)
| PlotAll.

(** A cell of a table pdfplumber extracted. *)
Definition pdf_table := list (list (option string)).

Record Env := {
  (** [urllib.parse.urljoin(base, url)]; it raises ValueError on a URL
      it cannot split, such as one with an unmatched bracket in the
      host. *)
  urljoin : string -> string -> result string;
  (** [requests.get(url)] followed by [raise_for_status()]: the content
      and the Content-Type header (the empty string when absent), or
      [None] when either raises. *)
  http_get : string -> option (list Byte.byte * string);
  (** [None] when the import of python-magic failed; else
      [magic.from_buffer(bytes, mime=True)], which raises or returns a
      [str]. *)
  magic : option (list Byte.byte -> result string);
  (** [pd.read_csv] and [pd.read_excel]; [None] when they raise. *)
  read_csv : list Byte.byte -> option raw_frame;
  read_excel : list Byte.byte -> option raw_frame;
  (** [pdfplumber.open(...).pages]: [None] when opening or reading
      raises; per page, [page.extract_tables()], [None] when it raises. *)
  pdf_pages : list Byte.byte -> option (list (option (list pdf_table)));
  (** [pd.DataFrame(rows, columns=header)]; [None] when it raises. *)
  make_frame : list (option string) -> pdf_table -> option raw_frame;
  (** [json.loads]; [None] when it raises. *)
  json_loads : string -> option pyval;
  (** [page.evaluate('() => window.location.origin')] when [page] is
      truthy; [None] when [page] is falsy or the call raises. *)
  page_origin : option string;
  (** scheme and netloc of [urlparse(base_url)], as [scheme://netloc];
      [urlparse] raises ValueError as [urljoin] does *)
  base_origin : string -> result string;
  (** [Series.corr] of two numeric columns *)
  pearson : list (option Q) -> list (option Q) -> result pyfloat;
  (** The message of the exception pandas raises when a label that
      several columns carry is reduced to one float: by [float] of the
      sums or the means of the frame [df[label]], or by [corr].  The
      arguments are the operation ([sum], [mean] or [corr]), the table
      and the label; the text depends on the version of pandas. *)
  frame_error : string -> frame -> string -> string;
  (** [float(df[a].corr(df[b]))] when [df[a]] or [df[b]] is a frame:
      what pandas makes of it, a float or an exception *)
  frame_corr : frame -> string -> string -> result pyfloat;
  (** the drawing of a chart and [fig.savefig] to PNG, base64-encoded *)
  savefig_b64 : frame -> plot_spec -> result string
}.

(** ** Format Detector: [detect_file_type] *)

Module Detect.

Definition has (s p : string) : bool := Str.contains s p.

Definition detect_file_type (E : Env) (url content_type : string)
    (content_bytes : list Byte.byte) : option ftype :=
  let by_suffix :=
    if Str.endswith (Str.lower url) ".csv" then Some Csv
    else if Str.endswith (Str.lower url) ".xlsx"
            || Str.endswith (Str.lower url) ".xls" then Some Xlsx
    else if Str.endswith (Str.lower url) ".pdf" then Some Pdf
    else None in
  let by_magic :=
    match magic E with
    | Some from_buffer =>
        match from_buffer content_bytes with
        | Ok m =>
            if Str.truthy m then
              let lm := Str.lower m in
              if has lm "pdf" then Some Pdf
              else if has lm "excel" || has lm "vnd.ms-excel"
                      || has lm "spreadsheet" then Some Xlsx
              else if has lm "csv" || has lm "text/plain" then Some Csv
              else by_suffix
            else by_suffix
        | Raise _ => by_suffix
        end
    | None => by_suffix
    end in
  if Str.truthy content_type then
    let lc := Str.lower content_type in
    if has lc "csv" || has lc "text/plain" then Some Csv
    else if has lc "excel" || has lc "spreadsheet" || has lc "xlsx"
            || has lc "xls" then Some Xlsx
    else if has lc "pdf" then Some Pdf
    else by_magic
  else by_magic.

(** The three signals of the specification, each on its own. *)

(** What the declared content-type indicates. *)
Definition declared_format (content_type : string) : option ftype :=
  let lc := Str.lower content_type in
  if has lc "csv" || has lc "text/plain" then Some Csv
  else if has lc "excel" || has lc "spreadsheet" || has lc "xlsx"
          || has lc "xls" then Some Xlsx
  else if has lc "pdf" then Some Pdf
  else None.

(** What the MIME type sniffed from the content indicates. *)
Definition sniffed_format (mime : string) : option ftype :=
  let lm := Str.lower mime in
  if has lm "pdf" then Some Pdf
  else if has lm "excel" || has lm "vnd.ms-excel" || has lm "spreadsheet"
       then Some Xlsx
  else if has lm "csv" || has lm "text/plain" then Some Csv
  else None.

(** What the file suffix of the URL indicates. *)
Definition suffix_format (url : string) : option ftype :=
  let u := Str.lower url in
  if Str.endswith u ".csv" then Some Csv
  else if Str.endswith u ".xlsx" || Str.endswith u ".xls" then Some Xlsx
  else if Str.endswith u ".pdf" then Some Pdf
  else None.

(** What python-magic reports for the content, when it is installed,
    returns, and the MIME type indicates a format. *)
Definition sniffed (E : Env) (content_bytes : list Byte.byte) : option ftype :=
  match magic E with
  | Some from_buffer =>
      match from_buffer content_bytes with
      | Ok mime => sniffed_format mime
      | Raise _ => None
      end
  | None => None
  end.

(** The first of three signals that indicates a format. *)
Definition first_of (a b c : option ftype) : option ftype :=
  match a, b with
  | Some f, _ => Some f
  | None, Some f => Some f
  | None, None => c
  end.

End Detect.

(** ** Table Normalizer: the renaming of the columns and [coerce_numeric] *)

Module Table.

(** The characters the pattern [[^\d.\-]+] leaves in place. *)
Definition numeric_char (c : ascii) : bool :=
  Str.is_digit c || Ascii.eqb c "." || Ascii.eqb c "-".

(** [s.str.replace(r'[^\d.\-]+', '', regex=True)] on one cell. *)
Fixpoint strip_non_numeric (s : string) : string :=
  match s with
  | EmptyString => EmptyString
  | String c r =>
      if numeric_char c then String c (strip_non_numeric r)
      else strip_non_numeric r
  end.

(** A run of decimal digits: its value on top of [acc], its length, and
    what follows it. *)
Fixpoint scan_digits (s : string) (acc : N) (n : nat) : N * nat * string :=
  match s with
  | String c r =>
      if Str.is_digit c
      then scan_digits r (acc * 10 + (Str.code c - 48))%N (S n)
      else (acc, n, s)
  | EmptyString => (acc, n, s)
  end.

Definition pow10 (n : nat) : positive := Pos.pow 10 (Pos.of_nat n).

Definition decimal (neg : bool) (ip fp : N) (nf : nat) : Q :=
  let scale := match nf with O => 1%positive | _ => pow10 nf end in
  let m := (Z.of_N ip * Z.pos scale + Z.of_N fp)%Z in
  Qred (Qmake (if neg then - m else m)%Z scale).

(** [pd.to_numeric(..., errors='coerce')] on one cell made of digits,
    points and minus signs: an optional minus sign, digits, an optional
    point, digits, with a digit somewhere; anything else is missing.
    The value is the rational the numeral denotes.  The float of the
    code is this rational for an integer of magnitude 2^53 at most
    ([Cells.exact]); for a longer numeral or one with a fraction it is
    the float64 nearest to it, and a statement about the value of such a
    cell is not made from this definition. *)
Definition to_numeric (s : string) : option Q :=
  let '(neg, body) :=
    match s with
    | String "-" r => (true, r)
    | _ => (false, s)
    end in
  let '(ip, ni, rest) := scan_digits body 0 0 in
  match rest with
  | EmptyString =>
      match ni with O => None | _ => Some (decimal neg ip 0 0) end
  | String "." r =>
      let '(fp, nf, rest') := scan_digits r 0 0 in
      match rest' with
      | EmptyString =>
          match (ni + nf)%nat with
          | O => None
          | _ => Some (decimal neg ip fp nf)
          end
      | _ => None
      end
  | _ => None
  end.

Definition coerce_cell (s : string) : option Q :=
  to_numeric (strip_non_numeric s).

(** [df.rename(columns=lambda c: str(c).strip())] *)
Definition rename_stripped (df : raw_frame) : raw_frame :=
  map (fun c => {| rc_name := Str.strip (rc_name c);
                   rc_numeric := rc_numeric c;
                   rc_cells := rc_cells c |}) df.

(** How many columns carry the label. *)
Definition label_count (df : raw_frame) (name : string) : nat :=
  List.length (List.filter (fun c => String.eqb (rc_name c) name) df).

(** [coerce_numeric].  For a label carried by one column, [df[c]] is a
    Series and the column is replaced by its coercion.  For a label
    carried by several, [df[c]] is a DataFrame, [.str] raises
    AttributeError, the [except] passes and the columns stay. *)
Definition coerce_column (df : raw_frame) (c : raw_column) : column :=
  {| col_name := rc_name c;
     col_data :=
       if Nat.eqb (label_count df (rc_name c)) 1
       then Numeric (map coerce_cell (rc_cells c))
       else Original (rc_numeric c) (rc_cells c) |}.

Definition coerce_numeric (df : raw_frame) : frame :=
  map (coerce_column df) df.

(** The two steps under the comment [clean and coerce]. *)
Definition normalize (df : raw_frame) : frame :=
  coerce_numeric (rename_stripped df).

(** [df.columns] *)
Definition columns (df : frame) : list string := map col_name df.

(** [df[name]] *)
Inductive item : Type :=
| Series (d : coldata)
| DataFrame
| KeyError.

Definition getitem (df : frame) (name : string) : item :=
  match List.filter (fun c => String.eqb (col_name c) name) df with
  | [] => KeyError
  | [c] => Series (col_data c)
  | _ => DataFrame
  end.

(** [df.select_dtypes(include=['number']).columns] *)
Definition numeric_columns (df : frame) : list string :=
  columns (List.filter (fun c => match col_data c with
                            | Numeric _ => true
                            | Original numeric _ => numeric
                            end) df).

(** [s.dropna()] *)
Definition dropna (vals : list (option Q)) : list Q :=
  omap (fun v => v) vals.

Definition total (l : list Q) : Q := fold_left Qplus l 0%Q.

(** [float(s.dropna().sum())], as the exact sum.  The float of the code
    is this sum where the values are integers whose magnitudes add up to
    2^53 at most; it is finite where they add up to 2^1000 at most
    ([Cells.bounded]) and can be infinite beyond. *)
Definition series_sum (vals : list (option Q)) : pyfloat :=
  Fin (Qred (total (dropna vals))).

(** [float(s.dropna().mean())]; the mean of no values is NaN.  The
    scope is that of [series_sum]. *)
Definition series_mean (vals : list (option Q)) : pyfloat :=
  match dropna vals with
  | [] => NaN
  | l => Fin (Qred (total l / inject_Z (Z.of_nat (List.length l)))%Q)
  end.

End Table.

(** ** The handler: [handle_quiz_page] *)

Module Handler.
Import Re.

(** The double quote, which the patterns name often. *)
Definition dq : ascii := ascii_of_N 34.

Definition quote (c : ascii) : bool := Ascii.eqb c dq || Ascii.eqb c "'".

(** [[^\s'\x22<>]] *)
Definition url_char (c : ascii) : bool :=
  negb (Str.is_space c || quote c || Ascii.eqb c "<" || Ascii.eqb c ">").

(** [https?://] under IGNORECASE *)
Definition re_scheme : re := seqs [liti "http"; Opt (liti "s"); lit "://"].

(** Rule 1 (the double quote is written [\x22] in these comments):
    [https?://[^\s'\x22<>]*(?:/submit|/scrape|/api/submit|/submit-answer|/submit_result)[^\s'\x22<>]*] *)
Definition re_submit_path : re :=
  seqs [re_scheme; Star url_char;
        alts [liti "/submit"; liti "/scrape"; liti "/api/submit";
              liti "/submit-answer"; liti "/submit_result"];
        Star url_char].

(** Rule 2, first pattern:
    [[\x22']submit[_-]?url[\x22']\s*:\s*[\x22'](https?://[^\x22']+)[\x22']] *)
Definition re_submit_key : re :=
  seqs [Chr quote; liti "submit"; Opt (Chr (one_of "_-")); liti "url";
        Chr quote; Star Str.is_space; Chr (ch ":"); Star Str.is_space;
        Chr quote;
        Grp 1 (seqs [re_scheme; Plus (none_of quote)]);
        Chr quote].

(** Rule 2, second pattern:
    [[\x22'](https?://[^\x22']*(?:submit|scrape)[^\x22']* )[\x22']],
    with a space put here between the last star and the parenthesis *)
Definition re_quoted_submit : re :=
  seqs [Chr quote;
        Grp 1 (seqs [re_scheme; Star (none_of quote);
                     alts [liti "submit"; liti "scrape"];
                     Star (none_of quote)]);
        Chr quote].

(** Rule 4: [(submit|scrape|api)] *)
Definition re_href : re :=
  Grp 1 (alts [liti "submit"; liti "scrape"; liti "api"]).

(** Rule 5: [\{[\s\S]*?\}] *)
Definition re_braces : re :=
  seqs [Chr (ch "{"); StarLazy anyc; Chr (ch "}")].

(** Rule 5: [<span[^>]*class=[\x22']origin[\x22'][^>]*>.*?</span>] *)
Definition re_origin_span : re :=
  seqs [liti "<span"; Star (none_of (ch ">")); liti "class="; Chr quote;
        liti "origin"; Chr quote; Star (none_of (ch ">")); Chr (ch ">");
        StarLazy dot; liti "</span>"].

(** Rule 6: [https?://[^\s'\x22<>]*(?:submit|scrape)[^\s'\x22<>]*] *)
Definition re_submit_any : re :=
  seqs [re_scheme; Star url_char; alts [liti "submit"; liti "scrape"];
        Star url_char].

(** The embedded answer: [\{[\s\S]*\x22answer\x22[\s\S]*\}] *)
Definition re_answer : re :=
  seqs [Chr (ch "{"); Star anyc; Chr (ch dq); lit "answer"; Chr (ch dq);
        Star anyc; Chr (ch "}")].

(** [re.sub(pattern, repl, s)] for a pattern that matches no empty text
    and a replacement without backslash. *)
Fixpoint sub_from (skip : nat) (r : re) (repl s : string) : string :=
  match s with
  | EmptyString => EmptyString
  | String c t =>
      match skip with
      | S k => sub_from k r repl t
      | O =>
          match match_here r s with
          | Some m => repl +:+ sub_from (String.length (whole m) - 1) r repl t
          | None => String c (sub_from O r repl t)
          end
      end
  end.

Definition sub (r : re) (repl s : string) : string := sub_from O r repl s.

(** What the handler reads off the page: the values of the expressions of
    the source over [html] and the [soup] parsed from it. *)
Record page_view := {
  (** [soup.get_text] with a newline as separator *)
  body_text : string;
  (** [s.string for s in soup.find_all('script')], [None] included *)
  script_strings : list (option string);
  (** [soup.find('form', action=True).get('action')]; [None] when no
      form carries the attribute *)
  form_action : option string;
  (** [a.get('href') for a in soup.find_all('a', href=True)] *)
  hrefs : list string;
  (** [pre.get_text() for pre in soup.find_all(['pre', 'code'])] *)
  pre_texts : list string;
  (** [parse_tables_from_html(html) if html else []], that is
      [pd.read_html(html)], or [[]] when it raises or [html] is empty *)
  tables : list raw_frame
}.

(** [[s.string for s in soup.find_all('script') if s.string]] *)
Definition scripts (P : page_view) : list string :=
  omap (fun o => match o with
                 | Some s => if Str.truthy s then Some s else None
                 | None => None
                 end) (script_strings P).

(** [base_url or ''] *)
Definition or_empty (o : option string) : string :=
  match o with
  | Some s => s
  | None => EmptyString
  end.

Section Resolver.
Variable E : Env.
Variable P : page_view.
Variable base_url : option string.

(** Each rule yields the value it would assign to [submit_url]. *)

Definition rule1 : option string :=
  match search re_submit_path (body_text P) with
  | Some m => Some (whole m)
  | None => None
  end.

Fixpoint rule2_scan (l : list string) : option string :=
  match l with
  | [] => None
  | st :: r =>
      match search re_submit_key st with
      | Some m2 => Some (group m2 1)
      | None =>
          match search re_quoted_submit st with
          | Some m3 => Some (group m3 1)
          | None => rule2_scan r
          end
      end
  end.

Definition rule2 : option string := rule2_scan (scripts P).

(** [urljoin] in rules 3 and 4 stands outside any [try]: when it raises,
    the rule raises, and so does the handler. *)
Definition joined (base url : string) : result (option string) :=
  bind (urljoin E base url) (fun u => Ok (Some u)).

Definition rule3 : result (option string) :=
  match form_action P with
  | Some action =>
      if Str.truthy action then
        if Str.startswith action "http" then Ok (Some action)
        else if Str.otruthy base_url
             then joined (or_empty base_url) action
        else Ok None
      else Ok None
  | None => Ok None
  end.

Fixpoint rule4_scan (l : list string) : result (option string) :=
  match l with
  | [] => Ok None
  | href :: r =>
      if Str.truthy href
         && match search re_href href with Some _ => true | None => false end
      then joined (or_empty base_url) href
      else rule4_scan r
  end.

Definition rule4 : result (option string) := rule4_scan (hrefs P).

(** What [except Exception: continue] makes of a call in rule 5: the
    loop goes on as it does when nothing is assigned. *)
Definition caught (r : result string) : option string :=
  match r with
  | Ok u => Some u
  | Raise _ => None
  end.

(** The origin that replaces the placeholder: the live one when it is
    truthy, else the one of the base URL when there is a base URL. *)
Definition live_origin : option string :=
  if Str.otruthy (page_origin E) then page_origin E
  else if Str.otruthy base_url
       then caught (base_origin E (or_empty base_url))
  else None.

Definition has_placeholder (candidate : string) : bool :=
  Str.contains candidate "<span"
  || Str.contains candidate "window.location.origin"
  || Str.contains candidate "{{origin}}".

(** One [<pre>] or [<code>] block: [Some u] when the block assigns [u]
    and breaks, [None] when the loop goes on. *)
Definition rule5_block (text : string) : option string :=
  match search re_braces text with
  | Some jm =>
      match json_loads E (whole jm) with
      | Some (VDict j) =>
          match dict_get j "url" with
          | Some (VStr candidate) =>
              if has_placeholder candidate then
                match live_origin with
                | Some origin =>
                    if Str.truthy origin then
                      let fixed := sub re_origin_span origin candidate in
                      let fixed :=
                        Str.replace
                          (Str.replace fixed "window.location.origin" origin)
                          "{{origin}}" origin in
                      caught (urljoin E origin fixed)
                    else None
                | None => None
                end
              else caught (urljoin E (or_empty base_url) candidate)
          | _ => None
          end
      | _ => None
      end
  | None => None
  end.

Fixpoint rule5_scan (l : list string) : option string :=
  match l with
  | [] => None
  | text :: r =>
      match rule5_block text with
      | Some u => Some u
      | None => rule5_scan r
      end
  end.

Definition rule5 : option string := rule5_scan (pre_texts P).

Definition rule6 : option string :=
  match search re_submit_any (body_text P) with
  | Some m4 => Some (whole m4)
  | None => None
  end.

(** [if not submit_url: <rule>]: a rule runs only while [submit_url] is
    still falsy, and leaves it as it is when it assigns nothing. *)
Definition unless_found (cur rule : option string) : option string :=
  if Str.otruthy cur then cur
  else match rule with
       | Some u => Some u
       | None => cur
       end.

(** The same for a rule that can raise: it raises only when it runs. *)
Definition unless_found_or_raise (cur : option string)
    (rule : result (option string)) : result (option string) :=
  if Str.otruthy cur then Ok cur
  else bind rule (fun found => Ok (unless_found cur found)).

(** [submit_url] as it stands before the check [if not submit_url], or
    the exception of rule 3 or 4. *)
Definition discover_submit_url : result (option string) :=
  bind (unless_found_or_raise (unless_found rule1 rule2) rule3) (fun s3 =>
  bind (unless_found_or_raise s3 rule4) (fun s4 =>
  Ok (unless_found (unless_found s4 rule5) rule6))).
End Resolver.

(** *** Dataset Locator *)

(** [parse_table_from_pdf_bytes]: the first table of the first page where
    it has two rows or more and a frame can be built of it. *)
Fixpoint first_pdf_table (E : Env)
    (pages : list (option (list pdf_table))) : option raw_frame :=
  match pages with
  | [] => None
  | page :: r =>
      match page with
      | Some ((header :: row :: more) :: _) =>
          match make_frame E header (row :: more) with
          | Some df => Some df
          | None => first_pdf_table E r
          end
      | _ => first_pdf_table E r
      end
  end.

Definition parse_table_from_pdf_bytes (E : Env)
    (content_bytes : list Byte.byte) : option raw_frame :=
  match pdf_pages E content_bytes with
  | Some pages => first_pdf_table E pages
  | None => None
  end.

(** [parse_table_from_bytes] for the two formats it is called with;
    [None] when the reader raises. *)
Definition parse_table_from_bytes (E : Env) (content_bytes : list Byte.byte)
    (ft : ftype) : option raw_frame :=
  match ft with
  | Csv => read_csv E content_bytes
  | Xlsx => read_excel E content_bytes
  | Pdf => None
  end.

(** The URL [download_url_bytes] requests: [url] joined to the base when
    there is one.  When [urljoin] raises there is no such URL. *)
Definition resolved (E : Env) (base_url : option string) (url : string)
    : result string :=
  if Str.otruthy base_url then urljoin E (or_empty base_url) url else Ok url.

(** [download_url_bytes(url, base_url)]: the content, the content-type
    and the URL requested; [None] when it raises, in [urljoin] before
    anything is requested or in the request. *)
Definition download_url_bytes (E : Env) (url : string)
    (base_url : option string) : option (list Byte.byte * string * string) :=
  match resolved E base_url url with
  | Ok url =>
      match http_get E url with
      | Some (content, content_type) => Some (content, content_type, url)
      | None => None
      end
  | Raise _ => None
  end.

(** The log of the requests after the download of [link] was tried:
    its URL is requested unless [urljoin] raised. *)
Definition logged (E : Env) (base_url : option string) (link : string)
    (log : list string) : list string :=
  match resolved E base_url link with
  | Ok url => url :: log
  | Raise _ => log
  end.

(** The hyperlinks kept as candidates. *)
Definition is_candidate (link : string) : bool :=
  let ll := Str.lower link in
  existsb (Str.contains ll) [".csv"; ".xls"; ".xlsx"; ".pdf"].

Definition candidates (P : page_view) : list string :=
  List.filter is_candidate (hrefs P).

(** The loop over the candidates: the URLs requested, in order, and the
    table [df] holds when the loop is left. *)
Fixpoint scan_candidates (E : Env) (base_url : option string)
    (links : list string) : list string * option raw_frame :=
  match links with
  | [] => ([], None)
  | link :: r =>
      let go_on := let '(log, df) := scan_candidates E base_url r in
                   (logged E base_url link log, df) in
      match download_url_bytes E link base_url with
      | None => go_on
      | Some (content_bytes, content_type, real_url) =>
          match Detect.detect_file_type E real_url content_type content_bytes with
          | Some Pdf =>
              match parse_table_from_pdf_bytes E content_bytes with
              | Some df => ([real_url], Some df)
              | None => go_on
              end
          | Some ft =>
              match parse_table_from_bytes E content_bytes ft with
              | Some df => ([real_url], Some df)
              | None => go_on
              end
          | None => go_on
          end
      end
  end.

(** The table the pipeline works on, with the URLs requested on the way. *)
Definition locate_dataset (E : Env) (P : page_view)
    (base_url : option string) : list string * option raw_frame :=
  match tables P with
  | df :: _ => ([], Some df)
  | [] => scan_candidates E base_url (candidates P)
  end.

(** One script body in the search for an embedded answer: [Some v] when
    the handler returns [v] as the answer, [None] when the loop goes on
    (no match, [json.loads] raises, no such key, or [j] is no dict and
    the test or the subscript raises). *)
Definition script_answer (E : Env) (st : string) : option pyval :=
  match search re_answer st with
  | Some jm =>
      match json_loads E (whole jm) with
      | Some (VDict j) => dict_get j "answer"
      | _ => None
      end
  | None => None
  end.

Fixpoint embedded_answer (E : Env) (l : list string) : option pyval :=
  match l with
  | [] => None
  | st :: r =>
      match script_answer E st with
      | Some v => Some v
      | None => embedded_answer E r
      end
  end.

(** *** Instruction Classifier: [detect_instruction] *)

(** [[a-z0-9 _\-\(\)]] *)
Definition name_char (c : ascii) : bool :=
  Str.between 97 122 c || Str.is_digit c || one_of " _-()" c.

(** [sum of (?:the )?\x22?([a-z0-9 _\-\(\)]+)\x22? column] *)
Definition re_sum : re :=
  seqs [lit "sum of "; Opt (lit "the "); Opt (Chr (ch dq));
        Grp 1 (Plus name_char); Opt (Chr (ch dq)); lit " column"].

(** [(?:mean|average) of (?:the )?\x22?([a-z0-9 _\-\(\)]+)\x22? column] *)
Definition re_mean : re :=
  seqs [alts [lit "mean"; lit "average"]; lit " of "; Opt (lit "the ");
        Opt (Chr (ch dq)); Grp 1 (Plus name_char); Opt (Chr (ch dq));
        lit " column"].

(** [correl(?:ation|ate)(?: between)? ([a-z0-9 _\-\(\)]+) (?:and|,) ([a-z0-9 _\-\(\)]+)] *)
Definition re_corr : re :=
  seqs [lit "correl"; alts [lit "ation"; lit "ate"]; Opt (lit " between");
        lit " "; Grp 1 (Plus name_char); lit " "; alts [lit "and"; lit ","];
        lit " "; Grp 2 (Plus name_char)].

(** [x[:=]\s*([a-z0-9 _\-\(\)]+)[,;]?\s*y[:=]\s*([a-z0-9 _\-\(\)]+)] *)
Definition re_xy : re :=
  seqs [lit "x"; Chr (one_of ":="); Star Str.is_space;
        Grp 1 (Plus name_char); Opt (Chr (one_of ",;")); Star Str.is_space;
        lit "y"; Chr (one_of ":="); Star Str.is_space;
        Grp 2 (Plus name_char)].

(** [sum.*?([a-z0-9 _\-\(\)]+) column] *)
Definition re_sum_loose : re :=
  seqs [lit "sum"; StarLazy dot; Grp 1 (Plus name_char); lit " column"].

(** The dict [instr]: a key that is absent reads [None]. *)
Record instruction := {
  op : option string;
  col : option string;
  x : option string;
  y : option string
}.

Definition no_instruction : instruction :=
  {| op := None; col := None; x := None; y := None |}.

(** The instructions of the specification, as the dicts the classifier
    makes for them. *)
Definition sum_of (c : string) : instruction :=
  {| op := Some "sum"; col := Some c; x := None; y := None |}.

Definition mean_of (c : string) : instruction :=
  {| op := Some "mean"; col := Some c; x := None; y := None |}.

Definition plot_of (a b : string) : instruction :=
  {| op := Some "plot"; col := None; x := Some a; y := Some b |}.

Definition captured (m : mtch) (n : nat) : option string :=
  Some (Str.strip (group m n)).

Definition detect_instruction (text : string) : instruction :=
  let text := Str.lower text in
  match search re_sum text with
  | Some m =>
      {| op := Some "sum"; col := captured m 1; x := None; y := None |}
  | None =>
  match search re_mean text with
  | Some m =>
      {| op := Some "mean"; col := captured m 1; x := None; y := None |}
  | None =>
  match search re_corr text with
  | Some m =>
      {| op := Some "corr"; col := None;
         x := captured m 1; y := captured m 2 |}
  | None =>
  if Str.contains text "visual" || Str.contains text "plot"
     || Str.contains text "chart"
  then match search re_xy text with
       | Some m =>
           {| op := Some "plot"; col := None;
              x := captured m 1; y := captured m 2 |}
       | None =>
           {| op := Some "plot"; col := None; x := None; y := None |}
       end
  else
  match search re_sum_loose text with
  | Some m =>
      {| op := Some "sum"; col := captured m 1; x := None; y := None |}
  | None => no_instruction
  end
  end
  end
  end.

(** *** Answer Computer *)

Definition is_op (i : instruction) (name : string) : bool :=
  match op i with
  | Some o => String.eqb o name
  | None => false
  end.

(** [c.strip().lower() == col.lower()] *)
Definition exact_match (col c : string) : bool :=
  String.eqb (Str.lower (Str.strip c)) (Str.lower col).

(** [col.lower() in str(c).lower()] *)
Definition substring_match (col c : string) : bool :=
  Str.contains (Str.lower c) (Str.lower col).

(** [name in df.columns] *)
Definition in_columns (df : frame) (name : string) : bool :=
  existsb (String.eqb name) (Table.columns df).

(** [float(df[name].dropna().sum())] and [float(df[name].dropna().mean())];
    [op] names the reduction, [f] computes it.  A label carried by
    several columns selects a DataFrame: its sums and means are a Series
    of two values or more, which [float] refuses, or the reduction
    raises before; the exception is that of pandas.  A label carried by
    one column selects a numeric Series in every frame [Table.normalize]
    makes; the case of an uncoerced Series is closed with an
    exception. *)
Definition reduce (E : Env) (op : string) (f : list (option Q) -> pyfloat)
    (df : frame) (name : string) : result pyval :=
  match Table.getitem df name with
  | Table.Series (Numeric vals) => Ok (VFloat (f vals))
  | Table.Series (Original _ _) => Raise "uncoerced column"
  | Table.DataFrame => Raise (frame_error E op df name)
  | Table.KeyError => Raise name
  end.

(** [float(df[a].corr(df[b]))] *)
Definition correlate (E : Env) (df : frame) (a b : string) : result pyval :=
  match Table.getitem df a, Table.getitem df b with
  | Table.Series (Numeric va), Table.Series (Numeric vb) =>
      match pearson E va vb with
      | Ok r => Ok (VFloat r)
      | Raise e => Raise e
      end
  | Table.KeyError, _ => Raise a
  | _, Table.KeyError => Raise b
  | _, _ =>
      match frame_corr E df a b with
      | Ok r => Ok (VFloat r)
      | Raise e => Raise e
      end
  end.

(** [df_plot_to_base64(df, xcol, ycol, kind='line', title='Plot')] *)
Definition df_plot_to_base64 (E : Env) (df : frame)
    (xcol ycol : option string) : result string :=
  let spec :=
    if Str.otruthy xcol && Str.otruthy ycol
       && in_columns df (or_empty xcol) && in_columns df (or_empty ycol)
    then PlotXY (or_empty xcol) (or_empty ycol)
    else if Str.otruthy ycol && in_columns df (or_empty ycol)
    then PlotY (or_empty ycol)
    else PlotAll in
  match savefig_b64 E df spec with
  | Ok b64 => Ok ("data:image/png;base64," +:+ b64)
  | Raise e => Raise e
  end.

(** The values of [answer] and [attachment] at the end of the [try]
    block; both start as [None]. *)
Definition outcome := (option pyval * option string)%type.

Definition answered (r : result pyval) : result outcome :=
  match r with
  | Ok v => Ok (Some v, None)
  | Raise e => Raise e
  end.

Definition plotted (r : result string) : result outcome :=
  match r with
  | Ok a => Ok (Some (VStr "attached_plot"), Some a)
  | Raise e => Raise e
  end.

Definition unanswered : result outcome := Ok (None, None).

(** The body of the [try] block; [Raise] is an exception reaching its
    [except]. *)
Definition compute_answer (E : Env) (df : frame) (i : instruction)
    : result outcome :=
  let cols := Table.columns df in
  if is_op i "sum" && Str.otruthy (col i) then
    let c := or_empty (col i) in
    match List.filter (exact_match c) cols with
    | m :: _ => answered (reduce E "sum" Table.series_sum df m)
    | [] =>
        match List.filter (substring_match c) cols with
        | m :: _ => answered (reduce E "sum" Table.series_sum df m)
        | [] => unanswered
        end
    end
  else if is_op i "mean" && Str.otruthy (col i) then
    let c := or_empty (col i) in
    match List.filter (exact_match c) cols with
    | m :: _ => answered (reduce E "mean" Table.series_mean df m)
    | [] => unanswered
    end
  else if is_op i "corr" && Str.otruthy (x i) && Str.otruthy (y i) then
    match List.filter (exact_match (or_empty (x i))) cols,
          List.filter (exact_match (or_empty (y i))) cols with
    | mx :: _, my :: _ => answered (correlate E df mx my)
    | _, _ => unanswered
    end
  else if is_op i "plot" then
    if Str.otruthy (y i) && in_columns df (or_empty (y i))
    then plotted (df_plot_to_base64 E df (x i) (y i))
    else
      match Table.numeric_columns df with
      | first :: _ => plotted (df_plot_to_base64 E df None (Some first))
      | [] => unanswered
      end
  else
    match List.filter (exact_match "value") cols with
    | m :: _ => answered (reduce E "sum" Table.series_sum df m)
    | [] => unanswered
    end.

(** [round(x)] of a finite float: the nearest integer, the even one of
    two that are equally near. *)
Definition py_round (q : Q) : Z :=
  let f := Qfloor q in
  match Qcompare (q - inject_Z f)%Q (1 # 2)%Q with
  | Lt => f
  | Gt => (f + 1)%Z
  | Eq => if Z.even f then f else (f + 1)%Z
  end.

(** The float [1e-8]: the float64 nearest to one hundred-millionth,
    3022314549036573 / 2^78.  The difference [round(answer) - answer] of a
    float and the integer nearest to it is a float, so the comparison of
    the source is this comparison of rationals. *)
Definition tolerance : Q := (3022314549036573 # 302231454903657293676544)%Q.

Definition Qltb (a b : Q) : bool := negb (Qle_bool b a).

(** The last step:
    [if isinstance(answer, float) and abs(round(answer) - answer) < 1e-8:
       answer = int(round(answer))].
    [round] raises ValueError on NaN, outside any [try].  On an infinite
    float it raises OverflowError; [pyfloat] has no infinite value, and
    the statements on what the handler raises are made for datasets
    whose sums stay finite ([Cells.tame]). *)
Definition integral_to_int (answer : pyval) : result pyval :=
  match answer with
  | VFloat NaN => Raise "cannot convert float NaN to integer"
  | VFloat (Fin q) =>
      if Qltb (Qabs (inject_Z (py_round q) - q)%Q) tolerance
      then Ok (VInt (py_round q))
      else Ok answer
  | _ => Ok answer
  end.

(** *** The payload

    A dict literal of the source, as the list of its items in order. *)

Definition payload := list (string * pyval).

Definition reply_items (email secret : pyval) (base_url : option string)
    (answer : pyval) (submit_url : string) : payload :=
  [("email", email); ("secret", secret); ("url", of_ostr base_url);
   ("answer", answer); ("submit_url", VStr submit_url)].

Definition reply_with_attachment (email secret : pyval)
    (base_url : option string) (answer : pyval) (attachment : string)
    (submit_url : string) : payload :=
  [("email", email); ("secret", secret); ("url", of_ostr base_url);
   ("answer", answer); ("attachment", VStr attachment);
   ("submit_url", VStr submit_url)].

Definition answer_or_none (a : option pyval) : pyval :=
  match a with
  | Some v => v
  | None => VNone
  end.

(** *** [handle_quiz_page]

    The result is paired with the URLs requested while it ran. *)
Definition handle_quiz_page (E : Env) (P : page_view)
    (email secret : pyval) (base_url : option string)
    : list string * result payload :=
  match discover_submit_url E P base_url with
  | Raise e => ([], Raise e)
  | Ok found =>
  if negb (Str.otruthy found)
  then ([], Raise "submit_url not found on page")
  else
    let submit_url := or_empty found in
    let reply answer := reply_items email secret base_url answer submit_url in
    let '(requested, located) := locate_dataset E P base_url in
    (requested,
     match located with
     | None =>
         match embedded_answer E (scripts P) with
         | Some v => Ok (reply v)
         | None => Ok (reply (VStr "unable to locate dataset"))
         end
     | Some raw =>
         let df := Table.normalize raw in
         let instr := detect_instruction (body_text P) in
         match compute_answer E df instr with
         | Raise e => Ok (reply (VStr ("error computing instruction: " +:+ e)))
         | Ok (answer, attachment) =>
             if Str.otruthy attachment
             then Ok (reply_with_attachment email secret base_url
                        (answer_or_none answer) (or_empty attachment)
                        submit_url)
             else
               match answer with
               | None => Ok (reply (VStr "no_answer_generated"))
               | Some a =>
                   match integral_to_int a with
                   | Ok a' => Ok (reply a')
                   | Raise e => Raise e
                   end
               end
         end
     end)
  end.

End Handler.

(** ** The worker: [solve_quiz_task] *)

Module Worker.

(** The browser and the HTTP client of the worker. *)
Record World := {
  (** the libraries of the handler, with the page of this task *)
  env : Env;
  (** [page.goto(url)], the wait for network idle, [page.content()] and
      the parsing of it; an exception of the browser is [Raise] *)
  goto : string -> result Handler.page_view;
  (** [json.dumps] as [requests] applies it to the [json=] argument *)
  json_dumps : pyval -> result string;
  (** [requests.post(url, data=body)]: the text of the response *)
  http_post : string -> string -> result string
}.

(** [d.pop(key)]: the value and the dict without the key; [None] is
    KeyError. *)
Fixpoint dict_pop (key : string) (d : Handler.payload)
    : option (pyval * Handler.payload) :=
  match d with
  | [] => None
  | (k, v) :: r =>
      if String.eqb k key then Some (v, r)
      else match dict_pop key r with
           | Some (v', r') => Some (v', (k, v) :: r')
           | None => None
           end
  end.

(** What the worker posts for a payload: the target and the body.
    [requests.post] wants a [str] for its URL. *)
Definition submission (W : World) (p : Handler.payload)
    : result (string * string) :=
  match dict_pop "submit_url" p with
  | None => Raise "submit_url"
  | Some (VStr submit_url, sent) =>
      match json_dumps W (VDict sent) with
      | Ok body => Ok (submit_url, body)
      | Raise e => Raise e
      end
  | Some (_, _) => Raise "invalid URL"
  end.

Definition solve_quiz_task (W : World) (email secret : pyval) (url : string)
    : result pyval :=
  match goto W url with
  | Raise e => Raise e
  | Ok page =>
      match Handler.handle_quiz_page (env W) page email secret (Some url) with
      | (_, Raise e) => Raise e
      | (_, Ok p) =>
          match submission W p with
          | Raise e => Raise e
          | Ok (submit_url, body) =>
              match http_post W submit_url body with
              | Raise e => Raise e
              | Ok text =>
                  match json_loads (env W) text with
                  | Some j => Ok j
                  | None => Ok (VDict [("raw", VStr text)])
                  end
              end
          end
      end
  end.


End Worker.

(** ** The front door: [quiz] in [app.py] *)

Module App.

Record response := {
  status : Z;
  body : pyval
}.

Definition error (msg : string) (code : Z) : response :=
  {| status := code; body := VDict [("error", VStr msg)] |}.

(** [data.get(key)] *)
Definition get (data : list (string * pyval)) (key : string) : pyval :=
  match dict_get data key with
  | Some v => v
  | None => VNone
  end.

(** [secret != EXPECTED_SECRET], where [EXPECTED_SECRET] is a [str]. *)
Definition differs (secret : pyval) (expected : string) : bool :=
  match secret with
  | VStr s => negb (String.eqb s expected)
  | _ => true
  end.

(** The view function.  [expected] is [EXPECTED_SECRET], [None] when the
    variable TDS_SECRET is unset.  [json] is the outcome of
    [request.get_json(force=True)]: [None] when it raises, else the value
    parsed.  [solve] is [solve_quiz_task].  [Raise] is an exception that
    leaves the view function. *)
Definition quiz (expected : option string) (json : option pyval)
    (solve : pyval -> pyval -> pyval -> result pyval) : result response :=
  match json with
  | None => Ok (error "Invalid JSON" 400)
  | Some (VDict data) =>
      let email := get data "email" in
      let secret := get data "secret" in
      let url := get data "url" in
      match expected with
      | None => Ok (error "Server misconfigured: TDS_SECRET not set" 500)
      | Some EXPECTED_SECRET =>
          if differs secret EXPECTED_SECRET then Ok (error "Forbidden" 403)
          else if negb (truth email) || negb (truth url)
          then Ok (error "Missing email or url" 400)
          else
            match solve email secret url with
            | Ok r =>
                Ok {| status := 200;
                      body := VDict [("status", VStr "done"); ("result", r)] |}
            | Raise e => Ok (error e 500)
            end
      end
  | Some _ => Raise "object has no attribute 'get'"
  end.

(** The status the client sees: Flask answers an exception that leaves a
    view function with 500. *)
Definition served_status (r : result response) : Z :=
  match r with
  | Ok resp => status resp
  | Raise _ => 500
  end.

End App.

(** ** Fixtures

    Concrete libraries, pages and tables for the examples. *)

Module Fixture.
Import Handler.

(** The text up to the first slash that follows [://]. *)
Fixpoint up_to_slash (s : string) : string :=
  match s with
  | EmptyString => EmptyString
  | String c r => if Ascii.eqb c "/" then EmptyString else String c (up_to_slash r)
  end.

Fixpoint origin_of (s : string) : string :=
  match s with
  | EmptyString => EmptyString
  | String c r =>
      if Str.startswith s "://" then "://" +:+ up_to_slash (Str.drop 3 s)
      else String c (origin_of r)
  end.

(** [urljoin] where the examples use it: on an absolute URL, which it
    returns, on a path that begins with a slash, which it puts after the
    origin of the base, and on the empty string, where it returns the
    base. *)
Definition join (base url : string) : string :=
  if Str.startswith url "http" then url
  else if Str.truthy url then origin_of base +:+ url
  else base.

(** The messages of pandas 2 for a label that several columns carry. *)
Definition series_to_float : string :=
  "cannot convert the series to <class 'float'>".

Definition ambiguous_frame : string :=
  "The truth value of a DataFrame is ambiguous.".

(** Libraries that reach no network and read no file; a chart is
    rendered as the description of what was drawn. *)
Definition describe (spec : plot_spec) : string :=
  match spec with
  | PlotXY x y => "xy:" +:+ x +:+ "," +:+ y
  | PlotY y => "y:" +:+ y
  | PlotAll => "all"
  end.

Definition offline : Env :=
  {| urljoin := fun base url => Ok (join base url);
     http_get := fun _ => None;
     magic := None;
     read_csv := fun _ => None;
     read_excel := fun _ => None;
     pdf_pages := fun _ => None;
     make_frame := fun _ _ => None;
     json_loads := fun _ => None;
     page_origin := None;
     base_origin := fun base => Ok (origin_of base);
     pearson := fun _ _ => Ok NaN;
     frame_error := fun _ _ _ => series_to_float;
     frame_corr := fun _ _ _ => Raise ambiguous_frame;
     savefig_b64 := fun _ spec => Ok (describe spec) |}.

(** The same with python-magic installed and reporting one MIME type. *)
Definition sniffing (mime : string) : Env :=
  {| urljoin := fun base url => Ok (join base url);
     http_get := fun _ => None;
     magic := Some (fun _ => Ok mime);
     read_csv := fun _ => None;
     read_excel := fun _ => None;
     pdf_pages := fun _ => None;
     make_frame := fun _ _ => None;
     json_loads := fun _ => None;
     page_origin := None;
     base_origin := fun base => Ok (origin_of base);
     pearson := fun _ _ => Ok NaN;
     frame_error := fun _ _ _ => series_to_float;
     frame_corr := fun _ _ _ => Raise ambiguous_frame;
     savefig_b64 := fun _ spec => Ok (describe spec) |}.

(** The text of the JSON object with the one key [answer] and the value
    6.0. *)
Definition answer_object : string :=
  "{" +:+ String dq "answer" +:+ String dq ": 6.0}".

(** The same with [json.loads] given on the texts the examples parse: the
    object above, and the empty object. *)
Definition parsing : Env :=
  {| urljoin := fun base url => Ok (join base url);
     http_get := fun _ => None;
     magic := None;
     read_csv := fun _ => None;
     read_excel := fun _ => None;
     pdf_pages := fun _ => None;
     make_frame := fun _ _ => None;
     json_loads := fun s =>
       if String.eqb s answer_object
       then Some (VDict [("answer", VFloat (Fin 6))])
       else if String.eqb s "{}" then Some (VDict [])
       else None;
     page_origin := None;
     base_origin := fun base => Ok (origin_of base);
     pearson := fun _ _ => Ok NaN;
     frame_error := fun _ _ _ => series_to_float;
     frame_corr := fun _ _ _ => Raise ambiguous_frame;
     savefig_b64 := fun _ spec => Ok (describe spec) |}.

(** A column the reader left as text, and one it read as numbers. *)
Definition text_column (name : string) (cells : list string) : raw_column :=
  {| rc_name := name; rc_numeric := false; rc_cells := cells |}.

Definition number_column (name : string) (cells : list string) : raw_column :=
  {| rc_name := name; rc_numeric := true; rc_cells := cells |}.

(** The text of a table as [get_text] gives it: the labels, then the
    cells row by row, one per line. *)
Definition newline : string := String (ascii_of_N 10) EmptyString.

Definition table_row (t : raw_frame) (i : nat) : list string :=
  map (fun c => nth i (rc_cells c) EmptyString) t.

Definition table_height (t : raw_frame) : nat :=
  match t with
  | c :: _ => List.length (rc_cells c)
  | [] => O
  end.

Definition table_text (t : raw_frame) : string :=
  String.concat newline
    (map rc_name t ++ concat (map (table_row t) (seq 0 (table_height t))))%list.

Definition page (text : string) (t : list raw_frame) : page_view :=
  {| body_text := text;
     script_strings := [];
     form_action := None;
     hrefs := [];
     pre_texts := [];
     tables := t |}.

(** The table of the specification: A = 1, 2, 3 and B = 4, 5, 6. *)
Definition table_AB : raw_frame :=
  [ number_column "A" ["1"; "2"; "3"];
    number_column "B" ["4"; "5"; "6"] ].

Definition prices : raw_frame :=
  [ number_column "Id" ["7"; "8"; "9"];
    number_column "Total Price" ["1"; "2"; "3"] ].

Definition names : raw_frame :=
  [ text_column "name" ["ann"; "bob"] ].

(** A JSON library given on one object: it serialises the object below,
    the transmitted form of the payload of the first example, into its
    JSON text and refuses anything else, and parses that text back. *)
Definition scalar_eqb (a b : pyval) : bool :=
  match a, b with
  | VNone, VNone => true
  | VBool x, VBool y => Bool.eqb x y
  | VInt x, VInt y => (x =? y)%Z
  | VStr x, VStr y => String.eqb x y
  | _, _ => false
  end.

Fixpoint items_eqb (a b : list (string * pyval)) : bool :=
  match a, b with
  | [], [] => true
  | (k, v) :: r, (k', v') :: r' =>
      String.eqb k k' && scalar_eqb v v' && items_eqb r r'
  | _, _ => false
  end.

Definition flat_eqb (a b : pyval) : bool :=
  match a, b with
  | VDict x, VDict y => items_eqb x y
  | _, _ => false
  end.

Definition sent_object : pyval :=
  VDict [("email", VStr "a@b.c"); ("secret", VStr "s3cret");
         ("url", VStr "https://h.io/quiz"); ("answer", VInt 6)].

Definition quoted (s : string) : string := String dq s +:+ String dq EmptyString.

Definition sent_text : string :=
  "{" +:+ quoted "email" +:+ ": " +:+ quoted "a@b.c" +:+ ", "
      +:+ quoted "secret" +:+ ": " +:+ quoted "s3cret" +:+ ", "
      +:+ quoted "url" +:+ ": " +:+ quoted "https://h.io/quiz" +:+ ", "
      +:+ quoted "answer" +:+ ": 6}".

Definition table_dumps (v : pyval) : result string :=
  if flat_eqb v sent_object then Ok sent_text else Raise "not serialisable".

Definition table_loads (text : string) : option pyval :=
  if String.eqb text sent_text then Some sent_object else None.

Definition posting : Env :=
  {| urljoin := fun base url => Ok (join base url);
     http_get := fun _ => None;
     magic := None;
     read_csv := fun _ => None;
     read_excel := fun _ => None;
     pdf_pages := fun _ => None;
     make_frame := fun _ _ => None;
     json_loads := table_loads;
     page_origin := None;
     base_origin := fun base => Ok (origin_of base);
     pearson := fun _ _ => Ok NaN;
     frame_error := fun _ _ _ => series_to_float;
     frame_corr := fun _ _ _ => Raise ambiguous_frame;
     savefig_b64 := fun _ spec => Ok (describe spec) |}.

(** A page for the examples: the base URL is [https://h.io/quiz]. *)
Definition base : option string := Some "https://h.io/quiz".

(** No rule matches: no URL in the text, one link to a dataset. *)
Definition page_without_target : page_view :=
  {| body_text := "What is the sum of the A column?";
     script_strings := [];
     form_action := None;
     hrefs := ["/data.csv"];
     pre_texts := [];
     tables := [table_AB] |}.

(** A form with an empty action next to a matching hyperlink. *)
Definition page_with_empty_action : page_view :=
  {| body_text := "Answer the question and send it.";
     script_strings := [];
     form_action := Some EmptyString;
     hrefs := ["/submit-form"];
     pre_texts := [];
     tables := [] |}.

(** A form with a relative action next to a matching hyperlink. *)
Definition page_with_form_and_link : page_view :=
  {| body_text := "Answer the question and send it.";
     script_strings := [];
     form_action := Some "/answers";
     hrefs := ["/api/help"; "/submit-form"];
     pre_texts := [];
     tables := [] |}.

(** A page with a submission target in its text, no table, no link, and
    the given script bodies. *)
Definition page_with_scripts (l : list string) : page_view :=
  {| body_text := "Post your answer to https://h.io/submit";
     script_strings := map Some l;
     form_action := None;
     hrefs := [];
     pre_texts := [];
     tables := [] |}.

(** A script that holds the JSON object with the answer 6.0, then an
    empty object. *)
Definition two_objects : string :=
  "var a = " +:+ answer_object +:+ "; var b = {};".

Definition one_object : string :=
  "var a = " +:+ answer_object +:+ ";".

Definition me : pyval := VStr "a@b.c".
Definition pw : pyval := VStr "s3cret".

(** A page with a question, the submission target and one table. *)
Definition ask (question : string) (t : raw_frame) : page_view :=
  page (question +:+ " Post to https://h.io/submit" +:+ newline
        +:+ table_text t) [t].

(** A world for the examples: the page asks for the sum of A. *)
Definition world : Worker.World :=
  {| Worker.env := posting;
     Worker.goto := fun _ => Ok (ask "What is the sum of the A column?"
                            table_AB);
     Worker.json_dumps := table_dumps;
     Worker.http_post := fun _ _ => Ok "{}" |}.

(** A solver for the examples; the checks come before it runs. *)
Definition solved : pyval -> pyval -> pyval -> result pyval :=
  fun _ _ _ => Ok (VDict [("correct", VBool true)]).

End Fixture.


(** ** Notions for the further properties *)

(** *** Character classes

    A class of a pattern is a predicate on the 256 characters, so a
    statement about every character is checked by running through them. *)

Module Chars.
Import Re.

Definition bits : list bool := [false; true].

Definition all_ascii_list : list ascii :=
  b0 ← bits; b1 ← bits; b2 ← bits; b3 ← bits;
  b4 ← bits; b5 ← bits; b6 ← bits; b7 ← bits;
  [Ascii b0 b1 b2 b3 b4 b5 b6 b7].

Definition all_ascii (f : ascii -> bool) : bool := forallb f all_ascii_list.

(** Every character a pattern can consume is in the class [p]. *)
Fixpoint within (p : ascii -> bool) (r : re) : bool :=
  match r with
  | Eps => true
  | Chr q | Star q | StarLazy q | Plus q =>
      all_ascii (fun c => implb (q c) (p c))
  | Seq a b | Alt a b => within p a && within p b
  | Opt a | Grp _ a => within p a
  end.

(** Every character a group of the pattern can capture is in [p]. *)
Fixpoint groups_within (p : ascii -> bool) (r : re) : bool :=
  match r with
  | Grp _ a => within p a && groups_within p a
  | Seq a b | Alt a b => groups_within p a && groups_within p b
  | Opt a => groups_within p a
  | _ => true
  end.

Definition caps_within (p : ascii -> bool) (cs : caps) : Prop :=
  Forall (fun nt => all_chars p nt.2 = true) cs.

End Chars.

(** *** Tables and cells *)

Module Cells.

(** The number of cells of a column. *)
Definition cell_count (d : coldata) : nat :=
  match d with
  | Numeric vals => List.length vals
  | Original _ cells => List.length cells
  end.

(** [str(z)] of an [int]: a minus sign for a negative number, then the
    decimal digits of the magnitude. *)
Definition str_int (z : Z) : string :=
  let digits := DecimalString.NilEmpty.string_of_uint (Nat.to_uint (Z.abs_nat z)) in
  if (z <? 0)%Z then String "-" digits else digits.

(** No character of [s] survives the replacement in [coerce_numeric]. *)
Definition separators (s : string) : bool :=
  Re.all_chars (fun c => negb (Table.numeric_char c)) s.

(** The magnitudes a float holds exactly. *)
Definition exact (z : Z) : Prop := (Z.abs z <= 2 ^ 53)%Z.

(** The values of a column add up without overflow, in whatever order:
    their magnitudes add up to 2^1000 at most, far below the largest
    float. *)
Definition bounded (vals : list (option Q)) : Prop :=
  (Table.total (map Qabs (Table.dropna vals)) <= inject_Z (2 ^ 1000))%Q.

(** A table whose numeric columns are all of that kind: no sum and no
    mean of one of its columns is infinite or, by the difference of two
    infinities, NaN. *)
Definition tame (df : frame) : Prop :=
  Forall (fun c => match col_data c with
                   | Numeric vals => bounded vals
                   | Original _ _ => True
                   end) df.

End Cells.

(** *** Charts *)

Module Plots.

(** The chart names columns of the table only, and names one. *)
Definition drawable (df : frame) (spec : plot_spec) : Prop :=
  match spec with
  | PlotXY a b =>
      Handler.in_columns df a = true /\ Handler.in_columns df b = true
  | PlotY b => Handler.in_columns df b = true
  | PlotAll => False
  end.

End Plots.

(** *** The scan for a dataset *)

Module Scan.
Import Handler.

(** The download of [link] ends the loop with the table [df]: the URL
    is joined, the request answers, a format is detected and the content
    parses. *)
Definition yields (E : Env) (base_url : option string) (link : string)
    (df : raw_frame) : Prop :=
  exists url content content_type,
    resolved E base_url link = Ok url /\
    http_get E url = Some (content, content_type) /\
    match Detect.detect_file_type E url content_type content with
    | Some Pdf => parse_table_from_pdf_bytes E content = Some df
    | Some ft => parse_table_from_bytes E content ft = Some df
    | None => False
    end.

(** The URLs requested for a list of links: those of the links on which
    [urljoin] returns, in order. *)
Definition requests (E : Env) (base_url : option string)
    (links : list string) : list string :=
  omap (fun link => caught (resolved E base_url link)) links.

(** The loop goes on after [link]. *)
Definition fruitless (E : Env) (base_url : option string) (link : string)
    : Prop :=
  forall df, ~ yields E base_url link df.

(** A page of a PDF whose first table has a header and a row, and makes
    the frame [df]. *)
Definition usable (E : Env) (page : option (list pdf_table))
    (df : raw_frame) : Prop :=
  exists header row more others,
    page = Some ((header :: row :: more) :: others) /\
    make_frame E header (row :: more) = Some df.

End Scan.

(** *** More fixtures *)

Module Served.
Import Handler.

(** [urljoin] with its exception: a URL that begins with two slashes
    and an opening bracket has an unmatched bracket in its host. *)
Definition join_or_raise (base url : string) : result string :=
  if Str.startswith url "//[" then Raise "Invalid IPv6 URL"
  else Ok (Fixture.join base url).

(** Libraries with one file on the network: [https://h.io/data.csv],
    which the reader parses to the table with A = 1, 2, 3 and
    B = 4, 5, 6. *)
Definition serving : Env :=
  {| urljoin := join_or_raise;
     http_get := fun url =>
       if String.eqb url "https://h.io/data.csv"
       then Some ([], "text/csv") else None;
     magic := None;
     read_csv := fun _ => Some Fixture.table_AB;
     read_excel := fun _ => None;
     pdf_pages := fun _ => None;
     make_frame := fun _ _ => None;
     json_loads := fun _ => None;
     page_origin := None;
     base_origin := fun base => Ok (Fixture.origin_of base);
     pearson := fun _ _ => Ok NaN;
     frame_error := fun _ _ _ => Fixture.series_to_float;
     frame_corr := fun _ _ _ => Raise Fixture.ambiguous_frame;
     savefig_b64 := fun _ spec => Ok (Fixture.describe spec) |}.

(** A page without a table and with five hyperlinks, four of them
    candidates; the first candidate cannot be joined to the base URL and
    the second cannot be downloaded. *)
Definition page_with_links : page_view :=
  {| body_text := "What is the sum of the A column? Post to https://h.io/submit";
     script_strings := [];
     form_action := None;
     hrefs := ["/about"; "//[x.csv"; "/broken.pdf"; "/data.csv"; "/more.csv"];
     pre_texts := [];
     tables := [] |}.

(** A table in which two columns carry the label [A] once the labels
    are stripped. *)
Definition twice_A : raw_frame :=
  [ Fixture.number_column "A" ["1"; "2"];
    Fixture.number_column " A" ["3"; "4"] ].

(** A world whose browser shows the page without a submission target. *)
Definition lost : Worker.World :=
  {| Worker.env := Fixture.offline;
     Worker.goto := fun _ => Ok Fixture.page_without_target;
     Worker.json_dumps := Fixture.table_dumps;
     Worker.http_post := fun _ _ => Ok "{}" |}.

(** [solve_quiz_task] as the front door calls it.  The examples pass a
    URL that is a [str]; with any other value [page.goto] raises. *)
Definition solver (W : Worker.World) (email secret url : pyval)
    : result pyval :=
  match url with
  | VStr u => Worker.solve_quiz_task W email secret u
  | _ => Raise "url: expected string"
  end.

(** A request that passes the checks of the front door. *)
Definition request : list (string * pyval) :=
  [("email", VStr "a@b.c"); ("secret", VStr "s3cret");
   ("url", VStr "https://h.io/quiz")].

End Served.

(** *** The rules of the resolver, in order *)

Module Rules.
Import Handler.

Definition rules (E : Env) (P : page_view) (base_url : option string)
    : list (result (option string)) :=
  [Ok (rule1 P); Ok (rule2 P); rule3 E P base_url; rule4 E P base_url;
   Ok (rule5 E P base_url); Ok (rule6 P)].

(** A rule that ran and left [submit_url] falsy. *)
Definition passed (r : result (option string)) : Prop :=
  exists found, r = Ok found /\ Str.otruthy found = false.


End Rules.

(** ** The first handler: [handle_quiz_page] in [handlers/sample_handle_old.py] *)

Module Old.
Import Re Handler.

(** [[^\s\x22']] *)
Definition plain_char (c : ascii) : bool := negb (Str.is_space c || quote c).

(** [https?://[^\s\x22']+/submit], matched as it is written: the letter
    case counts. *)
Definition re_submit : re :=
  seqs [lit "http"; Opt (lit "s"); lit "://"; Plus plain_char; lit "/submit"].

(** [text] is [soup.get_text()]. *)
Definition handle_quiz_page (text : string) (email secret : pyval)
    (base_url : option string) : result payload :=
  let submit_url :=
    match search re_submit text with
    | Some m => Some (whole m)
    | None => None
    end in
  let answer := VStr "unable to solve" in
  if negb (Str.otruthy submit_url)
  then Raise "submit_url not found on the quiz page"
  else Ok (reply_items email secret base_url answer (or_empty submit_url)).

End Old.

(** * Properties *)

(** ** The matcher *)

Module ReFacts.
Import Re.

Lemma app_cons c s t : String c s +:+ t = String c (s +:+ t).
Proof. reflexivity. Qed.

Lemma app_empty s : EmptyString +:+ s = s.
Proof. reflexivity. Qed.

(** A repetition hands the continuation what follows a run of the class. *)
Lemma star_greedy_sound {A} p s (k : string -> option A) x :
  star_greedy p s k = Some x ->
  exists w s', s = w +:+ s' /\ all_chars p w = true /\ k s' = Some x.
Proof.
  induction s as [|c r IH]; cbn.
  - intros H. by exists EmptyString, EmptyString.
  - destruct (p c) eqn:Hp.
    + destruct (star_greedy p r k) as [y|] eqn:Hr.
      * intros [= ->]. destruct (IH eq_refl) as (w & s' & -> & Hw & Hk).
        exists (String c w), s'. cbn. by rewrite Hp, Hw.
      * intros H. by exists EmptyString, (String c r).
    + intros H. by exists EmptyString, (String c r).
Qed.

Lemma star_lazy_sound {A} p s (k : string -> option A) x :
  star_lazy p s k = Some x ->
  exists w s', s = w +:+ s' /\ all_chars p w = true /\ k s' = Some x.
Proof.
  induction s as [|c r IH]; cbn.
  - destruct (k EmptyString) eqn:Hk; [|done]. intros [= ->].
    by exists EmptyString, EmptyString.
  - destruct (k (String c r)) eqn:Hk.
    + intros [= ->]. by exists EmptyString, (String c r).
    + destruct (p c) eqn:Hp; [|done]. intros H.
      destruct (IH H) as (w & s' & -> & Hw & Hk').
      exists (String c w), s'. cbn. by rewrite Hp, Hw.
Qed.

Lemma append_assoc (a b c : string) : (a +:+ b) +:+ c = a +:+ (b +:+ c).
Proof. induction a as [|x a IH]; [done|]. by rewrite !app_cons, IH. Qed.

(** Soundness: a result of the matcher comes from a text of the language
    followed by what the continuation accepted. *)
Lemma run_sound {A} r : forall s cs (k : string -> caps -> option A) x,
  run r s cs k = Some x ->
  exists w s' cs', s = w +:+ s' /\ matches r w /\ k s' cs' = Some x.
Proof.
  induction r as [|p|a IHa b IHb|a IHa b IHb|a IHa|p|p|p|n a IHa];
    intros s cs k x; cbn.
  - intros H. exists EmptyString, s, cs. repeat split; [constructor | done].
  - destruct s as [|c t]; [done|]. destruct (p c) eqn:Hp; [|done].
    intros H. exists (String c EmptyString), t, cs.
    repeat split; [by constructor | done].
  - intros H. apply IHa in H as (w1 & s1 & cs1 & -> & Ha & H).
    apply IHb in H as (w2 & s2 & cs2 & -> & Hb & H).
    exists (w1 +:+ w2), s2, cs2. rewrite append_assoc.
    repeat split; [by constructor | done].
  - destruct (run a s cs k) as [y|] eqn:Hy.
    + intros [= ->]. apply IHa in Hy as (w & s' & cs' & -> & Hw & H).
      exists w, s', cs'. repeat split; [by apply m_alt_l | done].
    + intros H. apply IHb in H as (w & s' & cs' & -> & Hw & H).
      exists w, s', cs'. repeat split; [by apply m_alt_r | done].
  - destruct (run a s cs k) as [y|] eqn:Hy.
    + intros [= ->]. apply IHa in Hy as (w & s' & cs' & -> & Hw & H).
      exists w, s', cs'. repeat split; [by apply m_opt_take | done].
    + intros H. exists EmptyString, s, cs. repeat split; [constructor | done].
  - intros H. apply star_greedy_sound in H as (w & s' & -> & Hw & H).
    exists w, s', cs. repeat split; [by constructor | done].
  - intros H. apply star_lazy_sound in H as (w & s' & -> & Hw & H).
    exists w, s', cs. repeat split; [by constructor | done].
  - destruct s as [|c t]; [done|]. destruct (p c) eqn:Hp; [|done].
    intros H. apply star_greedy_sound in H as (w & s' & -> & Hw & H).
    exists (String c w), s', cs. repeat split; [by constructor | done].
  - intros H. apply IHa in H as (w & s' & cs' & -> & Hw & H).
    exists w, s'. eexists. split; [done|]. split; [by constructor | exact H].
Qed.

Lemma take_app w s' : Str.take (String.length (w +:+ s') - String.length s') (w +:+ s') = w.
Proof.
  induction w as [|c w IH]; rewrite ?app_empty, ?app_cons.
  - rewrite Nat.sub_diag. by destruct s'.
  - cbn [String.length].
    assert (Hlen : String.length s' <= String.length (w +:+ s')).
    { clear. induction w as [|c w IH]; rewrite ?app_empty, ?app_cons; cbn; lia. }
    replace (S (String.length (w +:+ s')) - String.length s')
      with (S (String.length (w +:+ s') - String.length s')) by lia.
    cbn. by rewrite IH.
Qed.

(** Group 0 of a match is a prefix of the text and is in the language. *)
Theorem match_here_sound r s m :
  match_here r s = Some m ->
  exists rest, s = whole m +:+ rest /\ matches r (whole m).
Proof.
  unfold match_here. intros H.
  apply run_sound in H as (w & s' & cs' & -> & Hw & [= <-]).
  cbn. rewrite take_app. by exists s'.
Qed.

Theorem search_sound r s m :
  search r s = Some m ->
  exists before rest, s = before +:+ whole m +:+ rest /\ matches r (whole m).
Proof.
  induction s as [|c t IH]; cbn.
  - destruct (match_here r EmptyString) as [m'|] eqn:Hm; [|done].
    intros [= ->]. apply match_here_sound in Hm as (rest & Hs & Hm).
    by exists EmptyString, rest.
  - destruct (match_here r (String c t)) as [m'|] eqn:Hm.
    + intros [= ->]. apply match_here_sound in Hm as (rest & Hs & Hm).
      by exists EmptyString, rest.
    + intros H. destruct (IH H) as (before & rest & -> & Hm').
      by exists (String c before), rest.
Qed.

Lemma star_greedy_complete {A} p w s' (k : string -> option A) :
  all_chars p w = true -> is_Some (k s') -> is_Some (star_greedy p (w +:+ s') k).
Proof.
  intros Hw Hk. induction w as [|c w IH]; rewrite ?app_empty, ?app_cons.
  - destruct s' as [|c r]; cbn; [done|].
    destruct (p c); [|done]. by destruct (star_greedy p r k).
  - cbn in Hw. apply andb_prop in Hw as [Hc Hw]. cbn. rewrite Hc.
    destruct (IH Hw) as [y ->]. done.
Qed.

Lemma star_lazy_complete {A} p w s' (k : string -> option A) :
  all_chars p w = true -> is_Some (k s') -> is_Some (star_lazy p (w +:+ s') k).
Proof.
  intros Hw Hk. induction w as [|c w IH]; rewrite ?app_empty, ?app_cons.
  - destruct Hk as [y Hy]. destruct s'; cbn; by rewrite Hy.
  - cbn in Hw. apply andb_prop in Hw as [Hc Hw]. cbn.
    destruct (k (String c (w +:+ s'))); [done|]. rewrite Hc. by apply IH.
Qed.

(** Completeness: backtracking loses no match. *)
Lemma run_complete {A} r w :
  matches r w ->
  forall s' cs (k : string -> caps -> option A),
    (forall cs', is_Some (k s' cs')) -> is_Some (run r (w +:+ s') cs k).
Proof.
  induction 1 as [|p c Hp|a b s t _ IHa _ IHb|a b s _ IH|a b s _ IH|a|a s _ IH
                  |p s Hs|p s Hs|p c s Hc Hs|n a s _ IH]; intros s' cs k Hk; cbn.
  - apply Hk.
  - rewrite app_cons, app_empty, Hp. apply Hk.
  - rewrite append_assoc. apply IHa. intros cs'. by apply IHb.
  - by destruct (IH s' cs k Hk) as [y ->].
  - destruct (run a (s +:+ s') cs k); [done|]. by apply IH.
  - rewrite app_empty. destruct (run a s' cs k); [done|]. apply Hk.
  - by destruct (IH s' cs k Hk) as [y ->].
  - by apply star_greedy_complete.
  - by apply star_lazy_complete.
  - rewrite app_cons, Hc. by apply star_greedy_complete.
  - apply IH. intros cs'. apply Hk.
Qed.

Theorem match_here_complete r w rest :
  matches r w -> is_Some (match_here r (w +:+ rest)).
Proof. intros H. unfold match_here. by apply run_complete. Qed.

(** [search] finds a match whenever some part of the text is in the
    language. *)
Theorem search_complete r before w rest :
  matches r w -> is_Some (search r (before +:+ w +:+ rest)).
Proof.
  intros H. induction before as [|c b IH]; rewrite ?app_empty, ?app_cons.
  - destruct (match_here_complete r w rest H) as [m Hm].
    destruct (w +:+ rest); cbn; by rewrite Hm.
  - cbn. by destruct (match_here r (String c (b +:+ w +:+ rest))).
Qed.

(** [search] returns a match at the leftmost position where a match
    starts. *)
Theorem search_leftmost r s m :
  search r s = Some m ->
  exists before rest,
    s = before +:+ whole m +:+ rest /\ matches r (whole m) /\
    forall b w t, s = b +:+ w +:+ t -> matches r w ->
                  String.length before <= String.length b.
Proof.
  induction s as [|c t0 IH]; cbn.
  - destruct (match_here r EmptyString) as [m'|] eqn:Hm; [|done].
    intros [= ->]. apply match_here_sound in Hm as (rest & Hs & Hm).
    exists EmptyString, rest. repeat split; [done..|]. intros; cbn; lia.
  - destruct (match_here r (String c t0)) as [m'|] eqn:Hm.
    + intros [= ->]. apply match_here_sound in Hm as (rest & Hs & Hm).
      exists EmptyString, rest. repeat split; [done..|]. intros; cbn; lia.
    + intros H. destruct (IH H) as (before & rest & -> & Hm' & Hleft).
      exists (String c before), rest. repeat split; [done..|].
      intros b w t Hs Hw. destruct b as [|c' b].
      * rewrite app_empty in Hs.
        destruct (match_here_complete r w t Hw) as [y Hy].
        rewrite <- Hs in Hy. congruence.
      * rewrite app_cons in Hs. injection Hs as _ Hs.
        cbn. apply le_n_S. by apply (Hleft b w t).
Qed.

Lemma length_app (a b : string) : String.length (a +:+ b) = String.length a + String.length b.
Proof. induction a as [|c a IH]; rewrite ?app_empty, ?app_cons; cbn; lia. Qed.

(** Greedy repetition takes the longest run after which the rest of the
    pattern matches. *)
Lemma star_greedy_longest {A} p s (k : string -> option A) x :
  star_greedy p s k = Some x ->
  exists w s',
    s = w +:+ s' /\ all_chars p w = true /\ k s' = Some x /\
    forall w' s'', s = w' +:+ s'' -> all_chars p w' = true ->
                   String.length w < String.length w' -> k s'' = None.
Proof.
  revert x. induction s as [|c r IH]; intros x; cbn.
  - intros H. exists EmptyString, EmptyString. repeat split; [done..|].
    intros [|c' w'] s'' Hs _ Hlen; [cbn in Hlen; lia | done].
  - destruct (p c) eqn:Hp.
    + destruct (star_greedy p r k) as [y|] eqn:Hr.
      * intros [= ->]. destruct (IH x eq_refl) as (w & s' & -> & Hw & Hk & Hmax).
        exists (String c w), s'. cbn. rewrite Hp, Hw. repeat split; [done..|].
        intros [|c' w'] s'' Hs Hall Hlen; [cbn in Hlen; lia|].
        rewrite app_cons in Hs. injection Hs as <- Hs.
        cbn in Hall. apply andb_prop in Hall as [_ Hall].
        apply (Hmax w' s'' Hs Hall). cbn in Hlen. lia.
      * intros H. exists EmptyString, (String c r). repeat split; [done..|].
        intros [|c' w'] s'' Hs Hall Hlen; [cbn in Hlen; lia|].
        rewrite app_cons in Hs. injection Hs as <- ->.
        cbn in Hall. apply andb_prop in Hall as [_ Hall].
        destruct (k s'') as [z|] eqn:Hz; [|done].
        destruct (star_greedy_complete p w' s'' k Hall) as [u Hu]; [by rewrite Hz|].
        congruence.
    + intros H. exists EmptyString, (String c r). repeat split; [done..|].
      intros [|c' w'] s'' Hs Hall Hlen; [cbn in Hlen; lia|].
      rewrite app_cons in Hs. injection Hs as <- ->.
      cbn in Hall. by rewrite Hp in Hall.
Qed.

Lemma all_any s : all_chars anyc s = true.
Proof. by induction s. Qed.

Lemma startswith_split s p :
  Str.startswith s p = true -> exists v, s = p +:+ v.
Proof.
  revert s. induction p as [|a p IH]; intros s; cbn.
  - intros _. by exists s.
  - destruct s as [|b s]; [done|]. intros H. apply andb_prop in H as [Hab Hp].
    apply Ascii.eqb_eq in Hab as ->. destruct (IH s Hp) as [v ->]. by exists v.
Qed.

Lemma contains_split s p :
  Str.contains s p = true -> exists u v, s = u +:+ p +:+ v.
Proof.
  induction s as [|c s IH]; cbn [Str.contains].
  - rewrite orb_false_r. intros H. apply startswith_split in H as [v ->].
    by exists EmptyString, v.
  - intros H. apply orb_prop in H as [H|H].
    + apply startswith_split in H as [v ->]. by exists EmptyString, v.
    + destruct (IH H) as (u & v & ->). by exists (String c u), v.
Qed.

Lemma run_seq {A} a b s cs (k : string -> caps -> option A) x :
  run (Seq a b) s cs k = Some x ->
  exists w s' cs', s = w +:+ s' /\ matches a w /\ run b s' cs' k = Some x.
Proof. intros H. exact (run_sound a _ _ _ _ H). Qed.

(** [search] fails exactly when no part of the text is in the language. *)
Theorem search_none_iff r s :
  search r s = None <->
  forall before w rest, s = before +:+ w +:+ rest -> ~ matches r w.
Proof.
  split.
  - intros Hnone before w rest -> Hw.
    destruct (search_complete r before w rest Hw) as [m Hm]. congruence.
  - intros Hno. destruct (search r s) as [m|] eqn:Hm; [|done].
    apply search_sound in Hm as (before & rest & Hs & Hw).
    by destruct (Hno before (whole m) rest Hs).
Qed.

End ReFacts.

(** ** Format Detector *)

Module DetectFacts.
Import Detect.

Lemma declared_truthy content_type f :
  declared_format content_type = Some f -> Str.truthy content_type = true.
Proof. destruct content_type; [discriminate | reflexivity]. Qed.

Lemma sniffed_truthy mime f :
  sniffed_format mime = Some f -> Str.truthy mime = true.
Proof. destruct mime; [discriminate | reflexivity]. Qed.

(** The detector is the priority chain content-type, sniffing, suffix. *)
Lemma detect_chain E url content_type content_bytes :
  detect_file_type E url content_type content_bytes =
  first_of (declared_format content_type) (sniffed E content_bytes)
           (suffix_format url).
Proof.
  unfold detect_file_type, sniffed, first_of.
  destruct (declared_format content_type) as [f|] eqn:Hd.
  - rewrite (declared_truthy _ _ Hd).
    revert Hd. unfold declared_format. cbv zeta.
    repeat case_match; congruence.
  - assert (Hct : (if Str.truthy content_type then declared_format content_type
                   else None) = None) by (rewrite Hd; by destruct (Str.truthy _)).
    unfold declared_format in Hct. cbv zeta in Hct.
    assert (Hs : forall mime, sniffed_format mime = None ->
                 (if Str.truthy mime then sniffed_format mime else None) = None)
      by (intros m ->; by destruct (Str.truthy m)).
    destruct (magic E) as [from_buffer|]; [destruct (from_buffer content_bytes) as [mime|e]|].
    + destruct (sniffed_format mime) as [g|] eqn:Hm.
      * rewrite (sniffed_truthy _ _ Hm).
        revert Hm. unfold sniffed_format, suffix_format. cbv zeta.
        destruct (Str.truthy content_type);
          repeat case_match; congruence.
      * specialize (Hs mime Hm). revert Hs Hm.
        unfold sniffed_format, suffix_format. cbv zeta.
        destruct (Str.truthy content_type), (Str.truthy mime);
          repeat case_match; congruence.
    + unfold suffix_format. cbv zeta.
      destruct (Str.truthy content_type); repeat case_match; congruence.
    + unfold suffix_format. cbv zeta.
      destruct (Str.truthy content_type); repeat case_match; congruence.
Qed.

(** C2, counterexample.  The claim has the URL suffix win over content
    sniffing.  With an empty content-type, python-magic reporting
    [application/pdf] and a URL that ends in [.csv], the suffix indicates
    CSV and the detector answers PDF. *)
Lemma suffix_loses_to_sniffing :
  let E := Fixture.sniffing "application/pdf" in
  let url := "https://h.io/data.csv" in
  sniffed E [] = Some Pdf /\
  suffix_format url = Some Csv /\
  detect_file_type E url EmptyString [] = Some Pdf /\
  detect_file_type E url EmptyString [] <> suffix_format url.
Proof. repeat split; try reflexivity. discriminate. Qed.

(** C2, amended.  The declared content-type wins over the sniffed
    content signature, and the sniffed signature wins over the URL
    suffix: the detector returns the first format that the content-type,
    the sniffing and the suffix indicate, in this order.  In particular,
    when the content-type indicates nothing (as the empty one does) and
    the sniffing indicates a format, the detector returns the sniffed
    format whatever the suffix indicates, and the suffix decides only
    when neither of the other two indicates a format. *)
Theorem detect_priority E url content_type content_bytes :
  let detected := detect_file_type E url content_type content_bytes in
  detected = first_of (declared_format content_type)
                      (sniffed E content_bytes) (suffix_format url) /\
  (forall f, declared_format content_type = Some f -> detected = Some f) /\
  (forall f, declared_format content_type = None ->
             sniffed E content_bytes = Some f -> detected = Some f) /\
  (declared_format content_type = None -> sniffed E content_bytes = None ->
   detected = suffix_format url).
Proof.
  cbv zeta. rewrite detect_chain. unfold first_of.
  repeat split.
  - by intros f ->.
  - by intros f -> ->.
  - by intros -> ->.
Qed.

Lemma detect_priority_witness :
  declared_format EmptyString = None /\
  suffix_format "https://h.io/data.csv" = Some Csv /\
  detect_file_type (Fixture.sniffing "application/pdf")
    "https://h.io/data.csv" EmptyString [] = Some Pdf.
Proof.
  split; [reflexivity | split; [reflexivity |]].
  apply (proj1 (proj2 (proj2
           (detect_priority (Fixture.sniffing "application/pdf")
              "https://h.io/data.csv" EmptyString [])))); reflexivity.
Defined.

(** The empty content-type indicates nothing; without python-magic the
    suffix decides. *)
Lemma detect_without_magic E url content_bytes :
  magic E = None ->
  detect_file_type E url EmptyString content_bytes = suffix_format url.
Proof.
  intros H. rewrite detect_chain. unfold sniffed. by rewrite H.
Qed.

End DetectFacts.

(** ** Table Normalizer *)

Module TableFacts.
Import Table.

Lemma coerce_numeric_nth df i c :
  nth_error df i = Some c ->
  nth_error (coerce_numeric df) i = Some (coerce_column df c).
Proof. intros H. unfold coerce_numeric. by apply map_nth_error. Qed.

Lemma rename_stripped_nth raw i c :
  nth_error raw i = Some c ->
  nth_error (rename_stripped raw) i =
    Some {| rc_name := Str.strip (rc_name c);
            rc_numeric := rc_numeric c;
            rc_cells := rc_cells c |}.
Proof.
  intros H. unfold rename_stripped.
  by apply (map_nth_error (fun c => {| rc_name := Str.strip (rc_name c);
                                        rc_numeric := rc_numeric c;
                                        rc_cells := rc_cells c |})).
Qed.

(** Normalization keeps the number of columns. *)
Lemma normalize_length raw : List.length (normalize raw) = List.length raw.
Proof. unfold normalize, coerce_numeric, rename_stripped. by rewrite !length_map. Qed.

(** C1, counterexample.  The claim has a column keep its original
    strings as soon as one value fails coercion.  In the column with the
    cells [12] and [abc] the second value fails, and the column ends up
    with a number and a missing cell. *)
Lemma coercion_mixes_numbers_and_missing :
  let raw := [Fixture.text_column "amount" ["12"; "abc"]] in
  coerce_cell "abc" = None /\
  normalize raw =
    [{| col_name := "amount"; col_data := Numeric [Some 12%Q; None] |}] /\
  normalize raw <>
    [{| col_name := "amount"; col_data := Original false ["12"; "abc"] |}].
Proof. repeat split; try reflexivity. discriminate. Qed.

(** A column whose trimmed name no other column carries is replaced by
    the coercion of its cells, one by one. *)
Lemma unique_label_coerced (raw : raw_frame) (i : nat) (c : raw_column) :
  nth_error raw i = Some c ->
  label_count (rename_stripped raw) (Str.strip (rc_name c)) = 1%nat ->
  nth_error (normalize raw) i =
    Some {| col_name := Str.strip (rc_name c);
            col_data := Numeric (map coerce_cell (rc_cells c)) |}.
Proof.
  intros Hc Hone. unfold normalize.
  rewrite (coerce_numeric_nth _ _ _ (rename_stripped_nth _ _ _ Hc)).
  unfold coerce_column. cbn [rc_name rc_cells rc_numeric].
  by rewrite Hone.
Qed.

(** A column whose trimmed name another column carries is left as the
    reader delivered it. *)
Lemma duplicated_label_kept raw i c :
  nth_error raw i = Some c ->
  label_count (rename_stripped raw) (Str.strip (rc_name c)) <> 1%nat ->
  nth_error (normalize raw) i =
    Some {| col_name := Str.strip (rc_name c);
            col_data := Original (rc_numeric c) (rc_cells c) |}.
Proof.
  intros Hc Hdup. unfold normalize.
  rewrite (coerce_numeric_nth _ _ _ (rename_stripped_nth _ _ _ Hc)).
  unfold coerce_column. cbn [rc_name rc_cells rc_numeric].
  by destruct (Nat.eqb_spec (label_count (rename_stripped raw)
                               (Str.strip (rc_name c))) 1).
Qed.

Lemma filter_coerced df0 name df :
  List.filter (fun c => String.eqb (col_name c) name) (map (coerce_column df0) df) =
  map (coerce_column df0) (List.filter (fun c => String.eqb (rc_name c) name) df).
Proof.
  induction df as [|c df IH]; [done|]. cbn.
  destruct (String.eqb (rc_name c) name); cbn; by rewrite IH.
Qed.

(** In a normalized table a label that selects a Series selects numbers:
    the case that [Handler.reduce] closes with an exception does not
    occur. *)
Lemma normalized_series_is_numeric raw name d :
  getitem (normalize raw) name = Series d -> exists vals, d = Numeric vals.
Proof.
  unfold getitem, normalize, coerce_numeric. rewrite filter_coerced.
  set (df := rename_stripped raw).
  destruct (List.filter _ df) as [|c [|c' l]] eqn:Hf; cbn; try done.
  intros [= <-].
  assert (Hin : In c (List.filter (fun c => String.eqb (rc_name c) name) df))
    by (rewrite Hf; by left).
  apply filter_In in Hin as [_ Hname]. apply String.eqb_eq in Hname.
  unfold label_count. rewrite Hname, Hf. cbn. eauto.
Qed.

End TableFacts.

(** ** Submission-Target Resolver *)

Module ResolverFacts.
Import Handler.

Lemma unless_found_keeps cur rule :
  Str.otruthy cur = true -> unless_found cur rule = cur.
Proof. intros H. unfold unless_found. by rewrite H. Qed.

Lemma unless_found_none cur :
  unless_found cur None = cur.
Proof. unfold unless_found. by destruct (Str.otruthy cur). Qed.

Lemma unless_found_or_raise_keeps cur rule :
  Str.otruthy cur = true -> unless_found_or_raise cur rule = Ok cur.
Proof. intros H. unfold unless_found_or_raise. by rewrite H. Qed.

(** C5.  When none of the six rules for the submission target matches,
    the handler raises the error [submit_url not found on page] and
    returns no payload, before anything else happens: whatever the
    libraries would answer, no URL is requested, and no table, instruction
    or answer enters the result. *)
Theorem no_target_is_fatal (E : Env) (P : page_view) (email secret : pyval)
    (base_url : option string) :
  rule1 P = None ->
  rule2 P = None ->
  rule3 E P base_url = Ok None ->
  rule4 E P base_url = Ok None ->
  rule5 E P base_url = None ->
  rule6 P = None ->
  handle_quiz_page E P email secret base_url =
    ([], Raise "submit_url not found on page").
Proof.
  intros H1 H2 H3 H4 H5 H6.
  unfold handle_quiz_page, discover_submit_url.
  by rewrite H1, H2, H3, H4, H5, H6.
Qed.

Lemma no_target_is_fatal_witness :
  handle_quiz_page Fixture.offline Fixture.page_without_target
    (VStr "a@b.c") (VStr "s3cret") Fixture.base =
    ([], Raise "submit_url not found on page").
Proof.
  apply (no_target_is_fatal Fixture.offline Fixture.page_without_target
           (VStr "a@b.c") (VStr "s3cret") Fixture.base); reflexivity.
Defined.

(** The handler fails with this error exactly when the resolver ran
    through and found no target. *)
Lemma fatal_iff_no_target E P email secret base_url :
  snd (handle_quiz_page E P email secret base_url) =
    Raise "submit_url not found on page"
  <-> (exists found, discover_submit_url E P base_url = Ok found
                     /\ Str.otruthy found = false)
      \/ discover_submit_url E P base_url = Raise "submit_url not found on page".
Proof.
  unfold handle_quiz_page.
  destruct (discover_submit_url E P base_url) as [found|e]; cbn [snd].
  2:{ split; [intros [= ->]; by right | intros [(f & [=] & _) | [= ->]]; done]. }
  destruct (Str.otruthy found) eqn:Hf; cbn.
  - destruct (locate_dataset E P base_url) as [log located]. cbn.
    split; [|by intros [(f & [= <-] & Hn) | [=]]; congruence].
    repeat case_match; try done.
    all: unfold integral_to_int in *; repeat case_match; simplify_eq.
    all: discriminate.
  - split; [intros _; left; by exists found | done].
Qed.

(** The converse: with a truthy [submit_url] the handler returns a
    payload or fails later, never with this error at this point. *)
Lemma target_found_goes_on E P email secret base_url found :
  discover_submit_url E P base_url = Ok found ->
  Str.otruthy found = true ->
  fst (handle_quiz_page E P email secret base_url) =
    fst (locate_dataset E P base_url).
Proof.
  intros Hd H. unfold handle_quiz_page. rewrite Hd, H. cbn [negb].
  by destruct (locate_dataset E P base_url).
Qed.

(** C7, counterexample.  The claim has the action of the form win on
    every page with a form that has an action attribute and a matching
    hyperlink.  A form with the empty action (which a browser resolves to
    the page itself) is passed over, and the hyperlink wins. *)
Lemma empty_action_loses_to_hyperlink :
  let E := Fixture.offline in
  let P := Fixture.page_with_empty_action in
  rule1 P = None /\ rule2 P = None /\
  form_action P = Some EmptyString /\
  rule4 E P Fixture.base = Ok (Some "https://h.io/submit-form") /\
  discover_submit_url E P Fixture.base = Ok (Some "https://h.io/submit-form") /\
  urljoin E "https://h.io/quiz" EmptyString = Ok "https://h.io/quiz" /\
  discover_submit_url E P Fixture.base <> Ok (Some "https://h.io/quiz").
Proof. repeat split; try reflexivity. discriminate. Qed.

(** C7, amended.  On a page where rules 1 and 2 do not match and whose
    first form with an action attribute has a non-empty action, the
    resolved submission target is that action, whatever hyperlinks the
    page contains: the action itself when it begins with [http],
    otherwise the action resolved against the base URL, provided there is
    a base URL (and the URL so resolved is not empty).  A form whose
    action is empty, or relative while there is no base URL, is passed
    over and the later rules decide. *)
Theorem form_action_beats_hyperlink (E : Env) (P : page_view)
    (base_url : option string) (action target : string) :
  rule1 P = None ->
  rule2 P = None ->
  form_action P = Some action ->
  Str.truthy action = true ->
  (Str.startswith action "http" = true /\ target = action)
  \/ (Str.startswith action "http" = false
      /\ Str.otruthy base_url = true
      /\ urljoin E (or_empty base_url) action = Ok target
      /\ Str.truthy target = true) ->
  discover_submit_url E P base_url = Ok (Some target).
Proof.
  intros H1 H2 Hf Hne Hres.
  assert (H3 : rule3 E P base_url = Ok (Some target)).
  { unfold rule3, joined. rewrite Hf, Hne.
    destruct Hres as [[-> ->] | (-> & -> & -> & _)]; done. }
  assert (Ht : Str.truthy target = true).
  { destruct Hres as [[_ ->] | (_ & _ & _ & Ht)]; done. }
  unfold discover_submit_url. rewrite H1, H2, H3.
  change (unless_found_or_raise (unless_found None None) (Ok (Some target)))
    with (Ok (A := option string) (Some target)).
  cbn [bind]. rewrite (unless_found_or_raise_keeps (Some target)) by exact Ht.
  cbn [bind]. by rewrite !(unless_found_keeps (Some target)) by exact Ht.
Qed.

Lemma form_action_beats_hyperlink_witness :
  rule4 Fixture.offline Fixture.page_with_form_and_link Fixture.base =
    Ok (Some "https://h.io/api/help") /\
  discover_submit_url Fixture.offline Fixture.page_with_form_and_link Fixture.base =
    Ok (Some "https://h.io/answers").
Proof.
  split; [reflexivity |].
  apply (form_action_beats_hyperlink Fixture.offline Fixture.page_with_form_and_link
           Fixture.base "/answers"); try reflexivity.
  right. repeat split; reflexivity.
Defined.

End ResolverFacts.

(** ** Dataset Locator: the embedded answer *)

Module LocatorFacts.
Import Re ReFacts Handler.

Lemma embedded_answer_first E before st after v :
  Forall (fun s => script_answer E s = None) before ->
  script_answer E st = Some v ->
  embedded_answer E (before ++ st :: after)%list = Some v.
Proof.
  intros Hb Hst. induction Hb as [|s before Hs _ IH]; cbn.
  - by rewrite Hst.
  - by rewrite Hs.
Qed.

Lemma embedded_answer_none E l :
  Forall (fun s => script_answer E s = None) l ->
  embedded_answer E l = None.
Proof.
  induction 1 as [|s l Hs _ IH]; cbn; [done|]. by rewrite Hs.
Qed.

(** A match of the answer pattern starts with an opening brace and ends
    with the last closing brace of the text. *)
Lemma answer_match_last_brace s m :
  match_here re_answer s = Some m ->
  exists body rest,
    s = whole m +:+ rest /\
    whole m = String "{" body +:+ "}" /\
    Str.contains rest "}" = false.
Proof.
  unfold match_here, re_answer. cbn [seqs]. intros H.
  apply run_seq in H as (w1 & s1 & cs1 & -> & H1 & H).
  apply run_seq in H as (w2 & s2 & cs2 & -> & H2 & H).
  apply run_seq in H as (w3 & s3 & cs3 & -> & H3 & H).
  apply run_seq in H as (w4 & s4 & cs4 & -> & H4 & H).
  apply run_seq in H as (w5 & s5 & cs5 & -> & H5 & H).
  cbn [run] in H.
  apply star_greedy_longest in H as (w6 & s6 & -> & _ & H & Hmax).
  destruct s6 as [|c rest]; [done|].
  destruct (ch "}" c) eqn:Hc; [|done].
  apply Ascii.eqb_eq in Hc as <-.
  injection H as <-. cbn [whole].
  inversion H1 as [|p c Hc| | | | | | | | |]; subst.
  apply Ascii.eqb_eq in Hc as <-.
  set (body := w2 +:+ w3 +:+ w4 +:+ w5 +:+ w6).
  assert (Hs : String "{" EmptyString +:+ w2 +:+ w3 +:+ w4 +:+ w5 +:+ w6 +:+ String "}" rest
               = (String "{" body +:+ "}") +:+ rest).
  { unfold body. rewrite !app_cons, !app_empty, !append_assoc. done. }
  rewrite Hs, take_app.
  exists body, rest. repeat split; [done..|].
  destruct (Str.contains rest "}") eqn:Hin; [|done].
  apply contains_split in Hin as (u & v & ->).
  assert (Hk := Hmax (w6 +:+ "}" +:+ u) (String "}" v)).
  rewrite !append_assoc in Hk. specialize (Hk eq_refl (all_any _)).
  rewrite !length_app in Hk. cbn in Hk.
  discriminate Hk. lia.
Qed.

(** The match [search] finds for the answer pattern: it starts at the
    leftmost opening brace from which the pattern matches and ends with
    the last closing brace of the text. *)
Lemma answer_span st m :
  search re_answer st = Some m ->
  exists before body after,
    st = before +:+ whole m +:+ after /\
    whole m = String "{" body +:+ "}" /\
    Str.contains after "}" = false /\
    forall b w t, st = b +:+ w +:+ t -> matches re_answer w ->
                  String.length before <= String.length b.
Proof.
  induction st as [|c t0 IH]; cbn [search].
  - destruct (match_here re_answer EmptyString) as [m'|] eqn:Hm; [|done].
    intros [= ->].
    apply answer_match_last_brace in Hm as (body & rest & Hs & Hw & Hr).
    exists EmptyString, body, rest. repeat split; [done..|]. intros; cbn; lia.
  - destruct (match_here re_answer (String c t0)) as [m'|] eqn:Hm.
    + intros [= ->].
      apply answer_match_last_brace in Hm as (body & rest & Hs & Hw & Hr).
      exists EmptyString, body, rest. repeat split; [done..|]. intros; cbn; lia.
    + intros H. destruct (IH H) as (before & body & after & -> & Hw & Hr & Hleft).
      exists (String c before), body, after. repeat split; [done..|].
      intros b w t Hs Hmatch. destruct b as [|c' b].
      * rewrite app_empty in Hs.
        destruct (match_here_complete re_answer w t Hmatch) as [y Hy].
        rewrite <- Hs in Hy. congruence.
      * rewrite app_cons in Hs. injection Hs as _ Hs.
        cbn. apply le_n_S. by apply (Hleft b w t).
Qed.

(** Where an embedded answer comes from. *)
Lemma script_answer_span E st v :
  script_answer E st = Some v ->
  exists before body after j,
    st = before +:+ (String "{" body +:+ "}") +:+ after /\
    Str.contains after "}" = false /\
    (forall b w t, st = b +:+ w +:+ t -> matches re_answer w ->
                   String.length before <= String.length b) /\
    json_loads E (String "{" body +:+ "}") = Some (VDict j) /\
    dict_get j "answer" = Some v.
Proof.
  unfold script_answer.
  destruct (search re_answer st) as [m|] eqn:Hm; [|done].
  apply answer_span in Hm as (before & body & after & -> & Hw & Hr & Hleft).
  rewrite Hw in *.
  destruct (json_loads E _) as [[| | | | | | j]|] eqn:Hj; try done.
  intros Hv. by exists before, body, after, j.
Qed.

(** C6, the code at the failing input.  The page has a submission
    target, no table and no link, and one script,
    [var a = {\x22answer\x22: 6.0}; var b = {};], which contains the JSON
    object with the key [answer] and the value 6.0.  The pattern of the
    source is greedy: it runs from the first opening brace to the last
    closing brace of the script, so the text handed to [json.loads] is
    the object together with what follows it up to the brace of [b];
    [json.loads] rejects it, the exception is swallowed, and the handler
    answers [unable to locate dataset], where the claim has the answer
    6.0 of the embedded object returned. *)
Theorem embedded_object_not_returned :
  let E := Fixture.parsing in
  let P := Fixture.page_with_scripts [Fixture.two_objects] in
  Str.contains Fixture.two_objects Fixture.answer_object = true /\
  json_loads E Fixture.answer_object = Some (VDict [("answer", VFloat (Fin 6))]) /\
  discover_submit_url E P Fixture.base = Ok (Some "https://h.io/submit") /\
  locate_dataset E P Fixture.base = ([], None) /\
  (exists m, search re_answer Fixture.two_objects = Some m /\
             whole m = Fixture.answer_object +:+ "; var b = {}" /\
             json_loads E (whole m) = None) /\
  script_answer E Fixture.two_objects = None /\
  handle_quiz_page E P (VStr "a@b.c") (VStr "s3cret") Fixture.base =
    ([], Ok (reply_items (VStr "a@b.c") (VStr "s3cret") Fixture.base
               (VStr "unable to locate dataset") "https://h.io/submit")).
Proof.
  repeat split; try reflexivity.
  eexists. split; [reflexivity|]. split; reflexivity.
Qed.

(** What the code does return: for the first script in which the text
    the pattern matches, from an opening brace over the quoted word
    [answer] to the last closing brace of the script, parses as a JSON
    object with an [answer] key, the handler returns the value under that
    key verbatim; the instruction is not classified, nothing is computed
    and the value is not reformatted. *)
Lemma embedded_answer_short_circuit (E : Env) (P : page_view)
    (email secret : pyval) (base_url : option string)
    (requested : list string) (before after : list string) (st : string)
    (target : string) (v : pyval) :
  discover_submit_url E P base_url = Ok (Some target) ->
  Str.truthy target = true ->
  locate_dataset E P base_url = (requested, None) ->
  scripts P = (before ++ st :: after)%list ->
  Forall (fun s => script_answer E s = None) before ->
  script_answer E st = Some v ->
  handle_quiz_page E P email secret base_url =
    (requested, Ok (reply_items email secret base_url v target)) /\
  exists left body right j,
    st = left +:+ (String "{" body +:+ "}") +:+ right /\
    Str.contains right "}" = false /\
    (forall b w t, st = b +:+ w +:+ t -> matches re_answer w ->
                   String.length left <= String.length b) /\
    json_loads E (String "{" body +:+ "}") = Some (VDict j) /\
    dict_get j "answer" = Some v.
Proof.
  intros Hfound Ht Hloc Hscripts Hbefore Hst. split.
  - unfold handle_quiz_page. rewrite Hfound. cbn [Str.otruthy or_empty].
    rewrite Ht, Hloc. cbn [negb].
    rewrite Hscripts.
    by rewrite (embedded_answer_first E before st after v Hbefore Hst).
  - by apply script_answer_span.
Qed.

(** A script that holds the object and no other brace: the answer 6.0
    is returned as it is, a float. *)
Lemma embedded_answer_of_one_object :
  handle_quiz_page Fixture.parsing
    (Fixture.page_with_scripts ["var n = 0;"; Fixture.one_object])
    (VStr "a@b.c") (VStr "s3cret") Fixture.base =
    ([], Ok [("email", VStr "a@b.c"); ("secret", VStr "s3cret");
             ("url", VStr "https://h.io/quiz");
             ("answer", VFloat (Fin 6));
             ("submit_url", VStr "https://h.io/submit")]).
Proof. reflexivity. Qed.

(** Without a table and without such a script the answer is the
    sentinel. *)
Lemma no_dataset_sentinel E P email secret base_url requested target :
  discover_submit_url E P base_url = Ok (Some target) ->
  Str.truthy target = true ->
  locate_dataset E P base_url = (requested, None) ->
  Forall (fun s => script_answer E s = None) (scripts P) ->
  handle_quiz_page E P email secret base_url =
    (requested,
     Ok (reply_items email secret base_url (VStr "unable to locate dataset")
           target)).
Proof.
  intros Hfound Ht Hloc Hnone.
  unfold handle_quiz_page. rewrite Hfound. cbn [Str.otruthy or_empty].
  rewrite Ht, Hloc. cbn [negb].
  by rewrite (embedded_answer_none E _ Hnone).
Qed.

End LocatorFacts.

(** ** Answer Computer *)

Module AnswerFacts.
Import Handler.

(** *** Sum and mean *)

(** Sum: the first column that matches exactly. *)
Lemma sum_by_exact_match E df c m rest :
  Str.truthy c = true ->
  List.filter (exact_match c) (Table.columns df) = m :: rest ->
  compute_answer E df (sum_of c) = answered (reduce E "sum" Table.series_sum df m).
Proof.
  intros Hc Hm. unfold compute_answer, sum_of, is_op. cbn.
  by rewrite Hc, Hm.
Qed.

(** Sum: without an exact match, the first column that contains the name. *)
Lemma sum_by_substring_match E df c m rest :
  Str.truthy c = true ->
  List.filter (exact_match c) (Table.columns df) = [] ->
  List.filter (substring_match c) (Table.columns df) = m :: rest ->
  compute_answer E df (sum_of c) = answered (reduce E "sum" Table.series_sum df m).
Proof.
  intros Hc He Hm. unfold compute_answer, sum_of, is_op. cbn.
  by rewrite Hc, He, Hm.
Qed.

(** Mean: the first column that matches exactly. *)
Lemma mean_by_exact_match E df c m rest :
  Str.truthy c = true ->
  List.filter (exact_match c) (Table.columns df) = m :: rest ->
  compute_answer E df (mean_of c) = answered (reduce E "mean" Table.series_mean df m).
Proof.
  intros Hc Hm. unfold compute_answer, mean_of, is_op. cbn.
  by rewrite Hc, Hm.
Qed.

(** Mean: without an exact match there is no answer, whatever columns
    contain the name. *)
Lemma mean_without_exact_match E df c :
  Str.truthy c = true ->
  List.filter (exact_match c) (Table.columns df) = [] ->
  compute_answer E df (mean_of c) = unanswered.
Proof.
  intros Hc He. unfold compute_answer, mean_of, is_op. cbn.
  by rewrite Hc, He.
Qed.

(** C3, the code at the failing input.  The table has the columns [Id]
    and [Total Price]; no column is named [price] and [Total Price]
    contains it.  Asked for the sum of the price column the handler
    answers 6, the sum of [Total Price]; asked for the mean it finds no
    column and answers [no_answer_generated], where the claim has it
    answer 2, the mean of [Total Price]. *)
Theorem mean_lacks_substring_fallback :
  let df := Table.normalize Fixture.prices in
  let asked_sum := Fixture.ask "What is the sum of the price column?" Fixture.prices in
  let asked_mean := Fixture.ask "What is the mean of the price column?" Fixture.prices in
  List.filter (exact_match "price") (Table.columns df) = [] /\
  List.filter (substring_match "price") (Table.columns df) = ["Total Price"] /\
  detect_instruction (body_text asked_sum) = sum_of "price" /\
  detect_instruction (body_text asked_mean) = mean_of "price" /\
  reduce Fixture.offline "mean" Table.series_mean df "Total Price" =
    Ok (VFloat (Fin 2)) /\
  compute_answer Fixture.offline df (sum_of "price") =
    Ok (Some (VFloat (Fin 6)), None) /\
  compute_answer Fixture.offline df (mean_of "price") = Ok (None, None) /\
  handle_quiz_page Fixture.offline asked_sum Fixture.me Fixture.pw Fixture.base =
    ([], Ok (reply_items Fixture.me Fixture.pw Fixture.base (VInt 6)
               "https://h.io/submit")) /\
  handle_quiz_page Fixture.offline asked_mean Fixture.me Fixture.pw Fixture.base =
    ([], Ok (reply_items Fixture.me Fixture.pw Fixture.base
               (VStr "no_answer_generated") "https://h.io/submit")).
Proof. repeat split; reflexivity. Qed.

(** *** Plot *)

(** Plot: [y] is looked up as it was captured. *)
Lemma plot_by_exact_label E df a b :
  Str.truthy b = true ->
  in_columns df b = true ->
  compute_answer E df (plot_of a b) =
    plotted (df_plot_to_base64 E df (Some a) (Some b)).
Proof.
  intros Hb Hin. unfold compute_answer, plot_of, is_op. cbn.
  by rewrite Hb, Hin.
Qed.

(** Plot: a [y] that is no label of the table, as it is written, gives
    way to the first numeric column. *)
Lemma plot_falls_back E df a b first rest :
  in_columns df b = false ->
  Table.numeric_columns df = first :: rest ->
  compute_answer E df (plot_of a b) =
    plotted (df_plot_to_base64 E df None (Some first)).
Proof.
  intros Hin Hnum. unfold compute_answer, plot_of, is_op. cbn.
  rewrite Hin, Hnum. by rewrite andb_false_r.
Qed.

(** C4, the code at the failing input.  The table has the columns [Id]
    and [Total Price], and the page asks for a chart with [y] the total
    price.  The captured name is in lower case; it equals the label
    [Total Price] up to letter case, as the comparison of the sum and the
    mean would find, but the plot looks it up as written, does not find
    it, and draws the first numeric column, [Id]. *)
Theorem plot_lookup_is_case_sensitive :
  let df := Table.normalize Fixture.prices in
  let asked := Fixture.ask "Plot a chart with x: id, y: total price." Fixture.prices in
  detect_instruction (body_text asked) = plot_of "id" "total price" /\
  List.filter (exact_match "total price") (Table.columns df) = ["Total Price"] /\
  in_columns df "total price" = false /\
  Table.numeric_columns df = ["Id"; "Total Price"] /\
  compute_answer Fixture.offline df (plot_of "id" "total price") =
    Ok (Some (VStr "attached_plot"),
        Some ("data:image/png;base64," +:+ Fixture.describe (PlotY "Id"))) /\
  handle_quiz_page Fixture.offline asked Fixture.me Fixture.pw Fixture.base =
    ([], Ok (reply_with_attachment Fixture.me Fixture.pw Fixture.base
               (VStr "attached_plot")
               ("data:image/png;base64," +:+ Fixture.describe (PlotY "Id"))
               "https://h.io/submit")).
Proof. repeat split; reflexivity. Qed.

(** With the label written in lower case in the table, the same page
    gets the chart of the two columns it names. *)
Lemma plot_of_lower_case_labels :
  let t := [Fixture.number_column "id" ["7"; "8"; "9"];
            Fixture.number_column "total price" ["1"; "2"; "3"]] in
  compute_answer Fixture.offline (Table.normalize t)
    (plot_of "id" "total price") =
    Ok (Some (VStr "attached_plot"),
        Some ("data:image/png;base64," +:+
              Fixture.describe (PlotXY "id" "total price"))).
Proof. reflexivity. Qed.

End AnswerFacts.

(** ** The rendering of a numeric answer *)

Module NumberFacts.
Import Handler.

Lemma Qltb_lt a b : Qltb a b = true <-> (a < b)%Q.
Proof.
  unfold Qltb. rewrite Bool.negb_true_iff. split.
  - intros H. apply Qnot_le_lt. intros Hle.
    apply Qle_bool_iff in Hle. congruence.
  - intros H. destruct (Qle_bool b a) eqn:Hb; [|reflexivity].
    apply Qle_bool_iff in Hb. exfalso. apply (Qlt_not_le _ _ H Hb).
Qed.

Lemma floor_unique q n :
  (inject_Z n <= q)%Q -> (q < inject_Z n + 1)%Q -> Qfloor q = n.
Proof.
  intros Hlo Hhi.
  pose proof (Qfloor_le q) as H1. pose proof (Qlt_floor q) as H2.
  assert (Ha : (inject_Z (Qfloor q) < inject_Z (n + 1))%Q).
  { rewrite inject_Z_plus. apply (Qle_lt_trans _ q); [exact H1 | exact Hhi]. }
  assert (Hb : (inject_Z n < inject_Z (Qfloor q + 1))%Q).
  { apply (Qle_lt_trans _ q); [exact Hlo | exact H2]. }
  rewrite <- Zlt_Qlt in Ha, Hb. lia.
Qed.

(** [round] finds the integer a float is within the tolerance of. *)
Lemma py_round_of_near q n :
  (Qabs (inject_Z n - q) < tolerance)%Q -> py_round q = n.
Proof.
  intros H. apply Qabs_Qlt_condition in H. destruct H as [Hlo Hhi].
  unfold tolerance in *.
  destruct (Qlt_le_dec q (inject_Z n)) as [Hlt|Hge].
  - assert (Hf : Qfloor q = (n - 1)%Z).
    { apply floor_unique; unfold Zminus;
        rewrite inject_Z_plus, inject_Z_opp; change (inject_Z 1) with 1%Q; lra. }
    unfold py_round. rewrite Hf.
    assert (Hc : (q - inject_Z (n - 1) ?= 1 # 2)%Q = Gt).
    { rewrite <- Qgt_alt. unfold Zminus.
      rewrite inject_Z_plus, inject_Z_opp. change (inject_Z 1) with 1%Q. lra. }
    rewrite Hc. lia.
  - assert (Hf : Qfloor q = n) by (apply floor_unique; lra).
    unfold py_round. rewrite Hf.
    assert (Hc : (q - inject_Z n ?= 1 # 2)%Q = Lt) by (rewrite <- Qlt_alt; lra).
    by rewrite Hc.
Qed.

(** A finite answer within the tolerance of an integer is rendered as
    that integer. *)
Lemma integral_answer_is_int q n :
  (Qabs (inject_Z n - q) < tolerance)%Q ->
  integral_to_int (VFloat (Fin q)) = Ok (VInt n).
Proof.
  intros H. unfold integral_to_int.
  rewrite (py_round_of_near q n H).
  by rewrite (proj2 (Qltb_lt _ _) H).
Qed.

(** Any other finite answer stays a float. *)
Lemma other_finite_answer_is_float q :
  (forall n, ~ (Qabs (inject_Z n - q) < tolerance)%Q) ->
  integral_to_int (VFloat (Fin q)) = Ok (VFloat (Fin q)).
Proof.
  intros H. unfold integral_to_int.
  destruct (Qltb (Qabs (inject_Z (py_round q) - q)) tolerance) eqn:Hb; [|done].
  apply Qltb_lt in Hb. by destruct (H (py_round q)).
Qed.

(** The example of the specification: the sum of A in the table with
    A = 1, 2, 3 and B = 4, 5, 6 is the integer 6. *)
Lemma sum_of_A_is_int_6 :
  handle_quiz_page Fixture.offline
    (Fixture.ask "What is the sum of the A column?" Fixture.table_AB)
    Fixture.me Fixture.pw Fixture.base =
    ([], Ok (reply_items Fixture.me Fixture.pw Fixture.base
               (VInt 6) "https://h.io/submit")).
Proof. reflexivity. Qed.

(** A mean that is not integral stays a float. *)
Lemma mean_of_A_and_a_half :
  let t := [Fixture.number_column "A" ["1"; "2"; "3"; "4"]] in
  handle_quiz_page Fixture.offline
    (Fixture.ask "What is the mean of the A column?" t)
    Fixture.me Fixture.pw Fixture.base =
    ([], Ok (reply_items Fixture.me Fixture.pw Fixture.base
               (VFloat (Fin (5 # 2))) "https://h.io/submit")).
Proof. reflexivity. Qed.

(** C8, the code at the failing input.  The table has the one column
    [name] with the cells [ann] and [bob]; neither coerces, the column has
    no value left, and its mean is NaN.  The last step of the handler
    calls [round] on this answer outside the [try] block: the handler
    raises ValueError and returns no payload, where the claim has a
    numeric answer that is not near an integer rendered as a
    floating-point value. *)
Theorem nan_answer_raises :
  let df := Table.normalize Fixture.names in
  let asked := Fixture.ask "What is the mean of the name column?"
                 Fixture.names in
  df = [{| col_name := "name"; col_data := Numeric [None; None] |}] /\
  detect_instruction (body_text asked) = mean_of "name" /\
  compute_answer Fixture.offline df (mean_of "name") =
    Ok (Some (VFloat NaN), None) /\
  integral_to_int (VFloat NaN) = Raise "cannot convert float NaN to integer" /\
  handle_quiz_page Fixture.offline asked Fixture.me Fixture.pw
    Fixture.base =
    ([], Raise "cannot convert float NaN to integer").
Proof. repeat split; reflexivity. Qed.

End NumberFacts.

(** ** The worker: what is transmitted *)

Module WorkerFacts.
Import Handler Worker.




(** Every payload the handler returns is one of its two dict literals,
    with the target the resolver found under [submit_url]. *)
Lemma payload_shape E P email secret base_url requested p :
  handle_quiz_page E P email secret base_url = (requested, Ok p) ->
  exists answer submit_url,
    discover_submit_url E P base_url = Ok (Some submit_url) /\
    Str.truthy submit_url = true /\
    (p = reply_items email secret base_url answer submit_url
     \/ exists attachment,
          p = reply_with_attachment email secret base_url answer attachment
                submit_url).
Proof.
  unfold handle_quiz_page.
  destruct (discover_submit_url E P base_url) as [[target|]|]; [|done..].
  cbn [Str.otruthy or_empty].
  destruct (Str.truthy target) eqn:Ht; cbn [negb]; [|done].
  destruct (locate_dataset E P base_url) as [log located].
  intros [= _ H]. revert H.
  repeat case_match; intros [= <-]; eexists _, target;
    (split; [done|]); (split; [done|]); eauto.
Qed.

(** [pop] finds the key in every payload of the handler: the worker does
    not fail with KeyError. *)
Lemma pop_submit_url E P email secret base_url requested p :
  handle_quiz_page E P email secret base_url = (requested, Ok p) ->
  exists target sent,
    dict_pop "submit_url" p = Some (VStr target, sent)
    /\ dict_get p "submit_url" = Some (VStr target).
Proof.
  intros H.
  apply payload_shape in H as (answer & target & _ & _ & [-> | [att ->]]);
    by eexists _, _.
Qed.




End WorkerFacts.

(** ** The front door *)

Module AppFacts.
Import App.

(** C10, counterexample.  The claim has an unset expected secret answered
    with 500 whatever the body.  A body that is not JSON is answered with
    400 before the secret is looked at. *)
Lemma invalid_json_is_400_without_secret :
  quiz None None Fixture.solved = Ok (error "Invalid JSON" 400) /\
  served_status (quiz None None Fixture.solved) <> 500%Z.
Proof. split; [reflexivity | discriminate]. Qed.

(** C10, amended.  A POST to /quiz whose body is not JSON is answered
    with 400 (Invalid JSON), whatever the expected secret.  For every
    other body: when the expected secret is unset the response is 500;
    otherwise, for a body that is a JSON object, the secret is compared
    before the required fields are checked, so a secret that does not
    match is answered with 403 even when email or url is missing, and the
    400 for a missing field is only given to a request whose secret
    matches. *)
Theorem front_door_order (expected : option string) (json : option pyval)
    (solve : pyval -> pyval -> pyval -> result pyval) :
  (json = None -> quiz expected json solve = Ok (error "Invalid JSON" 400)) /\
  (forall v, json = Some v -> expected = None ->
     served_status (quiz expected json solve) = 500%Z) /\
  (forall data e, json = Some (VDict data) -> expected = Some e ->
     get data "secret" <> VStr e ->
     quiz expected json solve = Ok (error "Forbidden" 403)) /\
  (quiz expected json solve = Ok (error "Missing email or url" 400) ->
   exists data e, json = Some (VDict data) /\ expected = Some e /\
                  get data "secret" = VStr e /\
                  (truth (get data "email") = false
                   \/ truth (get data "url") = false)).
Proof.
  repeat split.
  - by intros ->.
  - intros v -> ->. by destruct v.
  - intros data e -> -> Hne. cbn.
    destruct (get data "secret") as [| b | z | f | s | l | d] eqn:Hs; cbn;
      try done.
    destruct (String.eqb_spec s e) as [Heq|Hdiff]; [|done].
    destruct Hne. by rewrite Heq.
  - destruct json as [v|]; [|discriminate].
    destruct v as [| b | z | f | s | l | data]; try discriminate.
    destruct expected as [e|]; [|discriminate].
    cbn. intros H. exists data, e. repeat split; [done..| |].
    + destruct (get data "secret") as [| b | z | f | s | l | d]; cbn in H;
        try discriminate.
      destruct (String.eqb_spec s e) as [Heq|Hdiff]; [|discriminate].
      by rewrite Heq.
    + destruct (differs (get data "secret") e); [discriminate|].
      destruct (truth (get data "email")); [|by left].
      destruct (truth (get data "url")); [|by right].
      cbn in H. destruct (solve _ _ _); discriminate.
Qed.

Lemma front_door_order_witness :
  quiz (Some "s3cret")
       (Some (VDict [("secret", VStr "guess")])) Fixture.solved =
    Ok (error "Forbidden" 403) /\
  served_status (quiz None (Some (VDict [("secret", VStr "s3cret")])) Fixture.solved)
    = 500%Z.
Proof.
  split.
  - apply (proj1 (proj2 (proj2
             (front_door_order (Some "s3cret")
                (Some (VDict [("secret", VStr "guess")])) Fixture.solved)))
             [("secret", VStr "guess")] "s3cret"); [reflexivity.. | discriminate].
  - apply (proj1 (proj2
             (front_door_order None
                (Some (VDict [("secret", VStr "s3cret")])) Fixture.solved))
             (VDict [("secret", VStr "s3cret")])); reflexivity.
Defined.

(** A request that passes the three checks reaches the solver. *)
Lemma passing_request_is_solved :
  quiz (Some "s3cret")
    (Some (VDict [("email", VStr "a@b.c"); ("secret", VStr "s3cret");
                  ("url", VStr "https://h.io/quiz")])) Fixture.solved =
    Ok {| status := 200;
          body := VDict [("status", VStr "done");
                         ("result", VDict [("correct", VBool true)])] |}.
Proof. reflexivity. Qed.

End AppFacts.

(** * Further properties *)

(** ** Character classes of the patterns *)

Module CharsFacts.
Import Re ReFacts Chars.

Lemma all_ascii_spec f : all_ascii f = true -> forall c, f c = true.
Proof.
  intros H c. unfold all_ascii in H. rewrite forallb_forall in H. apply H.
  destruct c as [[] [] [] [] [] [] [] []]; vm_compute; tauto.
Qed.

Lemma lower_char_idem c : Str.lower_char (Str.lower_char c) = Str.lower_char c.
Proof.
  assert (H : all_ascii (fun c => Ascii.eqb (Str.lower_char (Str.lower_char c))
                                            (Str.lower_char c)) = true)
    by (vm_compute; reflexivity).
  apply Ascii.eqb_eq. by apply (all_ascii_spec _ H).
Qed.

Lemma lower_idem s : Str.lower (Str.lower s) = Str.lower s.
Proof. induction s as [|c s IH]; cbn; [done|]. by rewrite lower_char_idem, IH. Qed.

Lemma lower_truthy s : Str.truthy (Str.lower s) = Str.truthy s.
Proof. by destruct s. Qed.

Lemma all_chars_app p a b :
  all_chars p (a +:+ b) = all_chars p a && all_chars p b.
Proof.
  induction a as [|c a IH]; rewrite ?app_empty, ?app_cons; cbn; [done|].
  by rewrite IH, andb_assoc.
Qed.

Lemma implies_class (q p : ascii -> bool) :
  all_ascii (fun c => implb (q c) (p c)) = true ->
  forall c, q c = true -> p c = true.
Proof.
  intros H c Hq. pose proof (all_ascii_spec _ H c) as Hc. cbn in Hc.
  by rewrite Hq in Hc.
Qed.

Lemma all_chars_weaken (q p : ascii -> bool) s :
  (forall c, q c = true -> p c = true) ->
  all_chars q s = true -> all_chars p s = true.
Proof.
  intros Hqp. induction s as [|c s IH]; cbn; [done|].
  intros H. apply andb_prop in H as [Hc Hs]. by rewrite (Hqp c Hc), IH.
Qed.

(** A text the pattern matches is made of the characters its classes
    allow. *)
Lemma within_sound p r w :
  within p r = true -> matches r w -> all_chars p w = true.
Proof.
  intros Hr Hm. induction Hm; cbn in Hr; try done.
  - cbn. by rewrite (implies_class _ _ Hr c).
  - apply andb_prop in Hr as [Ha Hb]. rewrite all_chars_app.
    by rewrite IHHm1, IHHm2.
  - apply andb_prop in Hr as [Ha Hb]. by apply IHHm.
  - apply andb_prop in Hr as [Ha Hb]. by apply IHHm.
  - by apply IHHm.
  - by apply (all_chars_weaken p0 p s (implies_class _ _ Hr)).
  - by apply (all_chars_weaken p0 p s (implies_class _ _ Hr)).
  - cbn. rewrite (implies_class _ _ Hr c) by done.
    by apply (all_chars_weaken p0 p s (implies_class _ _ Hr)).
  - by apply IHHm.
Qed.

(** The matcher only records captures the classes of the groups allow. *)
Lemma run_caps {A} p r : groups_within p r = true ->
  forall s cs (k : string -> caps -> option A) x,
  run r s cs k = Some x ->
  exists w s' cs',
    s = w +:+ s' /\ matches r w /\ k s' cs' = Some x /\
    (caps_within p cs -> caps_within p cs').
Proof.
  induction r as [|q|a IHa b IHb|a IHa b IHb|a IHa|q|q|q|n a IHa];
    intros Hg s cs k x; cbn in Hg |- *.
  - intros H. exists EmptyString, s, cs. repeat split; [constructor | done..].
  - destruct s as [|c t]; [done|]. destruct (q c) eqn:Hq; [|done].
    intros H. exists (String c EmptyString), t, cs.
    repeat split; [by constructor | done..].
  - apply andb_prop in Hg as [Hga Hgb]. intros H.
    apply (IHa Hga) in H as (w1 & s1 & cs1 & -> & Hm1 & H & H1).
    apply (IHb Hgb) in H as (w2 & s2 & cs2 & -> & Hm2 & H & H2).
    exists (w1 +:+ w2), s2, cs2. rewrite append_assoc.
    repeat split; [by constructor | done | auto].
  - apply andb_prop in Hg as [Hga Hgb].
    destruct (run a s cs k) as [y|] eqn:Hy.
    + intros [= ->]. apply (IHa Hga) in Hy as (w & s' & cs' & -> & Hm & H & Hc).
      exists w, s', cs'. repeat split; [by apply m_alt_l | done..].
    + intros H. apply (IHb Hgb) in H as (w & s' & cs' & -> & Hm & H & Hc).
      exists w, s', cs'. repeat split; [by apply m_alt_r | done..].
  - destruct (run a s cs k) as [y|] eqn:Hy.
    + intros [= ->]. apply (IHa Hg) in Hy as (w & s' & cs' & -> & Hm & H & Hc).
      exists w, s', cs'. repeat split; [by apply m_opt_take | done..].
    + intros H. exists EmptyString, s, cs. repeat split; [constructor | done..].
  - intros H. apply star_greedy_sound in H as (w & s' & -> & Hw & H).
    exists w, s', cs. repeat split; [by constructor | done..].
  - intros H. apply star_lazy_sound in H as (w & s' & -> & Hw & H).
    exists w, s', cs. repeat split; [by constructor | done..].
  - destruct s as [|c t]; [done|]. destruct (q c) eqn:Hq; [|done].
    intros H. apply star_greedy_sound in H as (w & s' & -> & Hw & H).
    exists (String c w), s', cs. repeat split; [by constructor | done..].
  - apply andb_prop in Hg as [Hw Hga]. intros H.
    apply (IHa Hga) in H as (w & s' & cs' & -> & Hm & H & Hc).
    rewrite take_app in H.
    exists w, s'. eexists. split; [done|]. split; [by constructor|].
    split; [exact H|]. intros Hcs. constructor; [|by apply Hc].
    cbn. by apply (within_sound p a w).
Qed.

Lemma group_in_within p cs n :
  caps_within p cs -> all_chars p (group_in cs n) = true.
Proof.
  induction 1 as [|[i t] cs Ht _ IH]; cbn; [done|].
  by destruct (Nat.eqb i n).
Qed.

Lemma match_here_groups p r s m n :
  groups_within p r = true -> match_here r s = Some m ->
  all_chars p (group m n) = true.
Proof.
  intros Hg H. unfold match_here in H.
  apply (run_caps p r Hg) in H as (w & s' & cs' & -> & Hm & [= <-] & Hc).
  unfold group. cbn. apply group_in_within. apply Hc. constructor.
Qed.

(** What [m.group(n)] returns after a search is made of the characters
    the groups of the pattern allow. *)
Lemma search_groups p r s m n :
  groups_within p r = true -> search r s = Some m ->
  all_chars p (group m n) = true.
Proof.
  intros Hg. induction s as [|c t IH]; cbn.
  - destruct (match_here r EmptyString) eqn:Hm; [|done]. intros [= ->].
    by apply (match_here_groups p r EmptyString).
  - destruct (match_here r (String c t)) eqn:Hm.
    + intros [= ->]. by apply (match_here_groups p r (String c t)).
    + done.
Qed.

(** *** [str.strip] *)

Lemma app_empty_r s : s +:+ EmptyString = s.
Proof. induction s as [|c s IH]; [done|]. by rewrite app_cons, IH. Qed.

Lemma rev_onto_app s acc : Str.rev_onto s acc = Str.rev s +:+ acc.
Proof.
  unfold Str.rev. revert acc. induction s as [|c s IH]; intros acc; cbn; [done|].
  rewrite (IH (String c acc)), (IH (String c EmptyString)).
  by rewrite append_assoc.
Qed.

Lemma rev_cons c s : Str.rev (String c s) = Str.rev s +:+ String c EmptyString.
Proof. unfold Str.rev at 1. cbn. apply rev_onto_app. Qed.

Lemma rev_app a b : Str.rev (a +:+ b) = Str.rev b +:+ Str.rev a.
Proof.
  induction a as [|c a IH].
  - by rewrite app_empty, app_empty_r.
  - by rewrite app_cons, !rev_cons, IH, append_assoc.
Qed.

Lemma rev_involutive s : Str.rev (Str.rev s) = s.
Proof.
  induction s as [|c s IH]; [done|].
  by rewrite rev_cons, rev_app, IH.
Qed.

Lemma lstrip_head s c t : Str.lstrip s = String c t -> Str.is_space c = false.
Proof.
  induction s as [|d s IH]; cbn; [done|].
  destruct (Str.is_space d) eqn:Hd; [done|]. by intros [= <- _].
Qed.

Lemma lstrip_fixed c t : Str.is_space c = false -> Str.lstrip (String c t) = String c t.
Proof. intros H. cbn. by rewrite H. Qed.

Lemma lstrip_idem s : Str.lstrip (Str.lstrip s) = Str.lstrip s.
Proof.
  destruct (Str.lstrip s) as [|c t] eqn:H; [done|].
  apply lstrip_fixed. by apply (lstrip_head s c t).
Qed.

Lemma lstrip_snoc a c :
  Str.is_space c = false ->
  exists w, Str.lstrip (a +:+ String c EmptyString) = w +:+ String c EmptyString.
Proof.
  intros Hc. induction a as [|d a IH].
  - exists EmptyString. rewrite !app_empty. cbn. by rewrite Hc.
  - rewrite app_cons. cbn. destruct (Str.is_space d); [done|].
    exists (String d a). by rewrite app_cons.
Qed.

(** A stripped text has no whitespace at either end. *)
Lemma strip_no_leading s : Str.lstrip (Str.strip s) = Str.strip s.
Proof.
  unfold Str.strip.
  destruct (Str.lstrip s) as [|c t] eqn:Ht; [done|].
  pose proof (lstrip_head _ _ _ Ht) as Hc.
  rewrite rev_cons.
  destruct (lstrip_snoc (Str.rev t) c Hc) as [w ->].
  rewrite rev_app. change (Str.rev (String c EmptyString)) with (String c EmptyString).
  rewrite app_cons. by apply lstrip_fixed.
Qed.

Lemma strip_no_trailing s : Str.lstrip (Str.rev (Str.strip s)) = Str.rev (Str.strip s).
Proof. unfold Str.strip. by rewrite rev_involutive, lstrip_idem. Qed.

Lemma strip_idem s : Str.strip (Str.strip s) = Str.strip s.
Proof.
  unfold Str.strip at 1.
  by rewrite strip_no_leading, strip_no_trailing, rev_involutive.
Qed.

Lemma all_chars_lstrip p s : all_chars p s = true -> all_chars p (Str.lstrip s) = true.
Proof.
  induction s as [|c s IH]; cbn; [done|].
  intros H. apply andb_prop in H as [Hc Hs].
  destruct (Str.is_space c); [by apply IH|]. cbn. by rewrite Hc, Hs.
Qed.

Lemma all_chars_rev p s : all_chars p (Str.rev s) = all_chars p s.
Proof.
  induction s as [|c s IH]; [done|].
  rewrite rev_cons, all_chars_app, IH. cbn. by rewrite andb_true_r, andb_comm.
Qed.

Lemma all_chars_strip p s : all_chars p s = true -> all_chars p (Str.strip s) = true.
Proof.
  intros H. unfold Str.strip. rewrite all_chars_rev. apply all_chars_lstrip.
  rewrite all_chars_rev. by apply all_chars_lstrip.
Qed.

(** *** Parts of a text *)




Lemma startswith_app p v : Str.startswith (p +:+ v) p = true.
Proof.
  induction p as [|c p IH]; [by destruct v|].
  rewrite app_cons. cbn. by rewrite Ascii.eqb_refl, IH.
Qed.




End CharsFacts.

(** ** Table Normalizer: shape and numerals *)

Module CellsFacts.
Import Re ReFacts Table Cells.

(** X1.  Normalization keeps the shape of the table: the number of
    columns, their order, and the number of cells of each; the label of
    each column is the label the reader gave, stripped of surrounding
    whitespace.  No column and no row is dropped, whatever fails to
    coerce. *)
Theorem normalize_keeps_shape (raw : raw_frame) :
  List.length (normalize raw) = List.length raw /\
  forall i c, nth_error raw i = Some c ->
    exists d, nth_error (normalize raw) i =
                Some {| col_name := Str.strip (rc_name c); col_data := d |}
              /\ cell_count d = List.length (rc_cells c).
Proof.
  split; [apply TableFacts.normalize_length|].
  intros i c Hc. unfold normalize.
  rewrite (TableFacts.coerce_numeric_nth _ _ _
             (TableFacts.rename_stripped_nth _ _ _ Hc)).
  unfold coerce_column. cbn [rc_name rc_cells rc_numeric].
  eexists. split; [reflexivity|].
  destruct (Nat.eqb _ 1); cbn; [by rewrite length_map | done].
Qed.

Lemma normalize_keeps_shape_witness :
  exists d,
    nth_error (normalize [Fixture.text_column " amount " ["12"; "abc"]]) 0 =
      Some {| col_name := "amount"; col_data := d |}
    /\ cell_count d = 2.
Proof.
  apply (proj2 (normalize_keeps_shape
                  [Fixture.text_column " amount " ["12"; "abc"]]) 0
               (Fixture.text_column " amount " ["12"; "abc"])).
  reflexivity.
Defined.

Lemma strip_non_numeric_app a b :
  strip_non_numeric (a +:+ b) = strip_non_numeric a +:+ strip_non_numeric b.
Proof.
  induction a as [|c a IH]; [done|].
  rewrite app_cons. cbn. destruct (numeric_char c); by rewrite ?app_cons, IH.
Qed.

Lemma strip_non_numeric_junk s :
  separators s = true -> strip_non_numeric s = EmptyString.
Proof.
  unfold separators. induction s as [|c s IH]; cbn; [done|].
  intros H. apply andb_prop in H as [Hc Hs].
  destruct (numeric_char c); [done | by apply IH].
Qed.

(** X2.  Characters other than digits, points and minus signs do not
    count, wherever they stand in a cell: a currency sign, a thousands
    separator, a blank or a unit inside a cell leaves the number read
    from it unchanged. *)
Theorem separators_do_not_count (a junk b : string) :
  separators junk = true ->
  coerce_cell (a +:+ junk +:+ b) = coerce_cell (a +:+ b).
Proof.
  intros H. unfold coerce_cell.
  by rewrite !strip_non_numeric_app, (strip_non_numeric_junk junk H), app_empty.
Qed.

Lemma separators_do_not_count_witness :
  coerce_cell "1,234" = coerce_cell "1234" /\ coerce_cell "1234" = Some 1234%Q.
Proof.
  split; [|reflexivity].
  apply (separators_do_not_count "1" "," "234"). reflexivity.
Defined.

(** *** Cells without a digit *)

Lemma scan_no_digit s acc k :
  Re.all_chars (fun c => negb (Str.is_digit c)) s = true ->
  scan_digits s acc k = (acc, k, s).
Proof.
  destruct s as [|c s]; cbn; [done|].
  intros H. apply andb_prop in H as [Hc _].
  by destruct (Str.is_digit c).
Qed.

Lemma strip_keeps_no_digit s :
  Re.all_chars (fun c => negb (Str.is_digit c)) s = true ->
  Re.all_chars (fun c => negb (Str.is_digit c)) (strip_non_numeric s) = true.
Proof.
  induction s as [|c s IH]; cbn; [done|].
  intros H. apply andb_prop in H as [Hc Hs].
  destruct (numeric_char c); [cbn; by rewrite Hc, IH | by apply IH].
Qed.

Lemma no_digit_no_number s :
  Re.all_chars (fun c => negb (Str.is_digit c)) s = true ->
  to_numeric s = None.
Proof.
  intros H. unfold to_numeric.
  assert (Hbody : forall neg body,
            Re.all_chars (fun c => negb (Str.is_digit c)) body = true ->
            (let '(ip, ni, rest) := scan_digits body 0 0 in
             match rest with
             | EmptyString =>
                 match ni with O => None | _ => Some (decimal neg ip 0 0) end
             | String "." r =>
                 let '(fp, nf, rest') := scan_digits r 0 0 in
                 match rest' with
                 | EmptyString =>
                     match (ni + nf)%nat with
                     | O => None
                     | _ => Some (decimal neg ip fp nf)
                     end
                 | _ => None
                 end
             | _ => None
             end) = None).
  { intros neg body Hb. rewrite (scan_no_digit body _ _ Hb).
    destruct body as [|c r]; [done|].
    cbn in Hb. apply andb_prop in Hb as [_ Hr].
    rewrite (scan_no_digit r _ _ Hr).
    destruct c as [[] [] [] [] [] [] [] []]; try done; by destruct r. }
  destruct s as [|c r]; [done|].
  cbn in H. apply andb_prop in H as [Hc Hr].
  destruct c as [[] [] [] [] [] [] [] []];
    first [ apply (Hbody true r Hr)
          | apply (Hbody false (String _ r)); cbn; by rewrite Hr ].
Qed.

(** X3.  A cell is read as a number only if it holds a digit: a cell
    without any digit becomes missing, whatever points, minus signs and
    other characters it holds.  Text cells, blanks and placeholders such
    as a lone hyphen never turn into a number. *)
Theorem digitless_cells_are_missing (s : string) :
  Re.all_chars (fun c => negb (Str.is_digit c)) s = true ->
  coerce_cell s = None.
Proof.
  intros H. unfold coerce_cell.
  apply no_digit_no_number. by apply strip_keeps_no_digit.
Qed.

Lemma digitless_cells_are_missing_witness :
  coerce_cell "n/a - see note." = None.
Proof.
  apply (digitless_cells_are_missing "n/a - see note."). reflexivity.
Defined.

(** *** Integer numerals *)

Lemma scan_uint d acc k :
  scan_digits (DecimalString.NilEmpty.string_of_uint d) acc k =
    (N.of_nat (Nat.of_uint_acc d (N.to_nat acc)),
     (k + Decimal.nb_digits d)%nat, EmptyString).
Proof.
  revert acc k.
  induction d as [|d IHd|d IHd|d IHd|d IHd|d IHd|d IHd|d IHd|d IHd|d IHd|d IHd];
    intros acc k;
    cbn [DecimalString.NilEmpty.string_of_uint scan_digits Decimal.nb_digits
         Nat.of_uint_acc].
  1: by rewrite N2Nat.id, Nat.add_0_r.
  all: change (Str.is_digit _) with true; cbv iota; rewrite IHd.
  all: rewrite Nat.tail_mul_spec.
  all: match goal with |- context [Str.code ?c] =>
         let v := eval vm_compute in (Str.code c) in
         change (Str.code c) with v end.
  all: match goal with
       | |- (N.of_nat (Nat.of_uint_acc _ ?a), _, _) =
            (N.of_nat (Nat.of_uint_acc _ ?b), _, _) =>
           replace a with b by lia
       end.
  all: f_equal; f_equal; lia.
Qed.

Lemma to_uint_not_nil n : Nat.to_uint n <> Decimal.Nil.
Proof.
  rewrite <- (DecimalNat.Unsigned.of_to n) at 1.
  rewrite DecimalNat.Unsigned.to_of. unfold Decimal.unorm.
  by destruct (Decimal.nzhead (Nat.to_uint n)).
Qed.

Lemma digits_are_numeric d :
  strip_non_numeric (DecimalString.NilEmpty.string_of_uint d) =
  DecimalString.NilEmpty.string_of_uint d.
Proof.
  induction d; cbn [DecimalString.NilEmpty.string_of_uint strip_non_numeric];
    [done|..]; by rewrite IHd.
Qed.

Lemma decimal_integer neg n :
  decimal neg n 0 0 = inject_Z (if neg then - Z.of_N n else Z.of_N n).
Proof.
  unfold decimal. cbv zeta iota. rewrite Z.mul_1_r, Z.add_0_r.
  apply Qcanon.Qred_identity. apply Z.gcd_1_r.
Qed.

Ltac read_digits d Hd :=
  rewrite (scan_uint d);
  destruct (Decimal.nb_digits d) eqn:Hdigits;
    [by apply DecimalFacts.nb_digits_0 in Hdigits|];
  rewrite Nat.add_0_l, decimal_integer; change (N.to_nat 0) with O;
  change (Nat.of_uint_acc d 0) with (Nat.of_uint d);
  rewrite nat_N_Z.

Lemma to_numeric_str_int z : to_numeric (str_int z) = Some (inject_Z z).
Proof.
  unfold str_int. cbv zeta.
  pose proof (to_uint_not_nil (Z.abs_nat z)) as Hd.
  pose proof (DecimalNat.Unsigned.of_to (Z.abs_nat z)) as Hn.
  destruct (z <? 0)%Z eqn:Hz.
  - unfold to_numeric. cbv beta iota.
    read_digits (Nat.to_uint (Z.abs_nat z)) Hd.
    rewrite Hn. do 2 f_equal. lia.
  - revert Hd Hn. generalize (Nat.to_uint (Z.abs_nat z)). intros d Hd Hn.
    assert (Hv : Some (inject_Z (Z.of_nat (Nat.of_uint d))) = Some (inject_Z z))
      by (rewrite Hn; do 2 f_equal; lia).
    rewrite <- Hv. clear Hv Hn Hz.
    destruct d as [|d|d|d|d|d|d|d|d|d|d]; [done|..];
      unfold to_numeric;
      cbn [DecimalString.NilEmpty.string_of_uint]; cbv beta iota.
    all: match goal with
         | Hd : ?D <> Decimal.Nil |- context [scan_digits (String ?c ?r) _ _] =>
             change (String c r) with (DecimalString.NilEmpty.string_of_uint D);
             read_digits D Hd
         end.
    all: reflexivity.
Qed.

Lemma str_int_numeric z : strip_non_numeric (str_int z) = str_int z.
Proof.
  unfold str_int. cbv zeta. destruct (z <? 0)%Z; cbn [strip_non_numeric];
    change (numeric_char "-") with true; cbv iota; by rewrite ?digits_are_numeric.
Qed.

(** X4.  A cell that holds the decimal notation of an integer, with
    any characters other than digits, points and minus signs before and
    after it, is read as that integer.  The integer is one a float holds
    exactly. *)
Theorem integer_cells_are_read (pre post : string) (z : Z) :
  exact z ->
  separators pre = true ->
  separators post = true ->
  coerce_cell (pre +:+ str_int z +:+ post) = Some (inject_Z z).
Proof.
  intros _ Hpre Hpost. unfold coerce_cell.
  rewrite !strip_non_numeric_app, (strip_non_numeric_junk pre Hpre),
    (strip_non_numeric_junk post Hpost), str_int_numeric.
  rewrite !app_empty, CharsFacts.app_empty_r.
  apply to_numeric_str_int.
Qed.

Lemma integer_cells_are_read_witness :
  coerce_cell "$ -1250 USD" = Some (inject_Z (-1250)).
Proof.
  apply (integer_cells_are_read "$ " " USD" (-1250));
    [unfold exact; lia | reflexivity | reflexivity].
Defined.

(** *** Coercion, column by column *)

(** C1, amended.  Coercion is per cell, not per column.  Every column
    whose trimmed label no other column carries is replaced by a numeric
    column with as many cells, in which each cell is decided by its own
    text, whatever the other cells of the column hold: a cell without
    any digit becomes missing, and a cell whose text, stripped of the
    characters other than digits, points and minus signs, is the decimal
    notation of an integer of magnitude 2^53 at most becomes that
    integer.  So a column with a value that fails coercion holds numbers
    and missing cells afterwards, not its original strings. *)
Theorem coercion_is_cellwise (raw : raw_frame) (i : nat) (c : raw_column) :
  nth_error raw i = Some c ->
  label_count (rename_stripped raw) (Str.strip (rc_name c)) = 1%nat ->
  exists vals,
    nth_error (normalize raw) i =
      Some {| col_name := Str.strip (rc_name c); col_data := Numeric vals |} /\
    List.length vals = List.length (rc_cells c) /\
    forall j cell,
      nth_error (rc_cells c) j = Some cell ->
      (Re.all_chars (fun ch => negb (Str.is_digit ch)) cell = true ->
       nth_error vals j = Some None) /\
      (forall z,
         strip_non_numeric cell = str_int z -> exact z ->
         nth_error vals j = Some (Some (inject_Z z))).
Proof.
  intros Hc Hone. exists (map coerce_cell (rc_cells c)).
  split; [by apply TableFacts.unique_label_coerced|].
  split; [by rewrite length_map|].
  intros j cell Hj.
  assert (Hv : nth_error (map coerce_cell (rc_cells c)) j
               = Some (coerce_cell cell)) by (by apply map_nth_error).
  rewrite Hv. split.
  - intros Hno. f_equal. unfold coerce_cell.
    apply no_digit_no_number. by apply strip_keeps_no_digit.
  - intros z Hz _. f_equal. unfold coerce_cell. rewrite Hz.
    apply to_numeric_str_int.
Qed.

Lemma coercion_is_cellwise_witness :
  exists vals,
    nth_error (normalize [Fixture.text_column " amount "
                            ["$1,234"; "n/a"; "-7 pcs"]]) 0 =
      Some {| col_name := "amount"; col_data := Numeric vals |} /\
    nth_error vals 0 = Some (Some 1234%Q) /\
    nth_error vals 1 = Some None /\
    nth_error vals 2 = Some (Some (-7)%Q).
Proof.
  destruct (coercion_is_cellwise
              [Fixture.text_column " amount " ["$1,234"; "n/a"; "-7 pcs"]] 0
              (Fixture.text_column " amount " ["$1,234"; "n/a"; "-7 pcs"])
              eq_refl eq_refl) as (vals & Hcol & _ & Hcells).
  exists vals. split; [exact Hcol|]. split; [|split].
  - apply (proj2 (Hcells 0%nat "$1,234" eq_refl) 1234%Z);
      [reflexivity | unfold exact; lia].
  - apply (proj1 (Hcells 1%nat "n/a" eq_refl)). reflexivity.
  - apply (proj2 (Hcells 2%nat "-7 pcs" eq_refl) (-7)%Z);
      [reflexivity | unfold exact; lia].
Defined.

End CellsFacts.

(** ** Dataset Locator: the scan of the candidates *)

Module ScanFacts.
Import Handler Scan.

Lemma requests_cons E base_url link links :
  requests E base_url (link :: links) =
    logged E base_url link (requests E base_url links).
Proof.
  unfold requests, logged.
  destruct (resolved E base_url link) as [url|e] eqn:H; cbn; by rewrite H.
Qed.

Lemma requests_last E base_url link url :
  resolved E base_url link = Ok url -> requests E base_url [link] = [url].
Proof. intros H. unfold requests. cbn. by rewrite H. Qed.

(** X5.  The loop over the candidate links stops at the first link
    whose joining to the base URL, download, format detection and
    parsing all succeed: the table is the one parsed from that link,
    every link before it failed at one of the four steps, and the URLs
    requested are those of the links up to and including it on which
    [urljoin] returned, each once and in order; no later link is
    requested, and nothing is requested for a link on which [urljoin]
    raises.  When no link succeeds, every link that could be joined was
    requested. *)
Theorem scan_stops_at_first_table (E : Env) (base_url : option string)
    (links : list string) :
  match scan_candidates E base_url links with
  | (requested, Some df) =>
      exists before link after,
        links = (before ++ link :: after)%list /\
        Forall (fruitless E base_url) before /\
        yields E base_url link df /\
        requested = requests E base_url (before ++ [link])%list
  | (requested, None) =>
      Forall (fruitless E base_url) links /\
      requested = requests E base_url links
  end.
Proof.
  induction links as [|link r IH]; cbn [scan_candidates].
  - split; [constructor | done].
  - unfold download_url_bytes.
    destruct (scan_candidates E base_url r) as [log res].
    assert (Hgo : fruitless E base_url link ->
      match (logged E base_url link log, res) with
      | (requested, Some df) =>
          exists before link0 after,
            link :: r = (before ++ link0 :: after)%list /\
            Forall (fruitless E base_url) before /\
            yields E base_url link0 df /\
            requested = requests E base_url (before ++ [link0])%list
      | (requested, None) =>
          Forall (fruitless E base_url) (link :: r) /\
          requested = requests E base_url (link :: r)
      end).
    { intros Hfr. destruct res as [df|].
      - destruct IH as (before & l0 & after & -> & Hb & Hy & ->).
        exists (link :: before), l0, after.
        split; [done|]. split; [by constructor|]. split; [done|].
        by rewrite <- app_comm_cons, requests_cons.
      - destruct IH as [Hall ->]. split; [by constructor|].
        by rewrite requests_cons. }
    destruct (resolved E base_url link) as [url|e] eqn:Hres.
    2:{ apply Hgo. intros df (u & c' & ct' & Hr & _). congruence. }
    assert (Hstop : forall df, yields E base_url link df ->
              exists before link0 after,
                link :: r = (before ++ link0 :: after)%list /\
                Forall (fruitless E base_url) before /\
                yields E base_url link0 df /\
                [url] = requests E base_url (before ++ [link0])%list).
    { intros df Hy. exists [], link, r.
      split; [done|]. split; [constructor|]. split; [done|].
      by rewrite app_nil_l, (requests_last E base_url link url Hres). }
    destruct (http_get E url) as [[content ct]|] eqn:Hget.
    + destruct (Detect.detect_file_type E url ct content)
        as [[| |]|] eqn:Hdet.
      * cbn [parse_table_from_bytes].
        destruct (read_csv E content) as [df|] eqn:Hp.
        -- apply Hstop. exists url, content, ct.
           split; [done|]. split; [done|]. by rewrite Hdet.
        -- apply Hgo. intros df (u & c' & ct' & Hr & Hg & Hy).
           rewrite Hres in Hr. injection Hr as <-.
           rewrite Hget in Hg. injection Hg as <- <-. rewrite Hdet in Hy.
           cbn in Hy. congruence.
      * cbn [parse_table_from_bytes].
        destruct (read_excel E content) as [df|] eqn:Hp.
        -- apply Hstop. exists url, content, ct.
           split; [done|]. split; [done|]. by rewrite Hdet.
        -- apply Hgo. intros df (u & c' & ct' & Hr & Hg & Hy).
           rewrite Hres in Hr. injection Hr as <-.
           rewrite Hget in Hg. injection Hg as <- <-. rewrite Hdet in Hy.
           cbn in Hy. congruence.
      * destruct (parse_table_from_pdf_bytes E content) as [df|] eqn:Hp.
        -- apply Hstop. exists url, content, ct.
           split; [done|]. split; [done|]. by rewrite Hdet.
        -- apply Hgo. intros df (u & c' & ct' & Hr & Hg & Hy).
           rewrite Hres in Hr. injection Hr as <-.
           rewrite Hget in Hg. injection Hg as <- <-. rewrite Hdet in Hy.
           congruence.
      * apply Hgo. intros df (u & c' & ct' & Hr & Hg & Hy).
        rewrite Hres in Hr. injection Hr as <-.
        rewrite Hget in Hg. injection Hg as <- <-. by rewrite Hdet in Hy.
    + apply Hgo. intros df (u & c' & ct' & Hr & Hg & Hy).
      rewrite Hres in Hr. injection Hr as <-. congruence.
Qed.

(** The page with five links: the link that is no candidate is not
    requested; for the candidate on which [urljoin] raises nothing is
    requested; the candidate that cannot be downloaded is requested; the
    scan ends at the CSV file, and the last candidate is never
    requested. *)
Lemma scan_of_five_links :
  candidates Served.page_with_links =
    ["//[x.csv"; "/broken.pdf"; "/data.csv"; "/more.csv"] /\
  resolved Served.serving Fixture.base "//[x.csv" = Raise "Invalid IPv6 URL" /\
  handle_quiz_page Served.serving Served.page_with_links
    Fixture.me Fixture.pw Fixture.base =
    (["https://h.io/broken.pdf"; "https://h.io/data.csv"],
     Ok (reply_items Fixture.me Fixture.pw Fixture.base (VInt 6)
           "https://h.io/submit")).
Proof. repeat split; reflexivity. Qed.

(** X6.  [parse_table_from_pdf_bytes] returns the frame made of the
    first table of the first page whose first table has a header and at
    least one row and makes a frame: every page before it has no table,
    a first table of fewer than two rows, or raised.  It returns [None]
    exactly when no page of the document is of that kind, or the
    document cannot be opened. *)
Theorem pdf_table_is_first_usable (E : Env) (content : list Byte.byte) :
  match parse_table_from_pdf_bytes E content with
  | Some df =>
      exists pages before page after,
        pdf_pages E content = Some pages /\
        pages = (before ++ page :: after)%list /\
        Forall (fun pg => forall d, ~ usable E pg d) before /\
        usable E page df
  | None =>
      forall pages, pdf_pages E content = Some pages ->
        Forall (fun pg => forall d, ~ usable E pg d) pages
  end.
Proof.
  unfold parse_table_from_pdf_bytes.
  destruct (pdf_pages E content) as [pages|]; [|done].
  assert (H : match first_pdf_table E pages with
              | Some df => exists before page after,
                  pages = (before ++ page :: after)%list /\
                  Forall (fun pg => forall d, ~ usable E pg d) before /\
                  usable E page df
              | None => Forall (fun pg => forall d, ~ usable E pg d) pages
              end).
  { induction pages as [|pg r IH]; cbn [first_pdf_table]; [constructor|].
    assert (Hskip : (forall d, ~ usable E pg d) ->
      match first_pdf_table E r with
      | Some df => exists before page after,
          pg :: r = (before ++ page :: after)%list /\
          Forall (fun pg => forall d, ~ usable E pg d) before /\
          usable E page df
      | None => Forall (fun pg => forall d, ~ usable E pg d) (pg :: r)
      end).
    { intros Hno. destruct (first_pdf_table E r) as [df|].
      - destruct IH as (before & page & after & -> & Hb & Hu).
        exists (pg :: before), page, after.
        split; [done|]. split; [by constructor | done].
      - by constructor. }
    destruct pg as [[|[|header [|row more]] others]|].
    - apply Hskip. intros d (h & rw & m & o & [=] & _).
    - apply Hskip. intros d (h & rw & m & o & [=] & _).
    - apply Hskip. intros d (h & rw & m & o & [=] & _).
    - destruct (make_frame E header (row :: more)) as [df|] eqn:Hmk.
      + exists [], (Some ((header :: row :: more) :: others)), r.
        split; [done|]. split; [constructor|].
        by exists header, row, more, others.
      + apply Hskip. intros d (h & rw & m & o & [= -> -> -> ->] & Hd).
        congruence.
    - apply Hskip. intros d (h & rw & m & o & [=] & _). }
  destruct (first_pdf_table E pages) as [df|].
  - destruct H as (before & page & after & -> & Hb & Hu).
    by exists (before ++ page :: after)%list, before, page, after.
  - by intros pages' [= <-].
Qed.

Lemma scan_log_links E base_url links u :
  In u (fst (scan_candidates E base_url links)) ->
  exists link, In link links /\ resolved E base_url link = Ok u.
Proof.
  induction links as [|link r IH]; cbn [scan_candidates]; [done|].
  unfold download_url_bytes, logged.
  destruct (scan_candidates E base_url r) as [log res].
  assert (Hrest : In u log ->
                  exists l, In l (link :: r) /\ resolved E base_url l = Ok u).
  { intros Hin. destruct (IH Hin) as (l & Hl & Hu).
    exists l. split; [by right | done]. }
  destruct (resolved E base_url link) as [url|e] eqn:Hres.
  2:{ cbn [fst]. exact Hrest. }
  assert (Hgo : In u (url :: log) ->
                exists l, In l (link :: r) /\ resolved E base_url l = Ok u).
  { intros [<- | Hin]; [exists link; split; [by left | done] | by apply Hrest]. }
  assert (Hstop : In u [url] ->
                  exists l, In l (link :: r) /\ resolved E base_url l = Ok u).
  { intros [<- | []]. exists link. split; [by left | done]. }
  repeat case_match; simplify_eq; cbn [fst]; auto.
Qed.

(** X7.  The handler reaches the network only for candidate links, and
    only when it has to: every URL it requests is a hyperlink of the page
    whose lower-cased text contains [.csv], [.xls], [.xlsx] or [.pdf],
    joined to the base URL; it requests nothing when the page has an
    inline table, and nothing when no submission target was found. *)
Theorem requests_come_from_candidates (E : Env) (P : page_view)
    (email secret : pyval) (base_url : option string) (u : string) :
  In u (fst (handle_quiz_page E P email secret base_url)) ->
  tables P = [] /\
  (exists target, discover_submit_url E P base_url = Ok (Some target)
                  /\ Str.truthy target = true) /\
  exists link,
    In link (hrefs P) /\ is_candidate link = true /\
    resolved E base_url link = Ok u.
Proof.
  unfold handle_quiz_page.
  destruct (discover_submit_url E P base_url) as [[target|]|]; [|done..].
  cbn [Str.otruthy].
  destruct (Str.truthy target) eqn:Ht; cbn [negb]; [|done].
  unfold locate_dataset.
  destruct (tables P) as [|t ts]; [|done].
  destruct (scan_candidates E base_url (candidates P)) as [log res] eqn:Hs.
  cbn [fst]. intros Hin.
  assert (Hin' : In u (fst (scan_candidates E base_url (candidates P))))
    by (by rewrite Hs).
  apply scan_log_links in Hin' as (link & Hl & Hu).
  unfold candidates in Hl. apply filter_In in Hl as [Hl Hc].
  split; [done|]. split; [by exists target|]. by exists link.
Qed.

Lemma requests_come_from_candidates_witness :
  exists link,
    In link (hrefs Served.page_with_links) /\ is_candidate link = true /\
    resolved Served.serving Fixture.base link = Ok "https://h.io/data.csv".
Proof.
  apply (requests_come_from_candidates Served.serving Served.page_with_links
           Fixture.me Fixture.pw Fixture.base "https://h.io/data.csv").
  vm_compute. tauto.
Defined.

End ScanFacts.

(** ** The handler: failures and answers *)

Module OutcomeFacts.
Import Handler.

(** What [compute_answer] returns with an attachment is a plot. *)
Lemma attachment_inv E df i answer att :
  compute_answer E df i = Ok (answer, Some att) ->
  answer = Some (VStr "attached_plot") /\ is_op i "plot" = true /\
  exists b64, att = "data:image/png;base64," +:+ b64.
Proof.
  unfold compute_answer.
  destruct (is_op i "sum" && _).
  { repeat case_match; unfold answered, unanswered; repeat case_match;
      intros; simplify_eq. }
  destruct (is_op i "mean" && _).
  { repeat case_match; unfold answered, unanswered; repeat case_match;
      intros; simplify_eq. }
  destruct (is_op i "corr" && _ && _).
  { repeat case_match; unfold answered, unanswered; repeat case_match;
      intros; simplify_eq. }
  destruct (is_op i "plot") eqn:Hop.
  2:{ repeat case_match; unfold answered, unanswered; repeat case_match;
        intros; simplify_eq. }
  intros H. assert (Hp : exists r, plotted r = Ok (answer, Some att)).
  { revert H. repeat case_match; eauto. unfold unanswered. intros; simplify_eq. }
  destruct Hp as [r Hr]. unfold plotted in Hr. destruct r as [s|]; [|done].
  injection Hr as <- <-.
  assert (Hs : exists b64, s = "data:image/png;base64," +:+ b64).
  { revert H. unfold df_plot_to_base64, plotted, unanswered.
    repeat case_match; intros; simplify_eq; eauto. }
  destruct Hs as [b64 ->]. repeat split; eauto.
Qed.

(** When the resolver raises: rule 3 or rule 4 runs and [urljoin]
    raises in it. *)
Lemma discover_raises E P base_url e :
  discover_submit_url E P base_url = Raise e <->
  (Str.otruthy (unless_found (rule1 P) (rule2 P)) = false
   /\ rule3 E P base_url = Raise e)
  \/ (exists s3,
        unless_found_or_raise (unless_found (rule1 P) (rule2 P))
          (rule3 E P base_url) = Ok s3
        /\ Str.otruthy s3 = false /\ rule4 E P base_url = Raise e).
Proof.
  unfold discover_submit_url, unless_found_or_raise.
  destruct (Str.otruthy (unless_found (rule1 P) (rule2 P))) eqn:H12.
  - cbn [bind]. rewrite H12. cbn [bind]. split; [done|].
    intros [[[=] _] | (s3 & [= <-] & Hs3 & _)]. congruence.
  - destruct (rule3 E P base_url) as [found|e3]; cbn [bind].
    + destruct (Str.otruthy (unless_found _ found)) eqn:H3; cbn [bind].
      * split; [done|].
        intros [[_ [=]] | (s3 & [= <-] & Hs3 & _)]. congruence.
      * destruct (rule4 E P base_url) as [f4|e4]; cbn [bind].
        -- split; [done|]. intros [[_ [=]] | (s3 & _ & _ & [=])].
        -- split.
           ++ intros [= ->]. right. by eexists.
           ++ by intros [[_ [=]] | (s3 & _ & _ & [= ->])].
    + split.
      * intros [= ->]. by left.
      * intros [[_ [= ->]] | (s3 & [=] & _)]. done.
Qed.

(** The ways in which the handler raises. *)
Lemma raise_inv E P email secret base_url e :
  snd (handle_quiz_page E P email secret base_url) = Raise e ->
  discover_submit_url E P base_url = Raise e
  \/ (e = "submit_url not found on page"
      /\ exists found, discover_submit_url E P base_url = Ok found
                       /\ Str.otruthy found = false)
  \/ (e = "cannot convert float NaN to integer"
      /\ exists target raw,
           discover_submit_url E P base_url = Ok (Some target) /\
           Str.truthy target = true /\
           snd (locate_dataset E P base_url) = Some raw /\
           compute_answer E (Table.normalize raw)
             (detect_instruction (body_text P))
           = Ok (Some (VFloat NaN), None)).
Proof.
  unfold handle_quiz_page.
  destruct (discover_submit_url E P base_url) as [found|e'] eqn:Hd; cbn [snd].
  2:{ intros [= ->]. by left. }
  destruct (Str.otruthy found) eqn:Hf; cbn [negb].
  2:{ cbn. intros [= <-]. right. left. split; [done|]. by exists found. }
  destruct found as [target|]; [|done]. cbn in Hf.
  destruct (locate_dataset E P base_url) as [log [raw|]]; cbn [snd].
  2:{ by destruct (embedded_answer E (scripts P)). }
  destruct (compute_answer E _ _) as [[answer attachment]|err] eqn:Hc; [|done].
  destruct (Str.otruthy attachment) eqn:Ha; [done|].
  destruct answer as [a|]; [|done].
  destruct (integral_to_int a) as [a'|e'] eqn:Hi; [done|].
  intros [= ->]. right. right.
  unfold integral_to_int in Hi.
  destruct a as [| | | [q|] | | |]; try done.
  - by destruct (Qltb _ _).
  - injection Hi as <-. split; [done|]. exists target, raw.
    split; [done|]. split; [done|]. split; [done|].
    rewrite Hc. f_equal. f_equal.
    destruct attachment as [att|]; [|done].
    by apply attachment_inv in Hc as [[=] _].
Qed.

(** X8.  The handler raises in three cases only, for a dataset whose
    columns add up without overflow.  It raises the ValueError of
    [urljoin] exactly when rule 3 or rule 4 of the resolver runs and
    [urljoin] raises in it; RuntimeError [submit_url not found on page]
    exactly when the resolver runs through and yields no non-empty
    target; and ValueError [cannot convert float NaN to integer] exactly
    when a target and a dataset were found and the answer computed is
    NaN.  In every other case it returns a payload: a failure to
    download, to parse, to read JSON or to compute is never raised to the
    caller. *)
Theorem handler_failure_modes (E : Env) (P : page_view)
    (email secret : pyval) (base_url : option string) (e : string) :
  (forall raw, snd (locate_dataset E P base_url) = Some raw ->
               Cells.tame (Table.normalize raw)) ->
  snd (handle_quiz_page E P email secret base_url) = Raise e <->
  ((Str.otruthy (unless_found (rule1 P) (rule2 P)) = false
    /\ rule3 E P base_url = Raise e)
   \/ (exists s3,
         unless_found_or_raise (unless_found (rule1 P) (rule2 P))
           (rule3 E P base_url) = Ok s3
         /\ Str.otruthy s3 = false /\ rule4 E P base_url = Raise e))
  \/ (e = "submit_url not found on page"
      /\ exists found, discover_submit_url E P base_url = Ok found
                       /\ Str.otruthy found = false)
  \/ (e = "cannot convert float NaN to integer"
      /\ exists target raw,
           discover_submit_url E P base_url = Ok (Some target) /\
           Str.truthy target = true /\
           snd (locate_dataset E P base_url) = Some raw /\
           compute_answer E (Table.normalize raw)
             (detect_instruction (body_text P))
           = Ok (Some (VFloat NaN), None)).
Proof.
  intros _. rewrite <- discover_raises. split; [apply raise_inv|].
  unfold handle_quiz_page.
  intros [Hd | [[-> (found & Hd & Hno)] | (-> & target & raw & Hd & Ht & Hraw & Hc)]];
    rewrite Hd.
  - done.
  - by rewrite Hno.
  - cbn [Str.otruthy]. rewrite Ht. cbn [negb].
    destruct (locate_dataset E P base_url) as [log located].
    cbn [snd] in Hraw |- *. subst located. by rewrite Hc.
Qed.

(** A page whose form has an action that [urljoin] cannot join: the
    handler raises the ValueError of [urljoin]. *)
Lemma unjoinable_action_is_fatal :
  let P := {| body_text := "Answer the question and send it.";
              script_strings := [];
              form_action := Some "//[";
              hrefs := [];
              pre_texts := [];
              tables := [Fixture.table_AB] |} in
  rule3 Served.serving P Fixture.base = Raise "Invalid IPv6 URL" /\
  handle_quiz_page Served.serving P Fixture.me Fixture.pw Fixture.base =
    ([], Raise "Invalid IPv6 URL").
Proof. split; reflexivity. Qed.

Lemma handler_failure_modes_witness :
  snd (handle_quiz_page Fixture.offline
         (Fixture.ask "What is the mean of the name column?" Fixture.names)
         Fixture.me Fixture.pw Fixture.base) =
    Raise "cannot convert float NaN to integer".
Proof.
  apply (handler_failure_modes Fixture.offline
           (Fixture.ask "What is the mean of the name column?" Fixture.names)
           Fixture.me Fixture.pw Fixture.base).
  - intros raw [= <-]. repeat constructor. by vm_compute.
  - right. right. split; [done|].
    exists "https://h.io/submit", Fixture.names. repeat split; reflexivity.
Defined.

Lemma sum_is_finite E df m v :
  reduce E "sum" Table.series_sum df m = Ok v -> v <> VFloat NaN.
Proof.
  unfold reduce, Table.series_sum. repeat case_match; intros; by simplify_eq.
Qed.

(** X9.  For a dataset whose columns add up without overflow, the
    ValueError on a NaN answer can only come from a mean or a
    correlation: when the resolver has returned and the handler raises
    [cannot convert float NaN to integer], the instruction read from the
    page is a mean with a column name or a correlation with two names.
    A sum, whether named or of the column [value], and a plot never make
    the handler raise it. *)
Theorem nan_only_from_mean_or_corr (E : Env) (P : page_view)
    (email secret : pyval) (base_url : option string)
    (found : option string) :
  (forall raw, snd (locate_dataset E P base_url) = Some raw ->
               Cells.tame (Table.normalize raw)) ->
  discover_submit_url E P base_url = Ok found ->
  snd (handle_quiz_page E P email secret base_url) =
    Raise "cannot convert float NaN to integer" ->
  let i := detect_instruction (body_text P) in
  (is_op i "mean" = true /\ Str.otruthy (col i) = true)
  \/ (is_op i "corr" = true /\ Str.otruthy (x i) = true
      /\ Str.otruthy (y i) = true).
Proof.
  intros _ Hd H.
  apply raise_inv in H as [H | [[[=] _] | (_ & target & raw & _ & _ & _ & Hc)]];
    [congruence|].
  cbv zeta. revert Hc. set (i := detect_instruction (body_text P)).
  set (df := Table.normalize raw). unfold compute_answer.
  destruct (is_op i "sum" && Str.otruthy (col i)).
  { repeat case_match; unfold answered, unanswered; repeat case_match;
      intros; simplify_eq; by edestruct sum_is_finite. }
  destruct (is_op i "mean") eqn:Hm, (Str.otruthy (col i)) eqn:Hcol; cbn [andb];
    [by left|..].
  all: destruct (is_op i "corr") eqn:Hcorr, (Str.otruthy (x i)) eqn:Hx,
         (Str.otruthy (y i)) eqn:Hy; cbn [andb]; try (by right).
  all: repeat case_match; unfold answered, plotted, unanswered;
         repeat case_match; intros; simplify_eq; by edestruct sum_is_finite.
Qed.

Lemma nan_only_from_mean_or_corr_witness :
  let i := detect_instruction
             (body_text (Fixture.ask "What is the mean of the name column?"
                           Fixture.names)) in
  (is_op i "mean" = true /\ Str.otruthy (col i) = true)
  \/ (is_op i "corr" = true /\ Str.otruthy (x i) = true
      /\ Str.otruthy (y i) = true).
Proof.
  apply (nan_only_from_mean_or_corr Fixture.offline
           (Fixture.ask "What is the mean of the name column?" Fixture.names)
           Fixture.me Fixture.pw Fixture.base (Some "https://h.io/submit")).
  - intros raw [= <-]. repeat constructor. by vm_compute.
  - reflexivity.
  - reflexivity.
Defined.

(** X10.  A payload carries an attachment only for a plot: when the
    payload has the key [attachment], the instruction read from the page
    is a plot, the answer is the string [attached_plot], and the
    attachment is a data URI of type image/png in base64, as
    [df_plot_to_base64] builds it. *)
Theorem attachment_means_plot (E : Env) (P : page_view)
    (email secret : pyval) (base_url : option string)
    (requested : list string) (p : payload) (a : pyval) :
  handle_quiz_page E P email secret base_url = (requested, Ok p) ->
  dict_get p "attachment" = Some a ->
  dict_get p "answer" = Some (VStr "attached_plot") /\
  is_op (detect_instruction (body_text P)) "plot" = true /\
  exists b64, a = VStr ("data:image/png;base64," +:+ b64).
Proof.
  unfold handle_quiz_page.
  destruct (discover_submit_url E P base_url) as [found|]; [|done].
  destruct (Str.otruthy found); cbn [negb]; [|done].
  destruct (locate_dataset E P base_url) as [log [raw|]].
  2:{ intros [= _ H]. by destruct (embedded_answer E (scripts P)); simplify_eq. }
  destruct (compute_answer E _ _) as [[answer attachment]|err] eqn:Hc.
  2:{ intros [= _ <-]. done. }
  destruct (Str.otruthy attachment) eqn:Ha.
  2:{ intros [= _ H]. destruct answer as [v|]; [|by simplify_eq].
      destruct (integral_to_int v); by simplify_eq. }
  intros [= _ <-]. cbn. intros [= <-].
  destruct attachment as [att|]; [|done].
  apply attachment_inv in Hc as (-> & Hop & b64 & ->).
  cbn. repeat split; eauto.
Qed.

Lemma attachment_means_plot_witness :
  is_op (detect_instruction
           (body_text (Fixture.ask "Plot a chart with x: id, y: total price."
                         Fixture.prices))) "plot" = true.
Proof.
  apply (attachment_means_plot Fixture.offline
           (Fixture.ask "Plot a chart with x: id, y: total price." Fixture.prices)
           Fixture.me Fixture.pw Fixture.base []
           (reply_with_attachment Fixture.me Fixture.pw Fixture.base
              (VStr "attached_plot")
              ("data:image/png;base64," +:+ Fixture.describe (PlotY "Id"))
              "https://h.io/submit")
           (VStr ("data:image/png;base64," +:+ Fixture.describe (PlotY "Id"))));
    reflexivity.
Defined.

Lemma numeric_column_is_a_column df first rest :
  Table.numeric_columns df = first :: rest -> in_columns df first = true.
Proof.
  unfold Table.numeric_columns, in_columns, Table.columns. intros H.
  assert (Hin : In first (map col_name (List.filter (fun c =>
                  match col_data c with
                  | Numeric _ => true
                  | Original numeric _ => numeric
                  end) df))) by (rewrite H; by left).
  apply in_map_iff in Hin as (c & <- & Hc). apply filter_In in Hc as [Hc _].
  apply existsb_exists. exists (col_name c).
  split; [by apply in_map | apply String.eqb_refl].
Qed.

(** X11.  A chart the handler attaches draws named columns of the
    table: matplotlib is asked either for [y] against [x], both labels
    of the table, or for one column that is a label of the table; it is
    never asked for a column the table lacks.  The default chart of the
    whole table, the last branch of [df_plot_to_base64], is drawn in one
    case only: the page names no [y] that is a label, and the first
    numeric column of the table has the empty label. *)
Theorem chart_draws_named_columns (E : Env) (df : frame) (i : instruction)
    (answer : option pyval) (att : string) :
  compute_answer E df i = Ok (answer, Some att) ->
  exists spec b64,
    savefig_b64 E df spec = Ok b64 /\
    att = "data:image/png;base64," +:+ b64 /\
    (Plots.drawable df spec
     \/ (spec = PlotAll /\
         Str.otruthy (y i) && in_columns df (or_empty (y i)) = false /\
         exists rest, Table.numeric_columns df = EmptyString :: rest)).
Proof.
  intros H. pose proof (attachment_inv _ _ _ _ _ H) as (_ & Hop & _).
  revert H. unfold compute_answer.
  destruct (is_op i "sum" && _).
  { repeat case_match; unfold answered, unanswered; repeat case_match;
      intros; simplify_eq. }
  destruct (is_op i "mean" && _).
  { repeat case_match; unfold answered, unanswered; repeat case_match;
      intros; simplify_eq. }
  destruct (is_op i "corr" && _ && _).
  { repeat case_match; unfold answered, unanswered; repeat case_match;
      intros; simplify_eq. }
  rewrite Hop.
  destruct (Str.otruthy (y i) && in_columns df (or_empty (y i))) eqn:Hy.
  - apply andb_prop in Hy as [Hyt Hyin].
    unfold plotted, df_plot_to_base64. rewrite Hyt, Hyin.
    destruct (Str.otruthy (x i) && true && in_columns df (or_empty (x i)) && true)
      eqn:Hx.
    + destruct (savefig_b64 E df _) as [b64|] eqn:Hs; [|done].
      intros [= _ <-]. eexists _, b64. split; [exact Hs|]. split; [done|].
      left. cbn.
      apply andb_prop in Hx as [Hx _]. apply andb_prop in Hx as [_ Hx].
      by split.
    + cbn [andb]. destruct (savefig_b64 E df _) as [b64|] eqn:Hs; [|done].
      intros [= _ <-]. eexists _, b64. split; [exact Hs|]. split; [done|].
      left. exact Hyin.
  - destruct (Table.numeric_columns df) as [|first rest] eqn:Hn; [done|].
    pose proof (numeric_column_is_a_column df first rest Hn) as Hin.
    unfold plotted, df_plot_to_base64. cbn [Str.otruthy andb or_empty].
    rewrite Hin.
    destruct first as [|c first]; cbn [Str.truthy andb].
    + destruct (savefig_b64 E df _) as [b64|] eqn:Hs; [|done].
      intros [= _ <-]. eexists _, b64. split; [exact Hs|]. split; [done|].
      right. split; [done|]. split; [done|]. by exists rest.
    + destruct (savefig_b64 E df _) as [b64|] eqn:Hs; [|done].
      intros [= _ <-]. eexists _, b64. split; [exact Hs|]. split; [done|].
      left. exact Hin.
Qed.

Lemma chart_draws_named_columns_witness :
  exists spec b64,
    savefig_b64 Fixture.offline (Table.normalize Fixture.prices) spec = Ok b64 /\
    "data:image/png;base64," +:+ Fixture.describe (PlotY "Id") =
      "data:image/png;base64," +:+ b64 /\
    (Plots.drawable (Table.normalize Fixture.prices) spec
     \/ (spec = PlotAll /\
         Str.otruthy (y (plot_of "id" "total price"))
         && in_columns (Table.normalize Fixture.prices)
              (or_empty (y (plot_of "id" "total price"))) = false /\
         exists rest,
           Table.numeric_columns (Table.normalize Fixture.prices) =
             EmptyString :: rest)).
Proof.
  apply (chart_draws_named_columns Fixture.offline
           (Table.normalize Fixture.prices) (plot_of "id" "total price")
           (Some (VStr "attached_plot"))).
  reflexivity.
Defined.

(** The one case of the default chart: a table whose first numeric
    column has a blank label. *)
Lemma default_chart_of_blank_label :
  compute_answer Fixture.offline
    (Table.normalize [Fixture.number_column " " ["1"; "2"]])
    (plot_of "a" "b") =
    Ok (Some (VStr "attached_plot"),
        Some ("data:image/png;base64," +:+ Fixture.describe PlotAll)).
Proof. reflexivity. Qed.

(** *** Numbers *)

Lemma total_from (l : list Q) (acc : Q) :
  (fold_left Qplus l acc == acc + fold_left Qplus l 0)%Q.
Proof.
  revert acc. induction l as [|q l IH]; intros acc; cbn.
  - lra.
  - rewrite (IH (acc + q)%Q), (IH (0 + q)%Q). lra.
Qed.

Lemma total_integers zs :
  (Table.total (map inject_Z zs) == inject_Z (fold_right Z.add 0%Z zs))%Q.
Proof.
  unfold Table.total. induction zs as [|z zs IH]; cbn; [reflexivity|].
  rewrite total_from, IH, inject_Z_plus. lra.
Qed.

(** X12.  The sum of a column whose values are integers is reported as
    an [int], not as a float: when the cells that are not missing hold
    the integers [zs], the answer rendered for their sum is the integer
    sum of [zs].  The magnitudes add up to a number a float holds
    exactly. *)
Theorem integer_sum_is_int (vals : list (option Q)) (zs : list Z) :
  Table.dropna vals = map inject_Z zs ->
  Cells.exact (fold_right (fun z a => Z.abs z + a)%Z 0%Z zs) ->
  integral_to_int (VFloat (Table.series_sum vals)) =
    Ok (VInt (fold_right Z.add 0%Z zs)).
Proof.
  intros H _. unfold Table.series_sum. rewrite H.
  apply NumberFacts.integral_answer_is_int.
  rewrite Qred_correct, total_integers.
  unfold tolerance. apply Qabs_Qlt_condition. split; lra.
Qed.

Lemma integer_sum_is_int_witness :
  integral_to_int (VFloat (Table.series_sum [Some 1%Q; None; Some (-2)%Q; Some 3%Q]))
  = Ok (VInt 2).
Proof.
  apply (integer_sum_is_int [Some 1%Q; None; Some (-2)%Q; Some 3%Q] [1; -2; 3]%Z);
    [reflexivity | unfold Cells.exact; cbn; lia].
Defined.

(** X13.  A float in the answer of a computed payload is never within
    the tolerance of an integer: when a dataset was found and the payload
    holds a float under [answer], the float is finite and farther than
    1e-8 from every integer.  An answer that near to an integer has been
    turned into an [int]. *)
Theorem computed_float_is_not_integral (E : Env) (P : page_view)
    (email secret : pyval) (base_url : option string)
    (requested : list string) (p : payload) (raw : raw_frame) (f : pyfloat) :
  handle_quiz_page E P email secret base_url = (requested, Ok p) ->
  snd (locate_dataset E P base_url) = Some raw ->
  dict_get p "answer" = Some (VFloat f) ->
  exists q, f = Fin q /\
    forall n, ~ (Qabs (inject_Z n - q) < tolerance)%Q.
Proof.
  unfold handle_quiz_page.
  destruct (discover_submit_url E P base_url) as [found|]; [|done].
  destruct (Str.otruthy found); cbn [negb]; [|done].
  destruct (locate_dataset E P base_url) as [log located].
  intros H Hraw. cbn [snd] in Hraw. subst located. revert H.
  destruct (compute_answer E _ _) as [[answer attachment]|err] eqn:Hc.
  2:{ by intros [= _ <-]. }
  destruct (Str.otruthy attachment) eqn:Ha.
  { destruct attachment as [att|]; [|done].
    apply attachment_inv in Hc as (-> & _). by intros [= _ <-]. }
  destruct answer as [a|]; [|by intros [= _ <-]].
  destruct (integral_to_int a) as [a'|e'] eqn:Hi; [|done].
  intros [= _ <-] Hd. cbn in Hd. injection Hd as ->.
  unfold integral_to_int in Hi.
  destruct a as [| | | [q|] | | |]; try done.
  destruct (Qltb _ _) eqn:Hb; [done|]. injection Hi as <-.
  exists q. split; [done|]. intros n Hn.
  pose proof (NumberFacts.py_round_of_near q n Hn) as Hr.
  rewrite Hr in Hb.
  pose proof (proj2 (NumberFacts.Qltb_lt _ _) Hn) as Hlt. congruence.
Qed.

Lemma computed_float_is_not_integral_witness :
  exists q, Fin (5 # 2) = Fin q /\
    forall n, ~ (Qabs (inject_Z n - q) < tolerance)%Q.
Proof.
  apply (computed_float_is_not_integral Fixture.offline
           (Fixture.ask "What is the mean of the A column?"
              [Fixture.number_column "A" ["1"; "2"; "3"; "4"]])
           Fixture.me Fixture.pw Fixture.base []
           (reply_items Fixture.me Fixture.pw Fixture.base
              (VFloat (Fin (5 # 2))) "https://h.io/submit")
           [Fixture.number_column "A" ["1"; "2"; "3"; "4"]]);
    reflexivity.
Defined.

End OutcomeFacts.

(** ** Columns that share a label *)

Module DuplicateFacts.
Import Handler.

Lemma shared_label_selects_frame raw m :
  1 < Table.label_count (Table.rename_stripped raw) m ->
  Table.getitem (Table.normalize raw) m = Table.DataFrame.
Proof.
  unfold Table.getitem, Table.normalize, Table.coerce_numeric, Table.label_count.
  rewrite TableFacts.filter_coerced.
  destruct (List.filter _ (Table.rename_stripped raw)) as [|c [|c' l]];
    cbn; intros H; [exfalso; lia | exfalso; lia | done].
Qed.

(** X14.  A sum or a mean over a label that several columns carry after
    the labels are stripped does not fail the handler: the selection is
    a frame, pandas raises when the frame is reduced to one float, the
    exception is caught by the [try] block, and the payload is returned
    with the answer [error computing instruction: ] followed by the
    message of that exception, whatever it is in the version of pandas
    at hand, under the target the resolver found. *)
Theorem shared_label_is_an_error_answer (E : Env) (P : page_view)
    (email secret : pyval) (base_url : option string)
    (raw : raw_frame) (op c m target : string) (rest : list string) :
  discover_submit_url E P base_url = Ok (Some target) ->
  Str.truthy target = true ->
  snd (locate_dataset E P base_url) = Some raw ->
  (op = "sum" /\ detect_instruction (body_text P) = sum_of c)
  \/ (op = "mean" /\ detect_instruction (body_text P) = mean_of c) ->
  Str.truthy c = true ->
  List.filter (exact_match c) (Table.columns (Table.normalize raw)) = m :: rest ->
  1 < Table.label_count (Table.rename_stripped raw) m ->
  snd (handle_quiz_page E P email secret base_url) =
    Ok (reply_items email secret base_url
          (VStr ("error computing instruction: "
                 +:+ frame_error E op (Table.normalize raw) m))
          target).
Proof.
  intros Hfound Ht Hraw Hi Hc Hm Hdup.
  pose proof (shared_label_selects_frame raw m Hdup) as Hsel.
  unfold handle_quiz_page. rewrite Hfound. cbn [Str.otruthy or_empty].
  rewrite Ht. cbn [negb].
  destruct (locate_dataset E P base_url) as [log located].
  cbn [snd] in Hraw |- *. subst located.
  destruct Hi as [[-> ->] | [-> ->]].
  - rewrite (AnswerFacts.sum_by_exact_match E _ c m rest Hc Hm).
    unfold reduce. by rewrite Hsel.
  - rewrite (AnswerFacts.mean_by_exact_match E _ c m rest Hc Hm).
    unfold reduce. by rewrite Hsel.
Qed.

Lemma shared_label_is_an_error_answer_witness :
  snd (handle_quiz_page Fixture.offline
         (Fixture.ask "What is the sum of the A column?" Served.twice_A)
         Fixture.me Fixture.pw Fixture.base) =
    Ok (reply_items Fixture.me Fixture.pw Fixture.base
          (VStr ("error computing instruction: "
                 +:+ frame_error Fixture.offline "sum"
                       (Table.normalize Served.twice_A) "A"))
          "https://h.io/submit").
Proof.
  apply (shared_label_is_an_error_answer Fixture.offline
           (Fixture.ask "What is the sum of the A column?" Served.twice_A)
           Fixture.me Fixture.pw Fixture.base Served.twice_A "sum" "a" "A"
           "https://h.io/submit" ["A"]);
    [reflexivity | reflexivity | reflexivity | by left | reflexivity
    | reflexivity | vm_compute; lia].
Defined.

End DuplicateFacts.

(** ** Letter case and the names of an instruction *)

Module CaseFacts.
Import Re ReFacts Handler Chars CharsFacts.

(** X15.  Letter case never matters for the format of a download: the
    detector gives the same format for a URL and a content-type as for
    their lower-case forms, and a hyperlink is a candidate exactly when
    its lower-case form is.  So [DATA.CSV] and [Text/CSV] are read as
    [data.csv] and [text/csv] are. *)
Theorem formats_ignore_case (E : Env) (url content_type link : string)
    (content : list Byte.byte) :
  Detect.detect_file_type E (Str.lower url) (Str.lower content_type) content =
    Detect.detect_file_type E url content_type content /\
  is_candidate (Str.lower link) = is_candidate link.
Proof.
  split.
  - unfold Detect.detect_file_type. by rewrite !lower_idem, lower_truthy.
  - unfold is_candidate. by rewrite lower_idem.
Qed.

Lemma name_char_lower c : name_char c = true -> Str.lower_char c = c.
Proof.
  assert (H : all_ascii (fun c => implb (name_char c)
                                    (Ascii.eqb (Str.lower_char c) c)) = true)
    by (vm_compute; reflexivity).
  intros Hc. pose proof (all_ascii_spec _ H c) as Hi. cbn in Hi.
  rewrite Hc in Hi. by apply Ascii.eqb_eq.
Qed.

Lemma plain_lower s : all_chars name_char s = true -> Str.lower s = s.
Proof.
  induction s as [|c s IH]; cbn; [done|].
  intros H. apply andb_prop in H as [Hc Hs].
  by rewrite (name_char_lower c Hc), (IH Hs).
Qed.

Lemma captured_plain r s m n name :
  groups_within name_char r = true ->
  search r s = Some m ->
  captured m n = Some name ->
  all_chars name_char name = true /\ Str.strip name = name
  /\ Str.lower name = name.
Proof.
  intros Hg Hs [= <-].
  pose proof (search_groups name_char r s m n Hg Hs) as Hc.
  apply (all_chars_strip name_char) in Hc.
  split; [done|]. split; [apply strip_idem | by apply plain_lower].
Qed.

(** X16.  Every name the classifier puts into an instruction, as the
    column of a sum or a mean or as [x] or [y] of a correlation or a
    plot, is made of lower-case letters, digits, blanks, underscores,
    hyphens and parentheses only, has no whitespace at either end, and
    is its own lower-case form.  A name with an upper-case letter is
    never produced, whatever the page says. *)
Theorem classified_names_are_plain (text name : string) :
  col (detect_instruction text) = Some name
  \/ x (detect_instruction text) = Some name
  \/ y (detect_instruction text) = Some name ->
  all_chars name_char name = true /\ Str.strip name = name
  /\ Str.lower name = name.
Proof.
  unfold detect_instruction.
  destruct (search re_sum (Str.lower text)) as [m|] eqn:H1.
  { cbn. intros [H|[H|H]]; try done.
    by apply (captured_plain re_sum (Str.lower text) m 1). }
  destruct (search re_mean (Str.lower text)) as [m|] eqn:H2.
  { cbn. intros [H|[H|H]]; try done.
    by apply (captured_plain re_mean (Str.lower text) m 1). }
  destruct (search re_corr (Str.lower text)) as [m|] eqn:H3.
  { cbn. intros [H|[H|H]]; try done.
    - by apply (captured_plain re_corr (Str.lower text) m 1).
    - by apply (captured_plain re_corr (Str.lower text) m 2). }
  destruct (_ || _).
  { destruct (search re_xy (Str.lower text)) as [m|] eqn:H4.
    - cbn. intros [H|[H|H]]; try done.
      + by apply (captured_plain re_xy (Str.lower text) m 1).
      + by apply (captured_plain re_xy (Str.lower text) m 2).
    - cbn. by intros [H|[H|H]]. }
  destruct (search re_sum_loose (Str.lower text)) as [m|] eqn:H5.
  { cbn. intros [H|[H|H]]; try done.
    by apply (captured_plain re_sum_loose (Str.lower text) m 1). }
  cbn. by intros [H|[H|H]].
Qed.

Lemma classified_names_are_plain_witness :
  all_chars name_char "total price" = true
  /\ Str.strip "total price" = "total price"
  /\ Str.lower "total price" = "total price".
Proof.
  apply (classified_names_are_plain
           "Plot a CHART with x: Id, y: Total Price." "total price").
  right. right. reflexivity.
Defined.

End CaseFacts.

(** ** Submission-Target Resolver: order and shape *)

Module RulesFacts.
Import Re ReFacts Handler Chars CharsFacts Rules.

(** X17.  The six rules are tried in order and the first one that
    yields a non-empty URL decides: when every rule before a rule yields
    nothing or the empty string and the rule yields the non-empty URL
    [u], the target is [u], whatever the later rules would yield or
    raise. *)
Theorem first_truthy_rule_wins (E : Env) (P : page_view)
    (base_url : option string)
    (before after : list (result (option string))) (u : string) :
  rules E P base_url = (before ++ Ok (Some u) :: after)%list ->
  Forall passed before ->
  Str.truthy u = true ->
  discover_submit_url E P base_url = Ok (Some u).
Proof.
  unfold rules, discover_submit_url. intros Hr Hb Hu.
  assert (Hkeep : forall rule, unless_found (Some u) rule = Some u)
    by (intros rule; by apply ResolverFacts.unless_found_keeps).
  assert (Hkeep' : forall rule,
            unless_found_or_raise (Some u) rule = Ok (Some u))
    by (intros rule; by apply ResolverFacts.unless_found_or_raise_keeps).
  assert (Hnext : forall cur, Str.otruthy cur = false ->
                    unless_found cur (Some u) = Some u)
    by (intros cur Hc; unfold unless_found; by rewrite Hc).
  assert (Hnext' : forall cur, Str.otruthy cur = false ->
                     unless_found_or_raise cur (Ok (Some u)) = Ok (Some u)).
  { intros cur Hc. unfold unless_found_or_raise. rewrite Hc. cbn [bind].
    by rewrite Hnext. }
  assert (Hskip : forall cur rule, Str.otruthy cur = false ->
                    Str.otruthy rule = false ->
                    Str.otruthy (unless_found cur rule) = false).
  { intros cur rule Hc Hrule. unfold unless_found. rewrite Hc.
    by destruct rule. }
  assert (Hskip' : forall cur rule, Str.otruthy cur = false ->
                     unless_found_or_raise cur (Ok rule)
                     = Ok (unless_found cur rule)).
  { intros cur rule Hc. unfold unless_found_or_raise. by rewrite Hc. }
  assert (Hpassed : forall rule, passed (Ok rule) -> Str.otruthy rule = false).
  { intros rule (found & [= <-] & Hf). exact Hf. }
  destruct before as [|b1 [|b2 [|b3 [|b4 [|b5 [|b6 more]]]]]];
    cbn in Hr; injection Hr as ?; subst;
    repeat match goal with
           | H : Forall _ (_ :: _) |- _ => apply Forall_cons in H as [? H]
           end;
    repeat match goal with
           | H : passed (Ok _) |- _ => apply Hpassed in H
           end;
    try (destruct more; discriminate).
  - match goal with H : rule1 P = _ |- _ => rewrite H end.
    rewrite Hkeep, Hkeep'. cbn [bind]. rewrite Hkeep'. cbn [bind].
    by rewrite !Hkeep.
  - match goal with H : rule2 P = _ |- _ => rewrite H end.
    rewrite Hnext by done. rewrite Hkeep'. cbn [bind]. rewrite Hkeep'.
    cbn [bind]. by rewrite !Hkeep.
  - match goal with H : rule3 E P base_url = _ |- _ => rewrite H end.
    rewrite Hnext' by auto. cbn [bind]. rewrite Hkeep'. cbn [bind].
    by rewrite !Hkeep.
  - match goal with Hp : passed (rule3 E P base_url) |- _ =>
      unfold passed in Hp; destruct Hp as (f3 & Hr3 & Hf3) end.
    match goal with H : rule4 E P base_url = _ |- _ => rewrite H end.
    rewrite Hr3, Hskip' by auto. cbn [bind].
    rewrite Hnext' by auto. cbn [bind]. by rewrite !Hkeep.
  - match goal with Hp : passed (rule3 E P base_url) |- _ =>
      unfold passed in Hp; destruct Hp as (f3 & Hr3 & Hf3) end.
    match goal with Hp : passed (rule4 E P base_url) |- _ =>
      unfold passed in Hp; destruct Hp as (f4 & Hr4 & Hf4) end.
    match goal with H : rule5 E P base_url = _ |- _ => rewrite H end.
    rewrite Hr3, Hskip' by auto. cbn [bind].
    rewrite Hr4, Hskip' by auto. cbn [bind].
    rewrite Hnext by auto 6. by rewrite !Hkeep.
  - match goal with Hp : passed (rule3 E P base_url) |- _ =>
      unfold passed in Hp; destruct Hp as (f3 & Hr3 & Hf3) end.
    match goal with Hp : passed (rule4 E P base_url) |- _ =>
      unfold passed in Hp; destruct Hp as (f4 & Hr4 & Hf4) end.
    match goal with H : rule6 P = _ |- _ => rewrite H end.
    rewrite Hr3, Hskip' by auto. cbn [bind].
    rewrite Hr4, Hskip' by auto. cbn [bind].
    rewrite Hnext by auto 7. done.
Qed.

Lemma first_truthy_rule_wins_witness :
  discover_submit_url Fixture.offline Fixture.page_with_form_and_link
    Fixture.base = Ok (Some "https://h.io/answers").
Proof.
  apply (first_truthy_rule_wins Fixture.offline Fixture.page_with_form_and_link
           Fixture.base [Ok None; Ok None]
           [Ok (Some "https://h.io/api/help"); Ok None; Ok None]
           "https://h.io/answers");
    [reflexivity | repeat constructor; by exists None | reflexivity].
Defined.

(** A later rule that would raise does not matter either: the form has
    an action, and the hyperlink that [urljoin] cannot join is never
    looked at. *)
Lemma later_rule_is_not_run :
  let P := {| body_text := "Answer the question and send it.";
              script_strings := [];
              form_action := Some "/answers";
              hrefs := ["//[submit"];
              pre_texts := [];
              tables := [] |} in
  rule4 Served.serving P Fixture.base = Raise "Invalid IPv6 URL" /\
  discover_submit_url Served.serving P Fixture.base =
    Ok (Some "https://h.io/answers").
Proof. split; reflexivity. Qed.

(** *** The target found in the text *)





End RulesFacts.

(** ** The worker and the front door: composition *)

Module ServiceFacts.
Import Handler Worker App.

(** X19.  When the worker returns, it has loaded the quiz URL, run the
    handler on the page with the quiz URL as the base URL, and sent one
    POST: to the target the resolver found on that page, with the JSON
    text of the payload without its [submit_url] item as the body.  What
    it returns is the response parsed as JSON, or the object with the
    one key [raw] and the text of the response when that is no JSON. *)
Theorem worker_posts_to_discovered_target (W : World)
    (email secret : pyval) (url : string) (r : pyval) :
  solve_quiz_task W email secret url = Ok r ->
  exists page p target sent body text,
    goto W url = Ok page /\
    snd (handle_quiz_page (env W) page email secret (Some url)) = Ok p /\
    discover_submit_url (env W) page (Some url) = Ok (Some target) /\
    dict_pop "submit_url" p = Some (VStr target, sent) /\
    dict_get sent "submit_url" = None /\
    json_dumps W (VDict sent) = Ok body /\
    http_post W target body = Ok text /\
    r = match json_loads (env W) text with
        | Some j => j
        | None => VDict [("raw", VStr text)]
        end.
Proof.
  unfold solve_quiz_task.
  destruct (goto W url) as [page|] eqn:Hgo; [|done].
  destruct (handle_quiz_page (env W) page email secret (Some url))
    as [requested [p|]] eqn:Hp; [|done].
  destruct (submission W p) as [[target body]|] eqn:Hsub; [|done].
  destruct (http_post W target body) as [text|] eqn:Hpost; [|done].
  intros Hr.
  assert (Hr' : r = match json_loads (env W) text with
                    | Some j => j
                    | None => VDict [("raw", VStr text)]
                    end)
    by (destruct (json_loads (env W) text); by injection Hr).
  assert (Hsnd : snd (handle_quiz_page (env W) page email secret (Some url))
                 = Ok p) by (by rewrite Hp).
  apply WorkerFacts.payload_shape in Hp as (answer & t & Hfound & _ & Hshape).
  exists page, p.
  destruct Hshape as [Hshape | [att Hshape]]; rewrite Hshape in Hsub |- *;
    unfold submission in Hsub; cbn in Hsub;
    destruct (json_dumps W _) as [b|] eqn:Hd; try discriminate;
    injection Hsub as <- <-;
    eexists t, _, b, text;
    (split; [done|]); (split; [by rewrite <- Hshape|]); (split; [done|]);
    (split; [reflexivity|]); (split; [reflexivity|]);
    (split; [exact Hd|]); by split.
Qed.

Lemma worker_posts_to_discovered_target_witness :
  exists page p target sent body text,
    goto Fixture.world "https://h.io/quiz" = Ok page /\
    snd (handle_quiz_page (env Fixture.world) page Fixture.me Fixture.pw
           (Some "https://h.io/quiz")) = Ok p /\
    discover_submit_url (env Fixture.world) page (Some "https://h.io/quiz")
      = Ok (Some target) /\
    dict_pop "submit_url" p = Some (VStr target, sent) /\
    dict_get sent "submit_url" = None /\
    json_dumps Fixture.world (VDict sent) = Ok body /\
    http_post Fixture.world target body = Ok text /\
    VDict [("raw", VStr "{}")] =
      match json_loads (env Fixture.world) text with
      | Some j => j
      | None => VDict [("raw", VStr text)]
      end.
Proof.
  apply (worker_posts_to_discovered_target Fixture.world Fixture.me Fixture.pw
           "https://h.io/quiz" (VDict [("raw", VStr "{}")])).
  reflexivity.
Defined.

(** *** The front door *)

Lemma differs_false secret e : differs secret e = false -> secret = VStr e.
Proof.
  destruct secret; cbn; try done.
  rewrite Bool.negb_false_iff. intros H. by apply String.eqb_eq in H as ->.
Qed.

Lemma differs_same e : differs (VStr e) e = false.
Proof. cbn. by rewrite String.eqb_refl. Qed.

(** X20.  The solver is behind the three checks: the response of the
    front door depends on the solver only through what it does for the
    email, the secret and the URL of a request whose body is a JSON
    object, whose secret is the expected one, and whose email and URL are
    truthy.  For every other request the response is the same whatever
    the solver would do: a caller that does not know the secret learns
    nothing from it and sets nothing off. *)
Theorem solver_is_gated (expected : option string) (json : option pyval)
    (solve1 solve2 : pyval -> pyval -> pyval -> result pyval) :
  (forall data e,
     json = Some (VDict data) -> expected = Some e ->
     get data "secret" = VStr e ->
     truth (get data "email") = true -> truth (get data "url") = true ->
     solve1 (get data "email") (VStr e) (get data "url") =
     solve2 (get data "email") (VStr e) (get data "url")) ->
  quiz expected json solve1 = quiz expected json solve2.
Proof.
  intros H. destruct json as [v|]; [|done].
  destruct v as [| | | | | |data]; try done.
  destruct expected as [e|]; [|done]. cbn.
  destruct (differs (get data "secret") e) eqn:Hs; [done|].
  apply differs_false in Hs.
  destruct (truth (get data "email")) eqn:He; [|done].
  destruct (truth (get data "url")) eqn:Hu; [|done]. cbn.
  specialize (H data e eq_refl eq_refl Hs He Hu).
  rewrite Hs in *. by rewrite H.
Qed.

Lemma solver_is_gated_witness :
  quiz (Some "s3cret")
    (Some (VDict [("email", VStr "a@b.c"); ("secret", VStr "guess");
                  ("url", VStr "https://h.io/quiz")])) Fixture.solved =
  quiz (Some "s3cret")
    (Some (VDict [("email", VStr "a@b.c"); ("secret", VStr "guess");
                  ("url", VStr "https://h.io/quiz")]))
    (fun _ _ _ => Raise "the solver ran").
Proof.
  apply solver_is_gated.
  intros data e [= <-] [= <-] Hs. discriminate Hs.
Defined.

(** X21.  The front door answers 200 exactly when the body is a JSON
    object, the secret is the expected one, email and URL are truthy and
    the solver returns; the body of the response is then the object with
    [status] = [done] and the solver's result under [result].  The
    status is always one of 200, 400, 403 and 500. *)
Theorem ok_iff_solved (expected : option string) (json : option pyval)
    (solve : pyval -> pyval -> pyval -> result pyval) :
  (served_status (quiz expected json solve) = 200%Z <->
   exists data e r,
     json = Some (VDict data) /\ expected = Some e /\
     get data "secret" = VStr e /\
     truth (get data "email") = true /\ truth (get data "url") = true /\
     solve (get data "email") (VStr e) (get data "url") = Ok r /\
     quiz expected json solve =
       Ok {| status := 200;
             body := VDict [("status", VStr "done"); ("result", r)] |}) /\
  In (served_status (quiz expected json solve)) [200; 400; 403; 500]%Z.
Proof.
  split.
  - split.
    + destruct json as [v|]; [|done].
      destruct v as [| | | | | |data]; try done.
      destruct expected as [e|]; [|done]. cbn.
      destruct (differs (get data "secret") e) eqn:Hs; [done|].
      apply differs_false in Hs.
      destruct (truth (get data "email")) eqn:He; [|done].
      destruct (truth (get data "url")) eqn:Hu; [|done]. cbn.
      destruct (solve _ _ _) as [r|msg] eqn:Hr; [|done].
      intros _. exists data, e, r. by rewrite Hs in *.
    + intros (data & e & r & -> & -> & Hs & He & Hu & Hr & Hq). by rewrite Hq.
  - destruct json as [v|]; [|cbn; tauto].
    destruct v as [| | | | | |data]; try (cbn; tauto).
    destruct expected as [e|]; [|cbn; tauto]. cbn.
    destruct (differs (get data "secret") e); [cbn; tauto|].
    destruct (_ || _); [cbn; tauto|].
    destruct (solve _ _ _); cbn; tauto.
Qed.

(** X22.  End to end: when the handler raises on the page of a request
    that passes the checks, the front door answers 500 with the message
    of the exception under [error].  A quiz page without a submission
    target is therefore answered with 500 and
    [submit_url not found on page]. *)
Theorem handler_failure_is_500 (W : World)
    (solve : pyval -> pyval -> pyval -> result pyval)
    (data : list (string * pyval)) (e u msg : string) (page : page_view) :
  (forall email secret v,
     solve email secret (VStr v) = solve_quiz_task W email secret v) ->
  get data "secret" = VStr e ->
  truth (get data "email") = true ->
  get data "url" = VStr u ->
  Str.truthy u = true ->
  goto W u = Ok page ->
  snd (handle_quiz_page (env W) page (get data "email") (VStr e) (Some u))
    = Raise msg ->
  quiz (Some e) (Some (VDict data)) solve = Ok (error msg 500).
Proof.
  intros Hsolve Hs He Hu Hut Hgo Hraise. cbn.
  rewrite Hs, differs_same, He, Hu. cbn [truth]. rewrite Hut. cbn.
  rewrite Hsolve. unfold solve_quiz_task. rewrite Hgo.
  destruct (handle_quiz_page (env W) page (get data "email") (VStr e) (Some u))
    as [requested res].
  cbn [snd] in Hraise. by rewrite Hraise.
Qed.

Lemma handler_failure_is_500_witness :
  quiz (Some "s3cret") (Some (VDict Served.request))
    (Served.solver Served.lost) =
    Ok (error "submit_url not found on page" 500).
Proof.
  apply (handler_failure_is_500 Served.lost (Served.solver Served.lost)
           Served.request "s3cret" "https://h.io/quiz"
           "submit_url not found on page" Fixture.page_without_target);
    reflexivity.
Defined.

End ServiceFacts.

(** ** The first handler *)

Module OldFacts.
Import Re ReFacts Handler Chars CharsFacts.

Lemma lit_inv s w : matches (lit s) w -> w = s.
Proof.
  revert w. induction s as [|c s IH]; intros w H; cbn in H.
  - by inversion H.
  - inversion H as [| |a b w1 w2 H1 H2| | | | | | | |]; subst.
    inversion H1 as [|p d Hd| | | | | | | | |]; subst.
    apply Ascii.eqb_eq in Hd. rewrite app_cons, app_empty.
    by rewrite <- Hd, (IH w2 H2).
Qed.

Lemma endswith_app v p : Str.endswith (v +:+ p) p = true.
Proof.
  unfold Str.endswith. rewrite rev_app. apply startswith_app.
Qed.

Lemma old_target_inv w :
  matches Old.re_submit w ->
  Str.startswith w "http" = true /\ Str.endswith w "/submit" = true.
Proof.
  unfold Old.re_submit. cbn [seqs]. intros H.
  inversion H as [| |a b w1 r1 H1 Hr1| | | | | | | |]; subst.
  inversion Hr1 as [| |a b w2 r2 H2 Hr2| | | | | | | |]; subst.
  inversion Hr2 as [| |a b w3 r3 H3 Hr3| | | | | | | |]; subst.
  inversion Hr3 as [| |a b w4 w5 H4 H5| | | | | | | |]; subst.
  apply (lit_inv "http") in H1. apply (lit_inv "/submit") in H5. subst.
  split.
  - apply startswith_app.
  - rewrite <- !append_assoc. apply endswith_app.
Qed.

(** X23.  The first handler returns a payload exactly when some part of
    the text of the page matches its one pattern, and raises RuntimeError
    [submit_url not found on the quiz page] exactly when none does.  The
    target of the payload is the match the search returns: a part of the
    text that the pattern matches, at the leftmost place where a match
    starts; it begins with [http], ends with [/submit] and holds no
    whitespace and no quote, with the letter case as written.  The
    answer is always [unable to solve], and email, secret and base URL
    are passed through. *)
Theorem old_handler_result (text : string) (email secret : pyval)
    (base_url : option string) :
  match Old.handle_quiz_page text email secret base_url with
  | Ok p =>
      exists u before rest,
        p = reply_items email secret base_url (VStr "unable to solve") u /\
        text = before +:+ u +:+ rest /\
        matches Old.re_submit u /\
        (forall b w t, text = b +:+ w +:+ t -> matches Old.re_submit w ->
                       String.length before <= String.length b) /\
        Str.startswith u "http" = true /\
        Str.endswith u "/submit" = true /\
        all_chars Old.plain_char u = true
  | Raise e =>
      e = "submit_url not found on the quiz page" /\
      forall before w rest,
        text = before +:+ w +:+ rest -> ~ matches Old.re_submit w
  end /\
  ((exists p, Old.handle_quiz_page text email secret base_url = Ok p) <->
   exists before w rest,
     text = before +:+ w +:+ rest /\ matches Old.re_submit w).
Proof.
  assert (Hres :
    match Old.handle_quiz_page text email secret base_url with
    | Ok p =>
        exists u before rest,
          p = reply_items email secret base_url (VStr "unable to solve") u /\
          text = before +:+ u +:+ rest /\
          matches Old.re_submit u /\
          (forall b w t, text = b +:+ w +:+ t -> matches Old.re_submit w ->
                         String.length before <= String.length b) /\
          Str.startswith u "http" = true /\
          Str.endswith u "/submit" = true /\
          all_chars Old.plain_char u = true
    | Raise e =>
        e = "submit_url not found on the quiz page" /\
        forall before w rest,
          text = before +:+ w +:+ rest -> ~ matches Old.re_submit w
    end).
  { unfold Old.handle_quiz_page.
    destruct (search Old.re_submit text) as [m|] eqn:Hs.
    - pose proof (search_leftmost _ _ _ Hs) as (before & rest & Ht & Hm & Hleft).
      pose proof (old_target_inv _ Hm) as [Hhttp Hend].
      assert (Htruthy : Str.truthy (whole m) = true).
      { destruct (whole m); [discriminate Hhttp | done]. }
      cbn [Str.otruthy or_empty]. rewrite Htruthy. cbn [negb].
      exists (whole m), before, rest.
      split; [done|]. split; [done|]. split; [done|]. split; [done|].
      split; [done|]. split; [done|].
      apply (within_sound Old.plain_char Old.re_submit); [by vm_compute | done].
    - cbn. split; [done|]. by apply search_none_iff. }
  split; [exact Hres|].
  destruct (Old.handle_quiz_page text email secret base_url) as [p|e].
  - destruct Hres as (u & before & rest & _ & Ht & Hm & _).
    split; [intros _; by exists before, u, rest | intros _; by exists p].
  - destruct Hres as [_ Hnone]. split; [by intros [p [=]]|].
    intros (before & w & rest & Ht & Hm). by destruct (Hnone before w rest).
Qed.

(** On the page of the examples the first handler finds the target and
    gives its constant answer. *)
Lemma old_handler_on_the_example :
  Old.handle_quiz_page
    (body_text (Fixture.ask "What is the sum of the A column?" Fixture.table_AB))
    Fixture.me Fixture.pw Fixture.base =
  Ok (reply_items Fixture.me Fixture.pw Fixture.base
        (VStr "unable to solve") "https://h.io/submit").
Proof. reflexivity. Qed.

End OldFacts.
